(** * Rainbow MOS line editor: a shallow embedding and its properties

    The development follows [src/mos_editor.c] (line buffer primitives,
    hotkeys, tab completion, the [mos_EDITLINE] loop and the command
    history) and the helpers of [src/strings.c] it calls.

    Conventions of the embedding:
    - a C [char] is an [ascii]; a [char] array is a [list ascii] whose
      length is the size of the array; a C string inside an array ends at
      the first NUL;
    - a C [int] is a [Z]; the [uint8_t] locals of the source are reduced
      modulo 256 where the source assigns them;
    - reads outside an array yield NUL and writes outside it are dropped
      (C leaves both undefined); the theorems state the bounds under which
      every access is inside the array;
    - terminal output is a trace of [vdu] operations. *)

From Stdlib Require Import ZArith List Ascii String Bool Lia.
From stdpp Require Import base list.

Open Scope Z_scope.

(** ** Characters and arrays *)

Definition NUL : ascii := Ascii.zero.

Definition is_nul (c : ascii) : bool := Ascii.eqb c NUL.

Definition code (c : ascii) : Z := Z.of_N (N_of_ascii c).

Definition chr (z : Z) : ascii := ascii_of_N (Z.to_N (z mod 256)).

(** [b[i]] as an rvalue. *)
Definition rd (b : list ascii) (i : Z) : ascii :=
  if i <? 0 then NUL else default NUL (b !! Z.to_nat i).

(** [b[i] = c]. *)
Definition wr (b : list ascii) (i : Z) (c : ascii) : list ascii :=
  if i <? 0 then b else <[Z.to_nat i := c]> b.

(** [p + k] for a [char *p]: the array seen from offset [k]. *)
Definition at_offset (b : list ascii) (k : Z) : list ascii :=
  drop (Z.to_nat k) b.

(** [for (i = lo; ...; i++) s = body i s], [n] iterations. *)
Fixpoint for_up {S : Type} (n : nat) (i : Z) (body : Z -> S -> S) (s : S) : S :=
  match n with
  | O => s
  | S n' => for_up n' (i + 1) body (body i s)
  end.

(** [for (i = hi; ...; i--) s = body i s], [n] iterations. *)
Fixpoint for_down {S : Type} (n : nat) (i : Z) (body : Z -> S -> S) (s : S) : S :=
  match n with
  | O => s
  | S n' => for_down n' (i - 1) body (body i s)
  end.

(** ** libc string functions *)

Fixpoint strlen_nat (b : list ascii) : nat :=
  match b with
  | [] => O
  | c :: r => if is_nul c then O else S (strlen_nat r)
  end.

Definition strlen (b : list ascii) : Z := Z.of_nat (strlen_nat b).

(** [strnlen(s, n)]; the [int] argument is converted to [size_t], so a
    negative bound does not bound at all. *)
Definition strnlen (b : list ascii) (n : Z) : Z :=
  if n <? 0 then strlen b else Z.min (strlen b) n.

(** The characters of the C string held in [b]. *)
Definition cstr (b : list ascii) : list ascii := take (strlen_nat b) b.

(** [memcpy(dst + at, src, n)] and [memmove]: [n] bytes of [src] land in
    [dst] from index [at] on. *)
Definition memcpy (dst : list ascii) (at_ : Z) (src : list ascii) (n : Z) : list ascii :=
  for_up (Z.to_nat n) 0 (fun k d => wr d (at_ + k) (rd src k)) dst.

Definition memmove (b : list ascii) (to from n : Z) : list ascii :=
  memcpy b to (at_offset b from) n.

(** [memset(b, c, n)]. *)
Definition memset (b : list ascii) (c : ascii) (n : Z) : list ascii :=
  for_up (Z.to_nat n) 0 (fun k d => wr d k c) b.

(** ** Terminal output *)

(** [doLeftCursor] and [doRightCursor] ask the terminal for its cursor
    column before they choose the bytes to send; the trace records the
    call. [Prompt] is [mos_print_prompt] and [Candidates] the listing of
    [print_expansion_candidates], which sorts and lays out the vector it
    is given. *)
Inductive TabExpansionType : Type := ExpandNormal | ExpandDirectory.

Inductive vdu : Type :=
  | Putch (c : ascii)
  | Print (s : list ascii)
  | LeftCursor
  | RightCursor
  | Prompt
  | Candidates (names : list (TabExpansionType * list ascii)).

Definition doLeftCursor : list vdu := [LeftCursor].
Definition doRightCursor : list vdu := [RightCursor].

(** ** Line buffer primitives (mos_editor.c) *)

Definition insertCharacter (buffer : list ascii) (buffer_capacity : Z)
    (c : ascii) (insertPos : Z) : bool * list ascii * list vdu :=
  let len := strnlen buffer buffer_capacity in
  if len <? buffer_capacity - 1 then
    let buffer1 :=
      for_down (Z.to_nat (len - insertPos + 1)) len
        (fun i b => wr b (i + 1) (rd b i)) buffer in
    let buffer2 := wr buffer1 insertPos c in
    let count := Z.to_nat (len - insertPos) in
    let echo :=
      for_up count (insertPos + 1) (fun i o => o ++ [Putch (rd buffer2 i)]) [] in
    (true, buffer2, [Putch c] ++ echo ++ concat (repeat doLeftCursor count))
  else (false, buffer, []).

Definition deleteCharacter (buffer : list ascii) (insertPos len : Z)
    : bool * list ascii * list vdu :=
  if 0 <? insertPos then
    let count := Z.to_nat (len - (insertPos - 1)) in
    let '(buffer1, echo) :=
      for_up count (insertPos - 1)
        (fun i '(b, o) =>
           let c := rd b (i + 1) in
           (wr b i c, o ++ [Putch (if is_nul c then " "%char else c)]))
        (buffer, []) in
    (true, buffer1, doLeftCursor ++ echo ++ concat (repeat doLeftCursor count))
  else (false, buffer, []).


(** [gotoEditLineStart] (HOME) and [gotoEditLineEnd] (END): the new insert
    position and the cursor moves sent. *)
Definition gotoEditLineStart (insertPos : Z) : Z * list vdu :=
  (if 0 <? insertPos then 0 else insertPos,
   concat (repeat doLeftCursor (Z.to_nat insertPos))).

Definition gotoEditLineEnd (insertPos len : Z) : Z * list vdu :=
  (if insertPos <? len then len else insertPos,
   concat (repeat doRightCursor (Z.to_nat (len - insertPos)))).

(** One of the two [while] loops of [deleteWord]: delete before the
    cursor while the character there satisfies [cond]. The cursor moves
    down by one per turn, so [insertPos] turns are enough. [num_deleted]
    is a [uint8_t]. *)
Fixpoint deleteWord_while (fuel : nat) (cond : ascii -> bool) (len : Z)
    (st : list ascii * Z * Z * list vdu) : list ascii * Z * Z * list vdu :=
  match fuel with
  | O => st
  | S fuel' =>
      let '(buffer, insertPos, num_deleted, o) := st in
      if (0 <? insertPos) && cond (rd buffer (insertPos - 1)) then
        let '(_, buffer', o') := deleteCharacter buffer insertPos len in
        deleteWord_while fuel' cond len
          (buffer', insertPos - 1, (num_deleted + 1) mod 256, o ++ o')
      else st
  end.

Definition is_space (c : ascii) : bool := Ascii.eqb c " "%char.

Definition deleteWord (buffer : list ascii) (insertPos len : Z)
    : Z * list ascii * list vdu :=
  let fuel := Z.to_nat insertPos in
  (* First the trailing spaces *)
  let st1 := deleteWord_while fuel is_space len (buffer, insertPos, 0, []) in
  (* Then 1 'word' *)
  let '(buffer2, _, num_deleted, o) :=
    deleteWord_while fuel (fun c => negb (is_space c)) len st1 in
  (num_deleted, buffer2, o).

Definition removeEditLine (buffer : list ascii) (insertPos len : Z)
    : list ascii * list vdu :=
  let '(_, o1) := gotoEditLineStart insertPos in
  let buffer1 := memset buffer " "%char len in
  let o2 := [Print (cstr buffer1)] in
  let buffer2 := wr buffer1 0 NUL in
  let '(_, o3) := gotoEditLineStart len in
  (buffer2, o1 ++ o2 ++ o3).

(** ** strings.c *)

(** The allocator is a collaborator: [heap] lists the outcomes of the
    coming [umm_malloc] calls, and once the list is used up every call
    succeeds. *)
Definition heap : Type := list bool.

Definition umm_malloc (h : heap) : bool * heap :=
  match h with
  | [] => (true, [])
  | ok :: h' => (ok, h')
  end.

(** [mos_strndup]: [None] is the NULL pointer; the copy is an array of
    [len + 1] bytes. *)
Definition mos_strndup (s : list ascii) (n : Z) (h : heap)
    : option (list ascii) * heap :=
  let len := strnlen s n in
  let '(ok, h') := umm_malloc h in
  if ok then (Some (take (Z.to_nat len) s ++ [NUL]), h') else (None, h').

(** The [size_t] result comes back as the [int] it is assigned to. *)
Definition strbuf_insert (buf : list ascii) (buf_capacity : Z)
    (src : list ascii) (insert_loc : Z) : list ascii * Z :=
  let src_len := strlen src in
  let dest_tail_len := strlen (at_offset buf insert_loc) + 1 in
  let count := Z.min dest_tail_len (buf_capacity - insert_loc - src_len - 1) in
  let buf1 :=
    if 0 <? count then memmove buf (insert_loc + src_len) insert_loc count
    else buf in
  let buf2 := wr buf1 (insert_loc + src_len + count) NUL in
  let count' := Z.min src_len (buf_capacity - insert_loc - 1) in
  let buf3 := if 0 <? count' then memcpy buf2 insert_loc src count' else buf2 in
  (buf3, count').

Definition strbuf_append (buf : list ascii) (buf_capacity : Z)
    (str_to_append : list ascii) (max_chars_to_append : Z) : list ascii :=
  let src_len := strnlen str_to_append max_chars_to_append in
  let insert_loc := strnlen buf buf_capacity in
  let count := Z.min src_len (buf_capacity - insert_loc - 1) in
  let buf1 := if 0 <? count then memcpy buf insert_loc str_to_append count else buf in
  wr buf1 (insert_loc + count) NUL.

(** [strcmp(a, b) == 0]. *)
Fixpoint strcmp_eq (a b : list ascii) : bool :=
  match a with
  | [] => is_nul (hd NUL b)
  | ca :: ra =>
      if is_nul ca then is_nul (hd NUL b)
      else match b with
           | [] => false
           | cb :: rb => Ascii.eqb ca cb && strcmp_eq ra rb
           end
  end.

(** [strstr(hay, needle)]: offset of the first occurrence, [None] for
    NULL. *)
Fixpoint starts_with (needle hay : list ascii) : bool :=
  match needle, hay with
  | [], _ => true
  | _ :: _, [] => false
  | n :: needle', c :: hay' => Ascii.eqb n c && starts_with needle' hay'
  end.

Fixpoint find_sub (needle hay : list ascii) : option Z :=
  if starts_with needle hay then Some 0
  else match hay with
       | [] => None
       | _ :: hay' => Z.succ <$> find_sub needle hay'
       end.

Definition strstr (hay needle : list ascii) : option Z :=
  find_sub (cstr needle) (cstr hay).

Definition lit (s : string) : list ascii := list_ascii_of_string s.

(** A [char] array of [capacity] bytes holding the string [s]. *)
Definition buf_of (s : string) (capacity : nat) : list ascii :=
  lit s ++ repeat NUL (capacity - String.length s).

(** A C string constant: its characters and the terminator. *)
Definition cconst (s : string) : list ascii := lit s ++ [NUL].

(** ** Hotkeys *)

Definition BEL : ascii := chr 7.

(** [hotkey_strings] has 12 slots; [None] is an unassigned (NULL) slot.
    [prefixLength], [replacementLength] and [suffixLength] are [uint8_t].
    The result is the handled flag, the buffer, the output and the heap. *)
Definition handleHotkey (hotkey_strings : list (option (list ascii)))
    (fkey : Z) (buffer : list ascii) (bufferLength insertPos len : Z) (h : heap)
    : bool * list ascii * list vdu * heap :=
  match mjoin (hotkey_strings !! Z.to_nat fkey) with
  | Some hotkey =>
      match strstr hotkey (cconst "%s") with
      | None => (* No wildcard in the hotkey string *)
          let '(buffer1, o1) := removeEditLine buffer insertPos len in
          let buffer2 := wr buffer1 0 NUL in
          let buffer3 := strbuf_append buffer2 bufferLength hotkey bufferLength in
          (true, buffer3, o1 ++ [Print (cstr buffer3)], h)
      | Some wildcardPos =>
          let prefixLength := wildcardPos mod 256 in
          let replacementLength := strlen buffer mod 256 in
          let suffixLength := strlen (at_offset hotkey (wildcardPos + 2)) mod 256 in
          if bufferLength <=? prefixLength + replacementLength + suffixLength + 1 then
            (* Exceeds max command length: beep *)
            (false, buffer, [Putch BEL], h)
          else
            let result_capacity := prefixLength + replacementLength + suffixLength + 1 in
            let '(ok, h') := umm_malloc h in
            if negb ok then (false, buffer, [], h')
            else
              let result0 := wr (repeat NUL (Z.to_nat result_capacity)) 0 NUL in
              let result1 := strbuf_append result0 result_capacity hotkey prefixLength in
              let result2 :=
                strbuf_append result1 result_capacity buffer (strnlen buffer bufferLength) in
              let result3 :=
                strbuf_append result2 result_capacity
                  (at_offset hotkey (wildcardPos + 2)) result_capacity in
              let '(buffer1, o1) := removeEditLine buffer insertPos len in
              let buffer2 := wr buffer1 0 NUL in
              let buffer3 := strbuf_append buffer2 bufferLength result3 result_capacity in
              (true, buffer3, o1 ++ [Print (cstr buffer3)], h')
      end
  | None => (false, buffer, [], h)
  end.

(** ** Command history *)

(** The history globals: [cmd_history] has [cmd_historyDepth] slots, each
    NULL ([None]) or an owned string. *)
Record history : Type := mkHistory {
  cmd_history : list (option (list ascii));
  history_size : Z;
  history_no : Z
}.

Definition set_slot (slots : list (option (list ascii))) (i : Z)
    (p : option (list ascii)) : list (option (list ascii)) :=
  if i <? 0 then slots else <[Z.to_nat i := p]> slots.

Definition get_slot (slots : list (option (list ascii))) (i : Z)
    : option (list ascii) :=
  if i <? 0 then None else mjoin (slots !! Z.to_nat i).

(** [cmd_history[i]] where the source dereferences it: [None] when the
    slot is NULL or outside the array, which C leaves undefined. *)
Definition history_entry (hs : history) (i : Z) : option (list ascii) :=
  get_slot (cmd_history hs) i.

Section History.

(** [cmd_historyDepth] comes from a header that is not among the
    sources. *)
Variable cmd_historyDepth : Z.

Definition editHistoryInit : history :=
  mkHistory (repeat None (Z.to_nat cmd_historyDepth)) 0 0.

(** [None]: the comparison with the last entry dereferenced NULL. *)
Definition editHistoryPush (buffer : list ascii) (buffer_capacity : Z)
    (hs : history) (h : heap) : option (history * heap) :=
  let len := strnlen buffer buffer_capacity in
  if 0 <? len then
    (* if the new entry is the same as the last entry, then don't save it *)
    let same :=
      if 0 <? history_size hs then
        strcmp_eq buffer <$> history_entry hs (history_size hs - 1)
      else Some false in
    match same with
    | None => None
    | Some true => Some (hs, h)
    | Some false =>
        let '(newEntry, h') := mos_strndup buffer buffer_capacity h in
        let '(slots, size) :=
          if history_size hs =? cmd_historyDepth then
            (for_up (Z.to_nat (history_size hs - 1)) 1
               (fun i sl => set_slot sl (i - 1) (get_slot sl i))
               (cmd_history hs),
             history_size hs - 1)
          else (cmd_history hs, history_size hs) in
        Some (mkHistory (set_slot slots size newEntry) (size + 1) (history_no hs), h')
    end
  else Some (hs, h).

(** The result is the line-changed flag, the buffer, the history and the
    output; [None] when the chosen entry is NULL. *)
Definition editHistorySet (buffer : list ascii) (buffer_capacity insertPos len : Z)
    (index : Z) (hs : history)
    : option (bool * list ascii * history * list vdu) :=
  if (0 <=? index) && (index <? history_size hs) then
    let '(buffer1, o) := removeEditLine buffer insertPos len in
    let buffer2 := wr buffer1 0 NUL in
    match history_entry hs index with
    | None => None
    | Some entry =>
        let buffer3 := strbuf_append buffer2 buffer_capacity entry (buffer_capacity - 1) in
        Some (true, buffer3,
              mkHistory (cmd_history hs) (history_size hs) index, o)
    end
  else Some (false, buffer, hs, []).

Definition editHistoryUp (buffer : list ascii) (buffer_capacity insertPos len : Z)
    (hs : history) : option (bool * list ascii * history * list vdu) :=
  let index :=
    if 0 <? history_no hs then history_no hs - 1
    else if 0 <? history_size hs then 0
    else -1 in
  editHistorySet buffer buffer_capacity insertPos len index hs.

Definition editHistoryDown (buffer : list ascii) (buffer_capacity insertPos len : Z)
    (hs : history) : option (bool * list ascii * history * list vdu) :=
  if history_no hs <? history_size hs then
    if history_no hs =? history_size hs - 1 then
      (* already at most recent entry - just leave an empty line *)
      let '(buffer1, o) := removeEditLine buffer insertPos len in
      Some (true, buffer1,
            mkHistory (cmd_history hs) (history_size hs) (history_size hs), o)
    else
      editHistorySet buffer buffer_capacity insertPos len (history_no hs + 1)
        (mkHistory (cmd_history hs) (history_size hs) (history_no hs + 1))
  else Some (false, buffer, hs, []).

End History.

(** ** Tab completion *)

Definition toupper (c : ascii) : ascii :=
  if (97 <=? code c) && (code c <=? 122) then chr (code c - 32) else c.

(** [strncasecmp(a, b, n) == 0]. *)
Fixpoint strncasecmp_eq (n : nat) (a b : list ascii) : bool :=
  match n with
  | O => true
  | S n' =>
      let ca := hd NUL a in
      let cb := hd NUL b in
      if Ascii.eqb (toupper ca) (toupper cb) then
        if is_nul ca then true else strncasecmp_eq n' (tl a) (tl b)
      else false
  end.

(** [slice_strrchr]: the index of the last [needle] among the first [len]
    bytes, [None] for NULL. *)
Fixpoint slice_strrchr_from (n : nat) (s : list ascii) (needle : ascii) : option Z :=
  match n with
  | O => None
  | S n' =>
      if Ascii.eqb (rd s (Z.of_nat n')) needle then Some (Z.of_nat n')
      else slice_strrchr_from n' s needle
  end.

Definition slice_strrchr (s : list ascii) (len : Z) (needle : ascii) : option Z :=
  slice_strrchr_from (Z.to_nat len) s needle.

Definition strrchr (s : list ascii) (needle : ascii) : option Z :=
  slice_strrchr s (strlen s) needle.

Fixpoint skip_spaces (fuel : nat) (i : Z) (str : list ascii) (max : Z) : Z :=
  match fuel with
  | O => i
  | S fuel' =>
      if (i <? max) && is_space (rd str i) then skip_spaces fuel' (i + 1) str max
      else i
  end.

Definition find_first_nonspace_chr (str : list ascii) (max : Z) : ascii :=
  rd str (skip_spaces (Z.to_nat max) 0 str max).

Record tab_expansion_context : Type := mkCtx {
  num_matches : Z;
  cmdline : list ascii;
  cmdline_insertpos : Z;
  expansion : list ascii;
  candidates : list (TabExpansionType * list ascii)
}.

(** A directory entry of the filesystem collaborator. *)
Record FILINFO : Type := mkFILINFO {
  fname : list ascii;
  fattrib : Z
}.

Definition AM_DIR : Z := 16.

(** The comparison loop of [notify_tab_expansion] for a later candidate:
    cut the accumulator at the first index where the candidate's text ends
    or differs. [strlen(ctx->expansion)] turns are enough. *)
Fixpoint common_prefix_loop (fuel : nat) (j : Z) (acc exp : list ascii) : list ascii :=
  match fuel with
  | O => acc
  | S fuel' =>
      if is_nul (rd exp j) || negb (Ascii.eqb (toupper (rd acc j)) (toupper (rd exp j)))
      then wr acc j NUL
      else common_prefix_loop fuel' (j + 1) acc exp
  end.

Section TabCompletion.

(** What the missing headers and the collaborators fix: the size of
    [ctx->expansion], the byte stored just before that array (read as
    [expansion[-1]] when nothing was accumulated), the names of the
    command table in table order, the entries [f_findfirst] and
    [f_findnext] report for a directory and a pattern, and [cwd]. *)
Variable expansion_size : Z.
Variable expansion_underflow : ascii.
Variable mosCommands : list (list ascii).
Variable f_find : list ascii -> list ascii -> list FILINFO.
Variable cwd : list ascii.

(** The state a completion attempt threads: the context, the output
    and the heap. *)
Definition tab_state : Type := tab_expansion_context * list vdu * heap.

Definition notify_tab_expansion (showall : bool) (type : TabExpansionType)
    (fullExpansion : list ascii) (fullExpansionLen : Z)
    (expansion_ : list ascii) (expansionLen : Z) (ts : tab_state) : tab_state :=
  let '(ctx, o, h) := ts in
  let '(cands, o1, h1) :=
    if showall then
      let '(e, h') := mos_strndup fullExpansion fullExpansionLen h in
      match e with
      | None => (* out-of-memory fallback. just print the expansion now *)
          (candidates ctx,
           o ++ [Print (take (Z.to_nat fullExpansionLen) (cstr fullExpansion) ++ lit " ")],
           h')
      | Some e' =>
          (* vec_push may have to grow the vector *)
          let '(pushed, h'') := umm_malloc h' in
          if pushed then (candidates ctx ++ [(type, e')], o, h'')
          else
            (candidates ctx,
             o ++ [Print (take (Z.to_nat fullExpansionLen) (cstr fullExpansion) ++ lit " ")],
             h'')
      end
    else (candidates ctx, o, h) in
  let expansion' :=
    if num_matches ctx =? 0 then
      let count :=
        if expansionLen <? 0 then expansion_size - 1
        else Z.min expansionLen (expansion_size - 1) in
      wr (memcpy (expansion ctx) 0 expansion_ count) count NUL
    else
      common_prefix_loop (strlen_nat (expansion ctx)) 0 (expansion ctx) expansion_ in
  (mkCtx (num_matches ctx + 1) (cmdline ctx) (cmdline_insertpos ctx) expansion' cands,
   o1, h1).

Definition try_tab_expand_internal_cmd (showall : bool) (ts : tab_state) : tab_state :=
  fold_left
    (fun ts name =>
       let ctx := fst (fst ts) in
       if strncasecmp_eq (Z.to_nat (cmdline_insertpos ctx)) (cmdline ctx) name then
         notify_tab_expansion showall ExpandNormal name (strlen name)
           (at_offset name (cmdline_insertpos ctx))
           (strlen name - cmdline_insertpos ctx) ts
       else ts)
    mosCommands ts.

(** One [f_findfirst] / [f_findnext] loop: visit the entries until the
    listing ends or an entry has an empty name. *)
Fixpoint find_loop (visit : FILINFO -> tab_state -> tab_state)
    (entries : list FILINFO) (ts : tab_state) : tab_state :=
  match entries with
  | [] => ts
  | fno :: entries' =>
      if is_nul (rd (fname fno) 0) then ts
      else find_loop visit entries' (visit fno ts)
  end.

Definition try_tab_expand_bin_name (showall : bool) (ts : tab_state) : tab_state :=
  let ctx := fst (fst ts) in
  let insertpos := cmdline_insertpos ctx in
  let search_term0 := wr (repeat NUL 128) 0 NUL in
  let search_term1 := strbuf_append search_term0 128 (cmdline ctx) insertpos in
  let search_term := strbuf_append search_term1 128 (cconst "*.bin") 128 in
  let visit fno :=
    notify_tab_expansion showall ExpandNormal (fname fno) (strlen (fname fno) - 4)
      (at_offset (fname fno) insertpos) (strlen (fname fno) - insertpos - 4) in
  (* Try local .bin *)
  let ts1 := find_loop visit (f_find (lit "") (cstr search_term)) ts in
  (* Now try MOSlets *)
  let ts2 :=
    if negb (strcmp_eq cwd (cconst "/mos")) then
      find_loop visit (f_find (lit "/mos/") (cstr search_term)) ts1
    else ts1 in
  (* Otherwise try /bin/ *)
  if negb (strcmp_eq cwd (cconst "/bin")) then
    find_loop visit (f_find (lit "/bin/") (cstr search_term)) ts2
  else ts2.

Definition is_some {A : Type} (o : option A) : bool :=
  match o with Some _ => true | None => false end.

Definition try_tab_expand_argument (showall : bool) (ts : tab_state) : tab_state :=
  let ctx := fst (fst ts) in
  let word_start :=
    match slice_strrchr (cmdline ctx) (cmdline_insertpos ctx) " "%char with
    | None => 0 (* expanding from start of cmdline *)
    | Some i => i + 1
    end in
  let word := at_offset (cmdline ctx) word_start in
  let word_len := cmdline_insertpos ctx - word_start in
  (* don't autocomplete filename arguments containing wildcards *)
  if is_some (slice_strrchr word word_len "*"%char)
     || is_some (slice_strrchr word word_len "?"%char) then ts
  else
    let search_prefix0 := wr (repeat NUL 256) 0 NUL in
    let search_prefix1 := strbuf_append search_prefix0 256 word word_len in
    let search_prefix := strbuf_append search_prefix1 256 (cconst "*") 1 in
    let '(path, term) :=
      match strrchr search_prefix "/"%char with
      | Some last_slash =>
          if negb (last_slash =? 0) then
            (cstr (wr search_prefix last_slash NUL),
             at_offset search_prefix (last_slash + 1))
          else if Ascii.eqb (rd search_prefix 0) "/"%char then
            (lit "/", at_offset search_prefix 1)
          else (lit "", search_prefix)
      | None =>
          if Ascii.eqb (rd search_prefix 0) "/"%char then
            (lit "/", at_offset search_prefix 1)
          else (lit "", search_prefix)
      end in
    (* Special case: '..' *)
    let ts1 :=
      if strcmp_eq term (cconst ".*") then
        notify_tab_expansion showall ExpandDirectory (cconst "..") 2 (cconst "./") 2 ts
      else ts in
    let ts2 :=
      if strcmp_eq term (cconst "..*") then
        notify_tab_expansion showall ExpandDirectory (cconst "..") 2 (cconst "/") 1 ts1
      else ts1 in
    let visit fno :=
      let is_dir := negb (Z.land (fattrib fno) AM_DIR =? 0) in
      let expansion0 := wr (repeat NUL 128) 0 NUL in
      let expansion1 :=
        strbuf_append expansion0 128 (at_offset (fname fno) (strlen term - 1)) (128 - 2) in
      let expansion2 :=
        if is_dir then strbuf_append expansion1 128 (cconst "/") 1 else expansion1 in
      notify_tab_expansion showall
        (if is_dir then ExpandDirectory else ExpandNormal)
        (fname fno) (strlen (fname fno)) expansion2 (strlen expansion2) in
    find_loop visit (f_find path (cstr term)) ts2.

Definition print_expansion_candidates
    (cands : list (TabExpansionType * list ascii)) : list vdu :=
  [Candidates (map (fun e => (fst e, cstr (snd e))) cands)].

(** The enumeration half of [do_tab_complete]: the context after all
    candidates were reported. *)
Definition tab_enumerate (showall : bool) (buffer : list ascii)
    (buffer_len insertPos : Z) (h : heap) : tab_state :=
  let tab_ctx := mkCtx 0 buffer insertPos (repeat NUL (Z.to_nat expansion_size)) [] in
  let first_char := find_first_nonspace_chr buffer buffer_len in
  if Ascii.eqb first_char "."%char || Ascii.eqb first_char "/"%char
     || is_some (slice_strrchr buffer insertPos " "%char) then
    try_tab_expand_argument showall (tab_ctx, [], h)
  else
    try_tab_expand_bin_name showall
      (try_tab_expand_internal_cmd showall (tab_ctx, [], h)).

(** [tab_ctx.expansion[i]], also for [i = -1]. *)
Definition rd_expansion (ctx : tab_expansion_context) (i : Z) : ascii :=
  if i =? -1 then expansion_underflow else rd (expansion ctx) i.

(** The second half of [do_tab_complete]: listing, show-all flag and
    insertion. The result is the buffer, the insert position, the
    show-all flag and the output. *)
Definition tab_finish (showall : bool) (tab_ctx : tab_expansion_context)
    (buffer : list ascii) (buffer_len insertPos : Z)
    : list ascii * Z * bool * list vdu :=
  let num_chars_added := strlen (expansion tab_ctx) in
  let o1 :=
    if (0 <? num_matches tab_ctx) && showall then
      (* do a full redraw of cmd line *)
      let insert_pos_adjust := (strlen buffer - insertPos) mod 256 in
      print_expansion_candidates (candidates tab_ctx)
      ++ [Putch (chr 13); Prompt; Print (cstr buffer)]
      ++ concat (repeat doLeftCursor (Z.to_nat insert_pos_adjust))
    else [] in
  let showall' :=
    if (1 <? num_matches tab_ctx) && (num_chars_added =? 0) then true else showall in
  if (0 <? num_chars_added) || ((num_chars_added =? 0) && (num_matches tab_ctx =? 1)) then
    let expansion' :=
      if (num_matches tab_ctx =? 1)
         && negb (Ascii.eqb (rd_expansion tab_ctx (num_chars_added - 1)) "/"%char)
      then strbuf_append (expansion tab_ctx) expansion_size (cconst " ") 1
      else expansion tab_ctx in
    let append_at_eol := insertPos =? strlen buffer in
    let '(buffer', chars_inserted) :=
      strbuf_insert buffer buffer_len expansion' insertPos in
    let o2 := [Print (take (Z.to_nat chars_inserted) (cstr expansion'))] in
    let insertPos' := insertPos + chars_inserted in
    let o3 :=
      if append_at_eol then []
      else
        (* also need to redraw part of cmd after insert pos *)
        let len_tail := strlen (at_offset buffer' insertPos') in
        [Print (cstr (at_offset buffer' insertPos'))]
        ++ concat (repeat doLeftCursor (Z.to_nat len_tail)) in
    (buffer', insertPos', showall', o1 ++ o2 ++ o3)
  else (buffer, insertPos, showall', o1).

Definition do_tab_complete (showall : bool) (buffer : list ascii)
    (buffer_len insertPos : Z) (h : heap)
    : list ascii * Z * bool * list vdu * heap :=
  let '(tab_ctx, o, h') := tab_enumerate showall buffer buffer_len insertPos h in
  let '(buffer', insertPos', showall', o') :=
    tab_finish showall tab_ctx buffer buffer_len insertPos in
  (buffer', insertPos', showall', o ++ o', h').

End TabCompletion.

(** ** The line editor loop *)

(** The virtual keys [mos_EDITLINE] tells apart; every other one is
    [VK_OTHER]. *)
Inductive vkey : Type :=
  | VK_HOME | VK_END | VK_PAGEUP | VK_PAGEDOWN | VK_LEFT | VK_KP_LEFT
  | VK_F1 | VK_F2 | VK_F3 | VK_F4 | VK_F5 | VK_F6
  | VK_F7 | VK_F8 | VK_F9 | VK_F10 | VK_F11 | VK_F12
  | VK_OTHER.

(** [ev.vkey - VK_F1] for a function key. *)
Definition fkey_of (vk : vkey) : option Z :=
  match vk with
  | VK_F1 => Some 0 | VK_F2 => Some 1 | VK_F3 => Some 2 | VK_F4 => Some 3
  | VK_F5 => Some 4 | VK_F6 => Some 5 | VK_F7 => Some 6 | VK_F8 => Some 7
  | VK_F9 => Some 8 | VK_F10 => Some 9 | VK_F11 => Some 10 | VK_F12 => Some 11
  | _ => None
  end.

(** [keya] is a [uint8_t]: the loop sees [ev_ascii] modulo 256. *)
Record keyboard_event_t : Type := mkEvent {
  ev_vkey : vkey;
  ev_ascii : Z
}.

(** The locals and globals one turn of the loop reads and writes. *)
Record editor : Type := mkEditor {
  ed_buffer : list ascii;
  ed_insertPos : Z;
  ed_len : Z;
  ed_keyr : Z;
  ed_showall : bool;
  ed_history : history;
  ed_heap : heap;
  ed_out : list vdu
}.

(** How a call of [mos_EDITLINE] ends: it returns, it waits for a key
    that never comes, it dereferences a NULL history entry, or its final
    cursor loop never ends. *)
Inductive outcome : Type :=
  | Returned (keyr : Z) (e : editor)
  | Blocked (e : editor)
  | Undefined
  | Spins.

Section EditLine.

Variable cmd_historyDepth : Z.
Variable expansion_size : Z.
Variable expansion_underflow : ascii.
Variable mosCommands : list (list ascii).
Variable f_find : list ascii -> list ascii -> list FILINFO.
Variable cwd : list ascii.
Variable hotkey_strings : list (option (list ascii)).
(** Width of the screen, as the terminal reported it. *)
Variable scrcols : Z.

Definition put (o : list vdu) (e : editor) : editor :=
  mkEditor (ed_buffer e) (ed_insertPos e) (ed_len e) (ed_keyr e)
    (ed_showall e) (ed_history e) (ed_heap e) (ed_out e ++ o).

Definition set_insertPos (p : Z) (e : editor) : editor :=
  mkEditor (ed_buffer e) p (ed_len e) (ed_keyr e)
    (ed_showall e) (ed_history e) (ed_heap e) (ed_out e).

Definition set_buffer (b : list ascii) (e : editor) : editor :=
  mkEditor b (ed_insertPos e) (ed_len e) (ed_keyr e)
    (ed_showall e) (ed_history e) (ed_heap e) (ed_out e).

Definition set_len (l : Z) (e : editor) : editor :=
  mkEditor (ed_buffer e) (ed_insertPos e) l (ed_keyr e)
    (ed_showall e) (ed_history e) (ed_heap e) (ed_out e).

Definition set_keyr (k : Z) (e : editor) : editor :=
  mkEditor (ed_buffer e) (ed_insertPos e) (ed_len e) k
    (ed_showall e) (ed_history e) (ed_heap e) (ed_out e).

Definition set_showall (f : bool) (e : editor) : editor :=
  mkEditor (ed_buffer e) (ed_insertPos e) (ed_len e) (ed_keyr e)
    f (ed_history e) (ed_heap e) (ed_out e).

Definition set_history (hs : history) (e : editor) : editor :=
  mkEditor (ed_buffer e) (ed_insertPos e) (ed_len e) (ed_keyr e)
    (ed_showall e) hs (ed_heap e) (ed_out e).

Definition set_heap (h : heap) (e : editor) : editor :=
  mkEditor (ed_buffer e) (ed_insertPos e) (ed_len e) (ed_keyr e)
    (ed_showall e) (ed_history e) h (ed_out e).

Definition cursor_left (e : editor) : editor :=
  if 0 <? ed_insertPos e then
    set_insertPos (ed_insertPos e - 1) (put doLeftCursor e)
  else e.

Definition cursor_right (e : editor) : editor :=
  if ed_insertPos e <? ed_len e then
    set_insertPos (ed_insertPos e + 1) (put doRightCursor e)
  else e.

Definition goto_start (e : editor) : editor :=
  let '(p, o) := gotoEditLineStart (ed_insertPos e) in
  set_insertPos p (put o e).

Definition goto_end (e : editor) : editor :=
  let '(p, o) := gotoEditLineEnd (ed_insertPos e) (ed_len e) in
  set_insertPos p (put o e).

(** The [default:] branch of the [switch] on [ev.vkey]: the ASCII keys.
    The result is the editor and [historyAction]. *)
Definition ascii_key (bufferLength : Z) (enableTab : bool) (keya : Z)
    (e : editor) : editor * Z :=
  if keya =? 0 then (e, 0)
  else if (32 <=? keya) && negb (keya =? 127) then
    let '(ok, b, o) :=
      insertCharacter (ed_buffer e) bufferLength (chr keya) (ed_insertPos e) in
    let e1 := put o (set_buffer b e) in
    (if ok then set_insertPos (ed_insertPos e + 1) e1 else e1, 0)
  else if keya =? 1 then (goto_start e, 0)             (* CTRL-A *)
  else if keya =? 2 then (cursor_left e, 0)            (* ctrl-b *)
  else if keya =? 5 then (goto_end e, 0)               (* CTRL-E *)
  else if keya =? 9 then                               (* Tab *)
    if enableTab then
      let '(b, p, showall, o, h) :=
        do_tab_complete expansion_size expansion_underflow mosCommands f_find cwd
          (ed_showall e) (ed_buffer e) bufferLength (ed_insertPos e) (ed_heap e) in
      (set_len (strlen b)
         (set_heap h (set_showall showall (set_insertPos p (put o (set_buffer b e))))),
       0)
    else (e, 0)
  else if keya =? 10 then (e, 3)                       (* Cursor Down *)
  else if keya =? 11 then (e, 2)                       (* Cursor Up *)
  else if keya =? 13 then (set_keyr keya e, 1)         (* Enter *)
  else if keya =? 14 then (e, 3)                       (* CTRL-N *)
  else if keya =? 16 then (e, 2)                       (* CTRL-P *)
  else if (keya =? 6) || (keya =? 21) then (cursor_right e, 0)
  else if keya =? 23 then                              (* CTRL-W *)
    let '(n, b, o) := deleteWord (ed_buffer e) (ed_insertPos e) (ed_len e) in
    (set_insertPos (ed_insertPos e - n) (put o (set_buffer b e)), 0)
  else if keya =? 27 then (set_keyr keya e, 0)         (* Escape *)
  else if (keya =? 8) || (keya =? 127) then            (* CTRL-h, Backspace *)
    let '(ok, b, o) := deleteCharacter (ed_buffer e) (ed_insertPos e) (ed_len e) in
    let e1 := put o (set_buffer b e) in
    (if ok then set_insertPos (ed_insertPos e - 1) e1 else e1, 0)
  else (e, 0).

(** The [switch] on [ev.vkey]. *)
Definition dispatch_key (bufferLength : Z) (enableTab enableHotkeys : bool)
    (ev : keyboard_event_t) (e : editor) : editor * Z :=
  let keya := ev_ascii ev mod 256 in
  match ev_vkey ev with
  | VK_HOME => (goto_start e, 0)
  | VK_END => (goto_end e, 0)
  | VK_PAGEUP => (e, 2)
  | VK_PAGEDOWN => (e, 3)
  | VK_LEFT | VK_KP_LEFT => (cursor_left e, 0)
  | VK_OTHER => ascii_key bufferLength enableTab keya e
  | vk =>
      let fkey := default 0 (fkey_of vk) in
      if enableHotkeys then
        let '(handled, b, o, h) :=
          handleHotkey hotkey_strings fkey (ed_buffer e) bufferLength
            (ed_insertPos e) (ed_len e) (ed_heap e) in
        let e1 := set_heap h (put o (set_buffer b e)) in
        if handled then
          (* Key was present, so drop through to ASCII key handling *)
          ascii_key bufferLength enableTab 13
            (set_insertPos (strlen b) (set_len (strlen b) e1))
        else (e1, 0)
      else (e, 0)
  end.

(** The history part of a turn; [None] when a NULL entry was read. *)
Definition history_step (bufferLength : Z) (historyAction : Z) (e : editor)
    : option editor :=
  let redraw '(lineChanged, b, hs, o) :=
    let e1 := set_history hs (put o (set_buffer b e)) in
    if lineChanged : bool then
      set_len (strlen b) (set_insertPos (strlen b) (put [Print (cstr b)] e1))
    else e1 in
  if historyAction =? 1 then
    '(hs, h) ← editHistoryPush cmd_historyDepth (ed_buffer e) bufferLength
                 (ed_history e) (ed_heap e);
    Some (set_heap h (set_history hs e))
  else if historyAction =? 2 then
    redraw <$> editHistoryUp (ed_buffer e) bufferLength (ed_insertPos e) (ed_len e)
                 (ed_history e)
  else if historyAction =? 3 then
    redraw <$> editHistoryDown (ed_buffer e) bufferLength (ed_insertPos e) (ed_len e)
                 (ed_history e)
  else Some e.

(** One turn of the [while (keyr == 0)] loop for the key event [ev]. *)
Definition edit_step (bufferLength : Z) (enableTab enableHotkeys enableHistory : bool)
    (ev : keyboard_event_t) (e : editor) : option editor :=
  let e1 := set_len (strlen (ed_buffer e)) e in
  let e2 := if negb (ev_ascii ev mod 256 =? 9) then set_showall false e1 else e1 in
  let '(e3, historyAction) :=
    dispatch_key bufferLength enableTab enableHotkeys ev e2 in
  if enableHistory then history_step bufferLength historyAction e3 else Some e3.

(** [while (len >= scrcols) { putch(0x0A); len -= scrcols; }]; [None]
    when the test still holds after [fuel] turns. *)
Fixpoint cursor_down (fuel : nat) (len : Z) (o : list vdu) : option (Z * list vdu) :=
  match fuel with
  | O => if scrcols <=? len then None else Some (len, o)
  | S fuel' =>
      if scrcols <=? len then cursor_down fuel' (len - scrcols) (o ++ [Putch (chr 10)])
      else Some (len, o)
  end.

(** The code after the loop: cursor to the end of the line. *)
Definition edit_finish (e : editor) : outcome :=
  let len := ed_len e - ed_insertPos e in
  match cursor_down (Z.to_nat len) len [] with
  | None => Spins
  | Some (len', o) =>
      let o' := o ++ repeat (Putch (chr 9)) (Z.to_nat len') in
      Returned (ed_keyr e) (put o' e)
  end.

(** The loop, one key event per turn; [kbuf_wait_keydown] blocks when
    the events are used up. *)
Fixpoint edit_loop (bufferLength : Z) (enableTab enableHotkeys enableHistory : bool)
    (events : list keyboard_event_t) (e : editor) : outcome :=
  if negb (ed_keyr e =? 0) then edit_finish e
  else
    match events with
    | [] => Blocked e
    | ev :: events' =>
        match edit_step bufferLength enableTab enableHotkeys enableHistory ev e with
        | None => Undefined
        | Some e' =>
            edit_loop bufferLength enableTab enableHotkeys enableHistory events' e'
        end
    end.

(** [mos_EDITLINE(buffer, bufferLength, flags)] run against the key
    events [events], from the history [hs] and the heap [h]. *)
Definition mos_EDITLINE (buffer : list ascii) (bufferLength flags : Z)
    (events : list keyboard_event_t) (hs : history) (h : heap) : outcome :=
  let clear := Z.testbit flags 0 in          (* Clear the buffer on entry *)
  let enableTab := Z.testbit flags 1 in      (* Enable tab completion (default off) *)
  let enableHotkeys := negb (Z.testbit flags 2) in (* Enable hotkeys (default on) *)
  let enableHistory := negb (Z.testbit flags 3) in (* Enable history (default on) *)
  let hs' := mkHistory (cmd_history hs) (history_size hs) (history_size hs) in
  let e :=
    if clear then mkEditor (wr buffer 0 NUL) 0 0 0 false hs' h []
    else mkEditor buffer (strlen buffer) 0 0 false hs' h [Print (cstr buffer)] in
  edit_loop bufferLength enableTab enableHotkeys enableHistory events e.

End EditLine.

(** A run of insertions: each [(c, at)] is passed to [insertCharacter],
    whether it is accepted or refused. *)
Fixpoint insert_all (buffer_capacity : Z) (ops : list (ascii * Z))
    (buffer : list ascii) : list ascii :=
  match ops with
  | [] => buffer
  | (c, insertPos) :: ops' =>
      insert_all buffer_capacity ops'
        (snd (fst (insertCharacter buffer buffer_capacity c insertPos)))
  end.

(** The names of the command table of [mos.c], in table order. *)
Definition mosCommands_table : list (list ascii) :=
  map cconst
    ["CAT"; "CD"; "CDIR"; "CLS"; "COPY"; "CP"; "CREDITS"; "DELETE"; "DIR";
     "DISC"; "ECHO"; "ERASE"; "EXEC"; "FBMODE"; "HELP"; "JMP"; "LOAD"; "LS";
     "HOTKEY"; "MEM"; "MEMDUMP"; "MKDIR"; "MOUNT"; "MOVE"; "MV"; "PRINTF";
     "RENAME"; "RM"; "RUN"; "SAVE"; "SIDELOAD"; "SET"; "TIME"; "TYPE"; "VDU"]%string.

(** The longest prefix of [a] that [b] shares with it, letter case
    aside: what the specification asks of the accumulator and a later
    candidate's suffix. *)
Fixpoint common_prefix (a b : list ascii) : list ascii :=
  match a, b with
  | x :: a', y :: b' =>
      if Ascii.eqb (toupper x) (toupper y) then x :: common_prefix a' b' else []
  | _, _ => []
  end.

(** A volume without files, and one whose current directory lists
    [XA.BINGO.bin] and then [XA.bin] for the pattern [X*.bin]. *)
Definition no_files (path pattern : list ascii) : list FILINFO := [].

Definition two_bins (path pattern : list ascii) : list FILINFO :=
  if strcmp_eq path (lit "") && strcmp_eq pattern (lit "X*.bin") then
    [mkFILINFO (cconst "XA.BINGO.bin") 0; mkFILINFO (cconst "XA.bin") 0]
  else [].

(** A run of history pushes, one per submitted line buffer. *)
Fixpoint push_all (cmd_historyDepth buffer_capacity : Z) (lines : list (list ascii))
    (hs : history) (h : heap) : option (history * heap) :=
  match lines with
  | [] => Some (hs, h)
  | buffer :: lines' =>
      '(hs', h') ← editHistoryPush cmd_historyDepth buffer buffer_capacity hs h;
      push_all cmd_historyDepth buffer_capacity lines' hs' h'
  end.

(** Every coming allocation succeeds. *)
Definition all_succeed (h : heap) : Prop := Forall (fun ok => ok = true) h.

(** ** Further functions of strings.c *)

(** [mos_strdup]: [None] is the NULL pointer; [strcpy] fills the
    [strlen(s) + 1] bytes. *)
Definition mos_strdup (s : list ascii) (h : heap) : option (list ascii) * heap :=
  let '(ok, h') := umm_malloc h in
  if ok then (Some (take (Z.to_nat (strlen s)) s ++ [NUL]), h') else (None, h').

(** [strrchr_pathsep]: the offset of the last [/], or failing that of the
    last backslash; [None] is NULL, for the path and for the result. *)
Definition strrchr_pathsep (path : option (list ascii)) : option Z :=
  match path with
  | None => None
  | Some path =>
      match strrchr path "/"%char with
      | Some p => Some p
      | None => strrchr path "\"%char
      end
  end.

(** The number of leading elements of [l] that satisfy [cond]. *)
Fixpoint span_len (cond : ascii -> bool) (l : list ascii) : nat :=
  match l with
  | [] => O
  | c :: r => if cond c then S (span_len cond r) else O
  end.

(** The number of characters of [s] just before position [p] that
    satisfy [cond]. *)
Definition run_before (cond : ascii -> bool) (s : list ascii) (p : nat) : nat :=
  span_len cond (rev (take p s)).

(** What [deleteCharacter] sends for the byte it moves: a blank for the
    terminator. *)
Definition echo_char (c : ascii) : vdu := Putch (if is_nul c then " "%char else c).

(** What the accumulator holds after the candidates' suffixes [ss] were
    reported in this order: the first one, cut to the room of the
    accumulator, then cut back to what each later one shares with it. *)
Definition accumulate (expansion_size : Z) (ss : list (list ascii)) : list ascii :=
  match ss with
  | [] => []
  | s :: ss' => fold_left common_prefix ss' (take (Z.to_nat (expansion_size - 1)) s)
  end.

(** ** Ordering the candidates *)

(** [strcasecmp] as POSIX describes it: the bytes are compared after
    conversion to lower case, up to the first difference or the
    terminator, and the result is the difference found there. *)
Definition tolower (c : ascii) : ascii :=
  if (65 <=? code c) && (code c <=? 90) then chr (code c + 32) else c.

Fixpoint strcasecmp (a b : list ascii) : Z :=
  match a with
  | [] => 0 - code (tolower (hd NUL b))
  | ca :: ra =>
      let d := code (tolower ca) - code (tolower (hd NUL b)) in
      if negb (d =? 0) || is_nul ca then d else strcasecmp ra (tl b)
  end.

Definition type_eqb (s t : TabExpansionType) : bool :=
  match s, t with
  | ExpandNormal, ExpandNormal | ExpandDirectory, ExpandDirectory => true
  | _, _ => false
  end.

(** [cmp_tab_candidate], the comparison [print_expansion_candidates]
    hands to [qsort]. *)
Definition cmp_tab_candidate (a b : TabExpansionType * list ascii) : Z :=
  if type_eqb (fst a) (fst b) then strcasecmp (snd a) (snd b)
  else match fst a with
       | ExpandDirectory => -1
       | ExpandNormal => 1
       end.

(** ** The caller in mos.c *)

(** [mos_input]: the prompt, the line editor with flags 3 (clear the
    buffer, tab completion on; hotkeys and history stay on), and a new
    line once the editor has returned. *)
Definition mos_input (cmd_historyDepth expansion_size : Z)
    (expansion_underflow : ascii) (mosCommands : list (list ascii))
    (f_find : list ascii -> list ascii -> list FILINFO) (cwd : list ascii)
    (hotkey_strings : list (option (list ascii))) (scrcols : Z)
    (buffer : list ascii) (bufferLength : Z)
    (events : list keyboard_event_t) (hs : history) (h : heap) : outcome :=
  match
    mos_EDITLINE cmd_historyDepth expansion_size expansion_underflow mosCommands f_find
      cwd hotkey_strings scrcols buffer bufferLength 3 events hs h
  with
  | Returned retval e =>
      Returned retval
        (mkEditor (ed_buffer e) (ed_insertPos e) (ed_len e) (ed_keyr e) (ed_showall e)
           (ed_history e) (ed_heap e)
           ([Prompt] ++ ed_out e ++ [Print [chr 10; chr 13]]))
  | Blocked e =>
      Blocked
        (mkEditor (ed_buffer e) (ed_insertPos e) (ed_len e) (ed_keyr e) (ed_showall e)
           (ed_history e) (ed_heap e) ([Prompt] ++ ed_out e))
  | r => r
  end.

(** ** The vocabulary of the statements *)

(** No character of [s] is the terminator. *)
Definition nul_free (s : list ascii) : Prop := Forall (fun c => c <> NUL) s.

(** A line buffer of capacity [N]: an array of [N] bytes whose string is
    terminated inside it. *)
Definition line_buffer (N : Z) (b : list ascii) : Prop :=
  Z.of_nat (length b) = N /\ strlen b <= N - 1.

(** The history holds [size] entries in a table of [depth] slots, and
    none of them is NULL. *)
Definition history_ok (depth : Z) (hs : history) : Prop :=
  0 <= history_size hs <= depth /\
  Z.of_nat (length (cmd_history hs)) = depth /\
  forall i, 0 <= i < history_size hs -> history_entry hs i <> None.

(** The slot a line's copy is stored in. *)
Definition stored (l : list ascii) : option (list ascii) := Some (cstr l ++ [NUL]).

(** The history after the lines [ls] were stored in an empty table. *)
Definition filled (depth : Z) (ls : list (list ascii)) (no : Z) : history :=
  mkHistory (map stored ls ++ repeat None (Z.to_nat depth - length ls))
    (Z.of_nat (length ls)) no.

(** [keyr] is 0 while the loop runs and Enter or Escape once it is
    set. *)
Definition exit_key (k : Z) : Prop := k = 0 \/ k = 13 \/ k = 27.

Ltac split_branches :=
  repeat match goal with
    | |- context [if ?c then _ else _] => destruct c
    | |- context [let '(_, _) := ?x in _] => destruct x
    | |- context [match ?x with Some _ => _ | None => _ end] => destruct x
    end.

(** The editor holds a terminated line and a cursor inside it. *)
Definition cursor_in_line (N : Z) (e : editor) : Prop :=
  line_buffer N (ed_buffer e) /\ 0 <= ed_insertPos e <= strlen (ed_buffer e).

(** The state a call of [mos_EDITLINE] relies on: a well-formed history
    and an allocator that does not fail. *)
Definition editor_ok (depth N : Z) (e : editor) : Prop :=
  cursor_in_line N e /\ history_ok depth (ed_history e) /\ all_succeed (ed_heap e).

(** The editor an outcome carries, if any, satisfies [P]. *)
Definition outcome_has (P : editor -> Prop) (r : outcome) : Prop :=
  match r with
  | Returned _ e | Blocked e => P e
  | Undefined | Spins => True
  end.

Ltac editor_simpl :=
  unfold cursor_in_line, set_insertPos, set_buffer, set_len, set_keyr, set_showall,
    set_history, set_heap, put in *;
  cbn [ed_buffer ed_insertPos ed_len ed_keyr ed_showall ed_history ed_heap ed_out
       fst snd] in *.

(** * Properties *)

(** ** Arrays and C strings *)

Lemma rd_nth (b : list ascii) (i : nat) : rd b (Z.of_nat i) = nth i b NUL.
Proof.
  unfold rd. destruct (Z.ltb_spec (Z.of_nat i) 0) as [?|_]; [lia|].
  rewrite Nat2Z.id. revert i; induction b as [|c b IH]; intros [|i]; simpl; auto.
Qed.

Lemma wr_length (b : list ascii) (i : Z) (c : ascii) : length (wr b i c) = length b.
Proof. unfold wr. destruct (i <? 0); [reflexivity|apply length_insert]. Qed.

Lemma wr_app (a r : list ascii) (x c : ascii) :
  wr (a ++ x :: r) (Z.of_nat (length a)) c = a ++ c :: r.
Proof.
  unfold wr. destruct (Z.ltb_spec (Z.of_nat (length a)) 0); [lia|].
  rewrite Nat2Z.id, insert_app_r_alt by lia.
  now rewrite Nat.sub_diag.
Qed.

Lemma rd_app (a r : list ascii) (x : ascii) :
  rd (a ++ x :: r) (Z.of_nat (length a)) = x.
Proof. rewrite rd_nth. induction a; simpl; auto. Qed.

Lemma rd_wr_ne (b : list ascii) (i j : Z) (c : ascii) :
  i <> j -> rd (wr b i c) j = rd b j.
Proof.
  intros Hne. unfold rd, wr.
  destruct (Z.ltb_spec j 0); [reflexivity|].
  destruct (Z.ltb_spec i 0); [reflexivity|].
  rewrite list_lookup_insert_ne; [reflexivity|lia].
Qed.

Lemma rd_wr_eq (b : list ascii) (i : Z) (c : ascii) :
  0 <= i < Z.of_nat (length b) -> rd (wr b i c) i = c.
Proof.
  intros Hi. unfold rd, wr.
  destruct (Z.ltb_spec i 0); [lia|].
  rewrite list_lookup_insert_eq; [reflexivity|lia].
Qed.

Lemma strlen_nat_le (b : list ascii) : (strlen_nat b <= length b)%nat.
Proof. induction b as [|c b IH]; simpl; [lia|]. destruct (is_nul c); simpl; lia. Qed.

Lemma is_nul_true (c : ascii) : is_nul c = true <-> c = NUL.
Proof. unfold is_nul. apply Ascii.eqb_eq. Qed.

Lemma is_nul_false (c : ascii) : is_nul c = false <-> c <> NUL.
Proof. unfold is_nul. apply Ascii.eqb_neq. Qed.

Lemma strlen_nat_app (s r : list ascii) :
  nul_free s -> strlen_nat (s ++ NUL :: r) = length s.
Proof.
  induction 1 as [|c s Hc _ IH]; simpl; [reflexivity|].
  apply is_nul_false in Hc. now rewrite Hc, IH.
Qed.

Lemma strlen_nat_nul_free (s : list ascii) :
  nul_free s -> strlen_nat s = length s.
Proof.
  induction 1 as [|c s Hc _ IH]; simpl; [reflexivity|].
  apply is_nul_false in Hc. now rewrite Hc, IH.
Qed.

Lemma cstr_app (s r : list ascii) : nul_free s -> cstr (s ++ NUL :: r) = s.
Proof.
  intros Hs. unfold cstr. rewrite strlen_nat_app by assumption.
  now rewrite take_app_length.
Qed.

Lemma cstr_nul_free (b : list ascii) : nul_free (cstr b).
Proof.
  unfold cstr. induction b as [|c b IH]; simpl; [constructor|].
  destruct (is_nul c) eqn:E; simpl; [constructor|].
  constructor; [now apply is_nul_false|exact IH].
Qed.

Lemma cstr_length (b : list ascii) : length (cstr b) = strlen_nat b.
Proof. unfold cstr. rewrite length_take. pose proof (strlen_nat_le b). lia. Qed.

(** An array whose string ends inside it splits into the string, its
    terminator and the bytes behind. *)
Lemma cstr_split (b : list ascii) :
  (strlen_nat b < length b)%nat ->
  b = cstr b ++ NUL :: drop (S (strlen_nat b)) b.
Proof.
  unfold cstr. induction b as [|c b IH]; simpl; [lia|].
  destruct (is_nul c) eqn:E; simpl.
  - intros _. apply is_nul_true in E. now rewrite E, drop_0.
  - intros H. f_equal. apply IH. lia.
Qed.

Lemma rd_strlen (b : list ascii) : rd b (strlen b) = NUL.
Proof.
  unfold strlen. rewrite rd_nth.
  induction b as [|c b IH]; simpl; [reflexivity|].
  destruct (is_nul c) eqn:E; simpl; [now apply is_nul_true|exact IH].
Qed.

(** A NUL at index [k] bounds the string length. *)
Lemma strlen_le_nul (b : list ascii) (k : nat) :
  (k < length b)%nat -> nth k b NUL = NUL -> (strlen_nat b <= k)%nat.
Proof.
  revert k; induction b as [|c b IH]; intros k Hk Hn; simpl in *; [lia|].
  destruct (is_nul c) eqn:E; [lia|].
  destruct k as [|k]; [apply is_nul_false in E; contradiction|].
  apply le_n_S, IH; [lia|exact Hn].
Qed.

Lemma strnlen_fits (b : list ascii) (n : Z) :
  strlen b <= n -> strnlen b n = strlen b.
Proof.
  intros H. unfold strnlen, strlen in *.
  destruct (Z.ltb_spec n 0); lia.
Qed.

(** ** The two shifting loops *)

(** The loop of [insertCharacter] over the segment [m]: every byte of
    [m] moves one place up, over [x]. *)
Lemma shift_right_spec (m : list ascii) : forall (a r : list ascii) (x : ascii),
  for_down (length m) (Z.of_nat (length a + length m) - 1)
    (fun i b => wr b (i + 1) (rd b i)) (a ++ m ++ x :: r)
  = a ++ hd x m :: m ++ r.
Proof.
  induction m as [|y m IH] using rev_ind; intros a r x; [reflexivity|].
  rewrite length_app, Nat.add_1_r. cbn [for_down].
  replace (Z.of_nat (length a + S (length m)) - 1)
    with (Z.of_nat (length (a ++ m))) by (rewrite length_app; lia).
  replace (Z.of_nat (length (a ++ m)) + 1)
    with (Z.of_nat (length (a ++ m ++ [y]))) by (rewrite !length_app; simpl; lia).
  replace (a ++ (m ++ [y]) ++ x :: r) with ((a ++ m) ++ y :: x :: r)
    by (now rewrite <- !app_assoc).
  rewrite rd_app.
  replace ((a ++ m) ++ y :: x :: r) with ((a ++ m ++ [y]) ++ x :: r)
    by (now rewrite <- !app_assoc).
  rewrite wr_app.
  replace ((a ++ m ++ [y]) ++ y :: r) with (a ++ m ++ y :: y :: r)
    by (now rewrite <- !app_assoc).
  replace (Z.of_nat (length (a ++ m)) - 1)
    with (Z.of_nat (length a + length m) - 1) by (rewrite length_app; lia).
  rewrite IH. rewrite <- !app_assoc. simpl.
  now destruct m.
Qed.

Lemma last_cons_default {A : Type} (m : list A) : forall z d d' : A,
  List.last (z :: m) d = List.last (z :: m) d'.
Proof.
  induction m as [|y m IH]; intros z d d'; [reflexivity|].
  change (List.last (y :: m) d = List.last (y :: m) d'). apply IH.
Qed.

(** The loop of [deleteCharacter] over [x :: m]: every byte of [m] moves
    one place down, over [x]; the last one stays where it was too. *)
Lemma shift_left_spec (m : list ascii) : forall (a r : list ascii) (x : ascii) (o : list vdu),
  fst (for_up (length m) (Z.of_nat (length a))
         (fun i '(b, o) =>
            let c := rd b (i + 1) in
            (wr b i c, o ++ [Putch (if is_nul c then " "%char else c)]))
         (a ++ x :: m ++ r, o))
  = a ++ m ++ List.last m x :: r.
Proof.
  induction m as [|y m IH]; intros a r x o; [reflexivity|].
  cbn [length for_up].
  assert (Hr : rd (a ++ x :: (y :: m) ++ r) (Z.of_nat (length a) + 1) = y).
  { replace (Z.of_nat (length a) + 1) with (Z.of_nat (length (a ++ [x])))
      by (rewrite length_app; simpl; lia).
    replace (a ++ x :: (y :: m) ++ r) with ((a ++ [x]) ++ y :: m ++ r)
      by (now rewrite <- app_assoc).
    apply rd_app. }
  cbv zeta. rewrite !Hr, wr_app.
  replace (a ++ y :: (y :: m) ++ r) with ((a ++ [y]) ++ y :: m ++ r)
    by (now rewrite <- app_assoc).
  replace (Z.of_nat (length a) + 1) with (Z.of_nat (length (a ++ [y])))
    by (rewrite length_app; simpl; lia).
  rewrite IH. rewrite <- app_assoc. simpl.
  destruct m as [|z m]; [reflexivity|].
  now rewrite (last_cons_default m z y x).
Qed.

(** The bytes above the shifted segment keep their value. *)
Lemma shift_right_above (n : nat) : forall (i k : Z) (b : list ascii),
  i + 1 < k ->
  rd (for_down n i (fun i b => wr b (i + 1) (rd b i)) b) k = rd b k.
Proof.
  induction n as [|n IH]; intros i k b Hk; [reflexivity|].
  cbn [for_down]. rewrite IH by lia. apply rd_wr_ne. lia.
Qed.

Lemma shift_right_length (n : nat) : forall (i : Z) (b : list ascii),
  length (for_down n i (fun i b => wr b (i + 1) (rd b i)) b) = length b.
Proof.
  induction n as [|n IH]; intros i b; [reflexivity|].
  cbn [for_down]. now rewrite IH, wr_length.
Qed.

(** ** [insertCharacter] and [deleteCharacter] *)

Lemma line_buffer_strnlen (N : Z) (b : list ascii) :
  line_buffer N b -> strnlen b N = strlen b.
Proof. intros [_ H]. apply strnlen_fits. lia. Qed.

(** A buffer with room splits at an insert position [p] into the text
    before [p], the text from [p] on, the terminator, the byte behind it
    and the rest. *)
Lemma line_buffer_split (N : Z) (b : list ascii) (p : Z) :
  line_buffer N b -> strlen b < N - 1 -> 0 <= p <= strlen b ->
  exists a t x r,
    b = a ++ t ++ NUL :: x :: r /\ nul_free (a ++ t) /\
    Z.of_nat (length a) = p /\ cstr b = a ++ t.
Proof.
  intros [HN _] Hroom Hp. unfold strlen in *.
  assert (Hlt : (S (strlen_nat b) < length b)%nat) by lia.
  destruct (drop (S (strlen_nat b)) b) as [|x r] eqn:Ed.
  { apply (f_equal length) in Ed. rewrite length_drop in Ed. simpl in Ed. lia. }
  exists (take (Z.to_nat p) (cstr b)), (drop (Z.to_nat p) (cstr b)), x, r.
  rewrite app_assoc, take_drop. repeat split.
  - rewrite <- Ed. apply cstr_split. lia.
  - apply cstr_nul_free.
  - rewrite length_take, cstr_length. lia.
Qed.

Lemma insertCharacter_split (a t r : list ascii) (x c : ascii) (N : Z) :
  nul_free (a ++ t) ->
  Z.of_nat (length (a ++ t ++ NUL :: x :: r)) = N ->
  fst (insertCharacter (a ++ t ++ NUL :: x :: r) N c (Z.of_nat (length a)))
  = (true, a ++ c :: t ++ NUL :: r).
Proof.
  intros Hs HN. unfold insertCharacter.
  assert (Hlen : strlen (a ++ t ++ NUL :: x :: r) = Z.of_nat (length a + length t)).
  { unfold strlen. rewrite app_assoc, strlen_nat_app, length_app by assumption. lia. }
  rewrite strnlen_fits; rewrite Hlen;
    [|rewrite <- HN, !length_app; simpl; lia].
  destruct (Z.ltb_spec (Z.of_nat (length a + length t)) (N - 1)) as [_|Hge];
    [|rewrite <- HN, !length_app in Hge; simpl in Hge; lia].
  cbn [fst]. f_equal.
  replace (Z.to_nat (Z.of_nat (length a + length t) - Z.of_nat (length a) + 1))
    with (length (t ++ [NUL])) by (rewrite length_app; simpl; lia).
  replace (Z.of_nat (length a + length t))
    with (Z.of_nat (length a + length (t ++ [NUL])) - 1)
    by (rewrite length_app; simpl; lia).
  replace (a ++ t ++ NUL :: x :: r) with (a ++ (t ++ [NUL]) ++ x :: r)
    by (now rewrite <- app_assoc).
  rewrite shift_right_spec, wr_app. now rewrite <- app_assoc.
Qed.

Lemma deleteCharacter_split (a m r : list ascii) (x : ascii) :
  fst (deleteCharacter (a ++ x :: m ++ r) (Z.of_nat (length a) + 1)
         (Z.of_nat (length a + length m)))
  = (true, a ++ m ++ List.last m x :: r).
Proof.
  unfold deleteCharacter.
  destruct (Z.ltb_spec 0 (Z.of_nat (length a) + 1)) as [_|H]; [|lia].
  replace (Z.to_nat (Z.of_nat (length a + length m) - (Z.of_nat (length a) + 1 - 1)))
    with (length m) by lia.
  replace (Z.of_nat (length a) + 1 - 1) with (Z.of_nat (length a)) by lia.
  pose proof (shift_left_spec m a r x []) as Hs.
  destruct (for_up _ _ _ _) as [b1 echo]. simpl in Hs. subst b1. reflexivity.
Qed.

Lemma insertCharacter_refused (N : Z) (b : list ascii) (c : ascii) (p : Z) :
  line_buffer N b -> strlen b = N - 1 ->
  insertCharacter b N c p = (false, b, []).
Proof.
  intros Hb Hfull. unfold insertCharacter.
  rewrite (line_buffer_strnlen N b Hb), Hfull, Z.ltb_irrefl. reflexivity.
Qed.

Lemma insertCharacter_length (N : Z) (b : list ascii) (c : ascii) (p : Z) :
  length (snd (fst (insertCharacter b N c p))) = length b.
Proof.
  unfold insertCharacter. destruct (_ <? _); [|reflexivity].
  cbn [fst snd]. now rewrite wr_length, shift_right_length.
Qed.

Lemma strlen_le_rd (b : list ascii) (k : Z) :
  0 <= k < Z.of_nat (length b) -> rd b k = NUL -> strlen b <= k.
Proof.
  intros Hk Hn. unfold strlen.
  enough (strlen_nat b <= Z.to_nat k)%nat by lia.
  apply strlen_le_nul; [lia|].
  rewrite <- rd_nth, Z2Nat.id by lia. exact Hn.
Qed.

(** Whatever position is passed, an insertion leaves a line buffer. *)
Lemma insertCharacter_line_buffer (N : Z) (b : list ascii) (c : ascii) (p : Z) :
  line_buffer N b -> line_buffer N (snd (fst (insertCharacter b N c p))).
Proof.
  intros Hb. split; [rewrite insertCharacter_length; apply Hb|].
  pose proof (insertCharacter_length N b c p) as HL.
  unfold insertCharacter in *. rewrite (line_buffer_strnlen N b Hb) in *.
  destruct Hb as [HN Hle].
  destruct (Z.ltb_spec (strlen b) (N - 1)) as [Hroom|_]; [|exact Hle].
  cbn [fst snd] in *.
  assert (H0 : 0 <= strlen b) by (unfold strlen; lia).
  destruct (Z.le_gt_cases p (strlen b)) as [Hp|Hp].
  - (* the terminator moved to [len + 1] *)
    transitivity (strlen b + 1); [|lia].
    apply strlen_le_rd; [lia|].
    rewrite rd_wr_ne by lia.
    destruct (Z.to_nat (strlen b - p + 1)) as [|n] eqn:En; [lia|].
    cbn [for_down]. rewrite shift_right_above by lia.
    rewrite rd_wr_eq by lia. apply rd_strlen.
  - (* nothing moved and the terminator is where it was *)
    transitivity (strlen b); [|lia].
    apply strlen_le_rd; [lia|].
    rewrite rd_wr_ne by lia.
    replace (Z.to_nat (strlen b - p + 1)) with O by lia.
    apply rd_strlen.
Qed.

Lemma insert_all_line_buffer (N : Z) (ops : list (ascii * Z)) :
  forall b, line_buffer N b -> line_buffer N (insert_all N ops b).
Proof.
  induction ops as [|[c p] ops IH]; intros b Hb; [exact Hb|].
  simpl. apply IH, insertCharacter_line_buffer, Hb.
Qed.

(** C1. For a line buffer of capacity [N] and an insert position inside
    the string, [insertCharacter] refuses (returns false, buffer as it
    was, nothing sent) exactly when the string length is [N - 1];
    otherwise it returns true and the buffer is the old one with the bytes
    from the insert position up to the terminator moved one place up and
    [c] written at the insert position, so that the string, for a [c]
    other than NUL, is the old one with [c] put in at that position. After
    any run of insertions the string length is at most [N - 1] and the
    byte at index length is 0. *)
Theorem insertCharacter_capacity (N : Z) (b : list ascii) (c : ascii) (p : Z) :
  line_buffer N b -> 0 <= p <= strlen b ->
  (fst (fst (insertCharacter b N c p)) = false <-> strlen b = N - 1) /\
  (strlen b = N - 1 -> insertCharacter b N c p = (false, b, [])) /\
  (strlen b <> N - 1 ->
     fst (insertCharacter b N c p)
     = (true,
        take (Z.to_nat p) b ++ c
          :: take (Z.to_nat (strlen b - p + 1)) (drop (Z.to_nat p) b)
          ++ drop (Z.to_nat (strlen b + 2)) b)) /\
  (strlen b <> N - 1 -> c <> NUL ->
     cstr (snd (fst (insertCharacter b N c p)))
     = take (Z.to_nat p) (cstr b) ++ c :: drop (Z.to_nat p) (cstr b)) /\
  (forall ops,
     let b' := insert_all N ops b in
     strlen b' <= N - 1 /\ rd b' (strlen b') = NUL).
Proof.
  intros Hb Hp.
  assert (Hstr : strlen b <> N - 1 -> c <> NUL ->
     cstr (snd (fst (insertCharacter b N c p)))
     = take (Z.to_nat p) (cstr b) ++ c :: drop (Z.to_nat p) (cstr b)).
  { intros Hne Hc.
    destruct (line_buffer_split N b p Hb) as (a & t & x & r & Eb & Hs & Ha & Hcs);
      [destruct Hb; lia|exact Hp|].
    subst p. rewrite Eb at 1.
    rewrite insertCharacter_split; [|exact Hs|rewrite <- Eb; apply Hb].
    cbn [snd]. rewrite Hcs, Nat2Z.id, take_app_length, drop_app_length.
    replace (a ++ c :: t ++ NUL :: r) with ((a ++ c :: t) ++ NUL :: r)
      by (now rewrite <- app_assoc).
    apply cstr_app. apply Forall_app in Hs as [Hsa Hst].
    apply Forall_app. split; [exact Hsa|]. now constructor. }
  assert (Hacc : strlen b <> N - 1 ->
     fst (insertCharacter b N c p)
     = (true,
        take (Z.to_nat p) b ++ c
          :: take (Z.to_nat (strlen b - p + 1)) (drop (Z.to_nat p) b)
          ++ drop (Z.to_nat (strlen b + 2)) b)).
  { intros Hne.
    destruct (line_buffer_split N b p Hb) as (a & t & x & r & Eb & Hs & Ha & Hc);
      [destruct Hb; lia|exact Hp|].
    assert (Hst : strlen b = Z.of_nat (length a + length t)).
    { unfold strlen. rewrite <- cstr_length, Hc, length_app. lia. }
    rewrite Hst. subst p. rewrite Eb at 1.
    rewrite insertCharacter_split; [|exact Hs|rewrite <- Eb; apply Hb].
    f_equal. rewrite Eb, Nat2Z.id.
    rewrite take_app_length, drop_app_length.
    replace (Z.to_nat (Z.of_nat (length a + length t) - Z.of_nat (length a) + 1))
      with (length (t ++ [NUL])) by (rewrite length_app; simpl; lia).
    replace (t ++ NUL :: x :: r) with ((t ++ [NUL]) ++ x :: r)
      by (now rewrite <- app_assoc).
    rewrite take_app_length.
    replace (a ++ (t ++ [NUL]) ++ x :: r) with ((a ++ t ++ [NUL; x]) ++ r)
      by (now rewrite <- !app_assoc).
    replace (Z.to_nat (Z.of_nat (length a + length t) + 2))
      with (length (a ++ t ++ [NUL; x])) by (rewrite !length_app; simpl; lia).
    rewrite drop_app_length. now rewrite <- app_assoc. }
  repeat split.
  - intros Hf. destruct (Z.eq_dec (strlen b) (N - 1)) as [|Hne]; [assumption|].
    apply Hacc in Hne. destruct (insertCharacter b N c p) as [[ok b'] o].
    simpl in *. congruence.
  - intros Hfull. now rewrite insertCharacter_refused.
  - now apply insertCharacter_refused.
  - exact Hacc.
  - exact Hstr.
  - apply (insert_all_line_buffer N ops b Hb).
  - apply rd_strlen.
Qed.

(** C10. Inserting [c] at [p] and then deleting the character before
    [p + 1] gives back the string the buffer held; in the array only the
    byte behind the old terminator changed, to NUL. For a [c] other than
    NUL the length passed to [deleteCharacter] is the length of the
    string after the insertion. *)
Theorem insert_delete_roundtrip (N : Z) (b : list ascii) (c : ascii) (p : Z) :
  line_buffer N b -> strlen b < N - 1 -> 0 <= p <= strlen b ->
  exists b1 o1 b2 o2,
    insertCharacter b N c p = (true, b1, o1) /\
    deleteCharacter b1 (p + 1) (strlen b + 1) = (true, b2, o2) /\
    cstr b2 = cstr b /\
    b2 = wr b (strlen b + 1) NUL /\
    (c <> NUL -> strlen b1 = strlen b + 1).
Proof.
  intros Hb Hroom Hp.
  destruct (line_buffer_split N b p Hb Hroom Hp) as (a & t & x & r & Eb & Hs & Ha & Hc).
  assert (Hst : strlen b = Z.of_nat (length a + length t)).
  { unfold strlen. rewrite <- cstr_length, Hc, length_app. lia. }
  pose proof (insertCharacter_split a t r x c N Hs) as Hi.
  rewrite <- Eb, Ha in Hi. specialize (Hi (proj1 Hb)).
  destruct (insertCharacter b N c p) as [[ok b1] o1]. simpl in Hi.
  injection Hi as -> ->.
  pose proof (deleteCharacter_split a (t ++ [NUL]) r c) as Hd.
  rewrite Ha in Hd.
  replace (Z.of_nat (length a + length (t ++ [NUL]))) with (strlen b + 1) in Hd
    by (rewrite Hst, length_app; simpl; lia).
  replace (a ++ c :: (t ++ [NUL]) ++ r) with (a ++ c :: t ++ NUL :: r) in Hd
    by (now rewrite <- app_assoc).
  destruct (deleteCharacter (a ++ c :: t ++ NUL :: r) (p + 1) (strlen b + 1))
    as [[ok b2] o2] eqn:Ed.
  simpl in Hd. injection Hd as -> ->.
  rewrite List.last_last in Ed.
  exists (a ++ c :: t ++ NUL :: r), o1, (a ++ (t ++ [NUL]) ++ NUL :: r), o2.
  split; [reflexivity|]. split; [exact Ed|].
  repeat split.
  - rewrite Hc. rewrite <- !app_assoc, app_assoc. simpl. now apply cstr_app.
  - rewrite Hst, Eb.
    replace (Z.of_nat (length a + length t) + 1)
      with (Z.of_nat (length (a ++ t ++ [NUL]))) by (rewrite !length_app; simpl; lia).
    replace (a ++ t ++ NUL :: x :: r) with ((a ++ t ++ [NUL]) ++ x :: r)
      by (now rewrite <- !app_assoc).
    rewrite wr_app. now rewrite <- !app_assoc.
  - intros Hcn. rewrite Hst. unfold strlen.
    replace (a ++ c :: t ++ NUL :: r) with ((a ++ c :: t) ++ NUL :: r)
      by (now rewrite <- app_assoc).
    rewrite strlen_nat_app; [rewrite length_app; simpl; lia|].
    apply Forall_app in Hs as [Hsa Hst']. apply Forall_app; split; [exact Hsa|].
    constructor; assumption.
Qed.

Lemma insert_delete_roundtrip_witness :
  exists b1 o1 b2 o2,
    insertCharacter (buf_of "ABD" 8) 8 "C"%char 2 = (true, b1, o1) /\
    deleteCharacter b1 (2 + 1) (strlen (buf_of "ABD" 8) + 1) = (true, b2, o2) /\
    cstr b2 = cstr (buf_of "ABD" 8) /\
    b2 = wr (buf_of "ABD" 8) (strlen (buf_of "ABD" 8) + 1) NUL /\
    ("C"%char <> NUL -> strlen b1 = strlen (buf_of "ABD" 8) + 1).
Proof.
  apply (insert_delete_roundtrip 8 (buf_of "ABD" 8) "C"%char 2).
  - split; vm_compute; [reflexivity|discriminate].
  - vm_compute. reflexivity.
  - vm_compute. split; discriminate.
Defined.

Lemma insertCharacter_capacity_witness :
  fst (fst (insertCharacter (buf_of "ABCD" 5) 5 "E"%char 4)) = false
  <-> strlen (buf_of "ABCD" 5) = 5 - 1.
Proof.
  apply (insertCharacter_capacity 5 (buf_of "ABCD" 5) "E"%char 4).
  - split; vm_compute; [reflexivity|discriminate].
  - vm_compute. split; discriminate.
Defined.

(** ** The command history *)

Lemma cstr_cons (c : ascii) (r : list ascii) :
  cstr (c :: r) = if is_nul c then [] else c :: cstr r.
Proof. unfold cstr. simpl. now destruct (is_nul c). Qed.

Lemma cstr_nil_iff (b : list ascii) : cstr b = [] <-> is_nul (hd NUL b) = true.
Proof.
  destruct b as [|c r]; [now split|].
  rewrite cstr_cons. simpl. destruct (is_nul c); split; auto; discriminate.
Qed.

Lemma strcmp_eq_spec (a : list ascii) : forall b,
  strcmp_eq a b = true <-> cstr a = cstr b.
Proof.
  induction a as [|ca ra IH]; intros b.
  - simpl. rewrite <- cstr_nil_iff. change (cstr []) with (@nil ascii).
    split; congruence.
  - simpl. rewrite cstr_cons. destruct (is_nul ca) eqn:Ea.
    + rewrite <- cstr_nil_iff. split; congruence.
    + destruct b as [|cb rb]; [split; discriminate|].
      rewrite cstr_cons, andb_true_iff, Ascii.eqb_eq, IH.
      destruct (is_nul cb) eqn:Eb.
      * split; [intros [-> _]; congruence|discriminate].
      * split; [intros [-> ->]; reflexivity|intros H; injection H; auto].
Qed.

Lemma strcmp_eq_false (a b : list ascii) :
  cstr a <> cstr b -> strcmp_eq a b = false.
Proof.
  intros H. destruct (strcmp_eq a b) eqn:E; [|reflexivity].
  apply strcmp_eq_spec in E. contradiction.
Qed.

(** The copy [mos_strndup] makes of a line buffer holds the same
    string. *)
Lemma cstr_copy (b : list ascii) : cstr (cstr b ++ [NUL]) = cstr b.
Proof. apply cstr_app, cstr_nul_free. Qed.

Lemma mos_strndup_line_buffer (N : Z) (b : list ascii) (h : heap) :
  line_buffer N b ->
  mos_strndup b N h
  = (if fst (umm_malloc h) then Some (cstr b ++ [NUL]) else None, snd (umm_malloc h)).
Proof.
  intros Hb. unfold mos_strndup. rewrite (line_buffer_strnlen N b Hb).
  destruct (umm_malloc h) as [[|] h']; simpl; [|reflexivity].
  unfold strlen, cstr. now rewrite Nat2Z.id.
Qed.

Lemma umm_malloc_all_succeed (h : heap) :
  all_succeed h -> fst (umm_malloc h) = true /\ all_succeed (snd (umm_malloc h)).
Proof.
  intros H. destruct H as [|ok h Hok H]; simpl; [split; [reflexivity|constructor]|].
  now split.
Qed.

Lemma get_set_slot (slots : list (option (list ascii))) (i : Z) (p : option (list ascii)) :
  0 <= i < Z.of_nat (length slots) -> get_slot (set_slot slots i p) i = p.
Proof.
  intros Hi. unfold get_slot, set_slot.
  destruct (Z.ltb_spec i 0); [lia|].
  rewrite list_lookup_insert_eq by lia. reflexivity.
Qed.

Lemma set_slot_length (slots : list (option (list ascii))) (i : Z) (p : option (list ascii)) :
  length (set_slot slots i p) = length slots.
Proof. unfold set_slot. destruct (i <? 0); [reflexivity|apply length_insert]. Qed.

Lemma set_slot_app (a r : list (option (list ascii))) (x p : option (list ascii)) :
  set_slot (a ++ x :: r) (Z.of_nat (length a)) p = a ++ p :: r.
Proof.
  unfold set_slot. destruct (Z.ltb_spec (Z.of_nat (length a)) 0); [lia|].
  rewrite Nat2Z.id, insert_app_r_alt by lia. now rewrite Nat.sub_diag.
Qed.

Lemma get_slot_app (a r : list (option (list ascii))) (x : option (list ascii)) :
  get_slot (a ++ x :: r) (Z.of_nat (length a)) = x.
Proof.
  unfold get_slot. destruct (Z.ltb_spec (Z.of_nat (length a)) 0); [lia|].
  rewrite Nat2Z.id, lookup_app_r by lia. now rewrite Nat.sub_diag.
Qed.

(** The eviction loop of [editHistoryPush]: every slot of [m] moves one
    place down, over the oldest one. *)
Lemma evict_spec (m : list (option (list ascii))) :
  forall (a : list (option (list ascii))) (x : option (list ascii)),
  for_up (length m) (Z.of_nat (length a) + 1)
    (fun i sl => set_slot sl (i - 1) (get_slot sl i)) (a ++ x :: m)
  = a ++ m ++ [List.last m x].
Proof.
  induction m as [|y m IH]; intros a x; [reflexivity|].
  cbn [length for_up].
  replace (Z.of_nat (length a) + 1 - 1) with (Z.of_nat (length a)) by lia.
  replace (get_slot (a ++ x :: y :: m) (Z.of_nat (length a) + 1)) with y.
  2:{ replace (Z.of_nat (length a) + 1) with (Z.of_nat (length (a ++ [x])))
        by (rewrite length_app; simpl; lia).
      replace (a ++ x :: y :: m) with ((a ++ [x]) ++ y :: m)
        by (now rewrite <- app_assoc).
      now rewrite get_slot_app. }
  rewrite set_slot_app.
  replace (a ++ y :: y :: m) with ((a ++ [y]) ++ y :: m) by (now rewrite <- app_assoc).
  replace (Z.of_nat (length a) + 1 + 1) with (Z.of_nat (length (a ++ [y])) + 1)
    by (rewrite length_app; simpl; lia).
  rewrite IH, <- app_assoc. simpl.
  destruct m as [|z m]; [reflexivity|].
  now rewrite (last_cons_default m z y x).
Qed.

Lemma evict_length (n : nat) : forall (i : Z) (sl : list (option (list ascii))),
  length (for_up n i (fun i sl => set_slot sl (i - 1) (get_slot sl i)) sl) = length sl.
Proof.
  induction n as [|n IH]; intros i sl; [reflexivity|].
  cbn [for_up]. now rewrite IH, set_slot_length.
Qed.

Section HistoryFacts.

Variable depth : Z.
Variable N : Z.

Lemma editHistoryPush_empty (b : list ascii) (hs : history) (h : heap) :
  strlen b = 0 -> editHistoryPush depth b N hs h = Some (hs, h).
Proof.
  intros H0. unfold editHistoryPush.
  assert (strnlen b N = 0) as ->; [|reflexivity].
  unfold strnlen. rewrite H0. destruct (Z.ltb_spec N 0); lia.
Qed.

Lemma editHistoryPush_same (b e : list ascii) (hs : history) (h : heap) :
  0 < history_size hs ->
  history_entry hs (history_size hs - 1) = Some e ->
  cstr b = cstr e ->
  editHistoryPush depth b N hs h = Some (hs, h).
Proof.
  intros Hsz He Hc. unfold editHistoryPush.
  destruct (0 <? strnlen b N); [|reflexivity].
  destruct (Z.ltb_spec 0 (history_size hs)); [|lia].
  rewrite He. simpl. apply strcmp_eq_spec in Hc. now rewrite Hc.
Qed.

(** A push of a new non-empty line when the allocation succeeds. *)
Lemma editHistoryPush_new (b : list ascii) (hs : history) (h : heap) :
  line_buffer N b -> 0 < strlen b -> history_ok depth hs ->
  (forall e, history_entry hs (history_size hs - 1) = Some e -> cstr b <> cstr e) ->
  editHistoryPush depth b N hs h
  = Some
      (let newEntry :=
         if fst (umm_malloc h) then Some (cstr b ++ [NUL]) else None in
       if history_size hs =? depth then
         mkHistory
           (set_slot
              (for_up (Z.to_nat (history_size hs - 1)) 1
                 (fun i sl => set_slot sl (i - 1) (get_slot sl i)) (cmd_history hs))
              (history_size hs - 1) newEntry)
           (history_size hs - 1 + 1) (history_no hs)
       else
         mkHistory (set_slot (cmd_history hs) (history_size hs) newEntry)
           (history_size hs + 1) (history_no hs),
       snd (umm_malloc h)).
Proof.
  intros Hb Hpos (Hsz & Hlen & Hnn) Hnew. unfold editHistoryPush.
  rewrite (line_buffer_strnlen N b Hb).
  destruct (Z.ltb_spec 0 (strlen b)); [|lia].
  assert (Hsame :
    (if 0 <? history_size hs
     then strcmp_eq b <$> history_entry hs (history_size hs - 1)
     else Some false) = Some false).
  { destruct (Z.ltb_spec 0 (history_size hs)); [|reflexivity].
    destruct (history_entry hs (history_size hs - 1)) as [e|] eqn:Ee.
    - simpl. f_equal. apply strcmp_eq_false. now apply Hnew.
    - exfalso. apply (Hnn (history_size hs - 1)); [lia|exact Ee]. }
  rewrite Hsame, (mos_strndup_line_buffer N b h Hb).
  destruct (history_size hs =? depth); reflexivity.
Qed.

(** After a successful push of a non-empty line the newest entry holds
    that line. *)
Lemma editHistoryPush_newest (b : list ascii) (hs hs' : history) (h h' : heap) :
  0 < depth -> line_buffer N b -> 0 < strlen b -> history_ok depth hs ->
  fst (umm_malloc h) = true ->
  editHistoryPush depth b N hs h = Some (hs', h') ->
  0 < history_size hs' /\
  exists e, history_entry hs' (history_size hs' - 1) = Some e /\ cstr b = cstr e.
Proof.
  intros Hd Hb Hpos Hok Hal Hpush.
  destruct (Z.ltb_spec 0 (history_size hs)) as [Hsz|Hsz].
  - destruct (history_entry hs (history_size hs - 1)) as [e|] eqn:Ee.
    2:{ exfalso. destruct Hok as (? & ? & Hnn). apply (Hnn (history_size hs - 1)); [lia|exact Ee]. }
    destruct (List.list_eq_dec ascii_dec (cstr b) (cstr e)) as [Heq|Hne].
    + rewrite (editHistoryPush_same b e hs h Hsz Ee Heq) in Hpush.
      injection Hpush as <- <-. split; [exact Hsz|]. now exists e.
    + rewrite editHistoryPush_new in Hpush; try assumption.
      2:{ intros e' He'. congruence. }
      rewrite Hal in Hpush. injection Hpush as <- <-.
      destruct Hok as (Hs & Hl & _).
      destruct (Z.eqb_spec (history_size hs) depth) as [Hfull|Hnf];
        cbn [history_size cmd_history history_entry]; (split; [lia|]);
        exists (cstr b ++ [NUL]); (split; [|now rewrite cstr_copy]).
      * replace (history_size hs - 1 + 1 - 1) with (history_size hs - 1) by lia.
        unfold history_entry. cbn [cmd_history].
        apply get_set_slot. rewrite evict_length. lia.
      * replace (history_size hs + 1 - 1) with (history_size hs) by lia.
        unfold history_entry. cbn [cmd_history].
        apply get_set_slot. lia.
  - rewrite editHistoryPush_new in Hpush; try assumption.
    2:{ intros e He. destruct Hok as (? & ? & _).
        unfold history_entry, get_slot in He.
        destruct (Z.ltb_spec (history_size hs - 1) 0); [discriminate|lia]. }
    rewrite Hal in Hpush. injection Hpush as <- <-.
    destruct Hok as (Hs & Hl & _).
    destruct (Z.eqb_spec (history_size hs) depth) as [Hfull|Hnf]; [lia|].
    cbn [history_size cmd_history history_entry]. split; [lia|].
    exists (cstr b ++ [NUL]). split; [|now rewrite cstr_copy].
    replace (history_size hs + 1 - 1) with (history_size hs) by lia.
    unfold history_entry. cbn [cmd_history]. apply get_set_slot. lia.
Qed.

Lemma editHistoryPush_defined (b : list ascii) (hs : history) (h : heap) :
  line_buffer N b -> history_ok depth hs ->
  exists r, editHistoryPush depth b N hs h = Some r.
Proof.
  intros Hb Hok.
  destruct (Z.ltb_spec 0 (strlen b)) as [Hpos|Hz].
  2:{ eexists. apply editHistoryPush_empty. unfold strlen in *. lia. }
  destruct (history_entry hs (history_size hs - 1)) as [e|] eqn:Ee.
  - destruct (List.list_eq_dec ascii_dec (cstr b) (cstr e)) as [Heq|Hne].
    + destruct (Z.ltb_spec 0 (history_size hs)) as [Hsz|Hsz].
      * eexists. now apply (editHistoryPush_same b e).
      * eexists. apply editHistoryPush_new; try assumption.
        intros e' He'. exfalso. destruct Hok as (? & ? & _).
        unfold history_entry, get_slot in He'.
        destruct (Z.ltb_spec (history_size hs - 1) 0); [discriminate|lia].
    + eexists. apply editHistoryPush_new; try assumption.
      intros e' He'. congruence.
  - eexists. apply editHistoryPush_new; try assumption.
    intros e' He'. congruence.
Qed.

Lemma filled_entry (ls : list (list ascii)) (no i : Z) (e : list ascii) :
  history_entry (filled depth ls no) i = Some e ->
  exists l, In l ls /\ e = cstr l ++ [NUL].
Proof.
  unfold history_entry, filled, get_slot. cbn [cmd_history].
  destruct (i <? 0); [discriminate|].
  destruct (Nat.lt_ge_cases (Z.to_nat i) (length ls)) as [Hlt|Hge].
  - rewrite lookup_app_l by (now rewrite length_map).
    rewrite list_lookup_fmap.
    destruct (ls !! Z.to_nat i) as [l|] eqn:El; [|discriminate].
    simpl. intros [= <-]. exists l. split; [|reflexivity].
    apply list_elem_of_In. eapply list_elem_of_lookup_2, El.
  - rewrite lookup_app_r by (now rewrite length_map).
    destruct (repeat None _ !! _) as [x|] eqn:Er; [|discriminate].
    apply list_elem_of_lookup_2, list_elem_of_In, repeat_spec in Er. now subst x.
Qed.

Lemma filled_ok (ls : list (list ascii)) (no : Z) :
  Z.of_nat (length ls) <= depth -> history_ok depth (filled depth ls no).
Proof.
  intros Hle. unfold history_ok, filled. cbn [history_size cmd_history].
  repeat split; [lia|lia| |].
  - rewrite length_app, length_map, repeat_length. lia.
  - intros i Hi. unfold history_entry, get_slot. cbn [cmd_history].
    destruct (Z.ltb_spec i 0); [lia|].
    rewrite lookup_app_l by (rewrite length_map; lia).
    rewrite list_lookup_fmap.
    destruct (ls !! Z.to_nat i) as [l|] eqn:El; [discriminate|].
    apply lookup_ge_None in El. lia.
Qed.

(** Storing one more line while the table has a free slot. *)
Lemma editHistoryPush_fill (ls : list (list ascii)) (l : list ascii) (no : Z) (h : heap) :
  Z.of_nat (length ls) < depth ->
  line_buffer N l -> 0 < strlen l ->
  ~ In (cstr l) (map cstr ls) ->
  fst (umm_malloc h) = true ->
  editHistoryPush depth l N (filled depth ls no) h
  = Some (filled depth (ls ++ [l]) no, snd (umm_malloc h)).
Proof.
  intros Hlt Hl Hpos Hnew Hal.
  rewrite editHistoryPush_new; try assumption.
  - rewrite Hal. f_equal. f_equal.
    unfold filled. cbn [history_size cmd_history history_no].
    destruct (Z.eqb_spec (Z.of_nat (length ls)) depth); [lia|].
    rewrite length_app, map_app. cbn [length map].
    replace (Z.of_nat (length ls + 1)) with (Z.of_nat (length ls) + 1) by lia.
    f_equal.
    replace (Z.to_nat depth - length ls)%nat
      with (S (Z.to_nat depth - (length ls + 1))) by lia.
    cbn [repeat].
    replace (Z.of_nat (length ls)) with (Z.of_nat (length (map stored ls)))
      by (now rewrite length_map).
    rewrite set_slot_app. now rewrite <- app_assoc.
  - apply filled_ok. lia.
  - intros e He Heq. apply filled_entry in He as (l' & Hin & ->).
    rewrite cstr_copy in Heq. apply Hnew. rewrite Heq. now apply in_map.
Qed.

Lemma push_all_fill (ls2 : list (list ascii)) :
  forall (ls1 : list (list ascii)) (no : Z) (h : heap),
  Z.of_nat (length (ls1 ++ ls2)) <= depth ->
  Forall (fun l => line_buffer N l /\ 0 < strlen l) ls2 ->
  NoDup (map cstr (ls1 ++ ls2)) ->
  all_succeed h ->
  exists h', push_all depth N ls2 (filled depth ls1 no) h = Some (filled depth (ls1 ++ ls2) no, h')
             /\ all_succeed h'.
Proof.
  induction ls2 as [|l ls2 IH]; intros ls1 no h Hle Hall Hnd Hh.
  - exists h. rewrite app_nil_r. now split.
  - apply Forall_cons in Hall as [[Hl Hpos] Hall].
    destruct (umm_malloc_all_succeed h Hh) as [Hal Hh'].
    cbn [push_all]. rewrite editHistoryPush_fill; try assumption.
    + cbn [mbind option_bind].
      replace (ls1 ++ l :: ls2) with ((ls1 ++ [l]) ++ ls2) in *
        by (now rewrite <- app_assoc).
      now apply IH.
    + rewrite length_app in Hle. simpl in Hle. lia.
    + rewrite map_app in Hnd. apply NoDup_app in Hnd as (_ & Hdis & Hnd2).
      intros Hin. apply list_elem_of_In in Hin. apply (Hdis _ Hin).
      simpl. left.
Qed.

(** Storing one more line in a full table: the oldest entry goes. *)
Lemma editHistoryPush_evict (l0 l : list ascii) (ls : list (list ascii)) (no : Z) (h : heap) :
  Z.of_nat (length (l0 :: ls)) = depth ->
  line_buffer N l -> 0 < strlen l ->
  ~ In (cstr l) (map cstr (l0 :: ls)) ->
  fst (umm_malloc h) = true ->
  editHistoryPush depth l N (filled depth (l0 :: ls) no) h
  = Some (filled depth (ls ++ [l]) no, snd (umm_malloc h)).
Proof.
  intros Hfull Hl Hpos Hnew Hal.
  rewrite editHistoryPush_new; try assumption.
  - rewrite Hal. f_equal. f_equal.
    unfold filled. cbn [history_size cmd_history history_no].
    rewrite Hfull, Z.eqb_refl.
    assert (Hlen : length (ls ++ [l]) = length (l0 :: ls))
      by (rewrite length_app; simpl; lia).
    rewrite Hlen.
    replace (Z.to_nat depth - length (l0 :: ls))%nat with O by lia.
    cbn [repeat]. rewrite !app_nil_r. cbn [map].
    replace (depth - 1 + 1) with (Z.of_nat (length (l0 :: ls))) by lia.
    f_equal.
    replace (Z.to_nat (depth - 1)) with (length (map stored ls))
      by (rewrite length_map; simpl in Hfull; lia).
    pose proof (evict_spec (map stored ls) [] (stored l0)) as He.
    cbn [length app] in He. change (Z.of_nat 0 + 1) with 1 in He. rewrite He.
    replace (depth - 1) with (Z.of_nat (length (map stored ls)))
      by (rewrite length_map; simpl in Hfull; lia).
    rewrite set_slot_app, map_app. reflexivity.
  - apply filled_ok. lia.
  - intros e He Heq. apply filled_entry in He as (l' & Hin & ->).
    rewrite cstr_copy in Heq. apply Hnew. rewrite Heq. now apply in_map.
Qed.

End HistoryFacts.

(** C7. [editHistoryPush] changes nothing (size, entries and browsing
    cursor as they were, no allocation) when the line is empty or its
    string equals the newest entry's. After a push of a non-empty line
    whose copy could be allocated, a second push of the same line changes
    nothing. *)
Theorem editHistoryPush_dedup (depth N : Z) (b : list ascii) (hs : history) (h : heap) :
  (strlen b = 0 \/
   (0 < history_size hs /\
    exists e, history_entry hs (history_size hs - 1) = Some e /\ cstr b = cstr e) ->
   editHistoryPush depth b N hs h = Some (hs, h)) /\
  (0 < depth -> line_buffer N b -> 0 < strlen b -> history_ok depth hs ->
   fst (umm_malloc h) = true ->
   exists hs1 h1,
     editHistoryPush depth b N hs h = Some (hs1, h1) /\
     forall h2, editHistoryPush depth b N hs1 h2 = Some (hs1, h2)).
Proof.
  split.
  - intros [H0|(Hsz & e & He & Hc)].
    + now apply editHistoryPush_empty.
    + now apply (editHistoryPush_same depth N b e).
  - intros Hd Hb Hpos Hok Hal.
    destruct (editHistoryPush_defined depth N b hs h Hb Hok) as [[hs1 h1] Hpush].
    exists hs1, h1. split; [exact Hpush|]. intros h2.
    destruct (editHistoryPush_newest depth N b hs hs1 h h1 Hd Hb Hpos Hok Hal Hpush)
      as (Hsz & e & He & Hc).
    now apply (editHistoryPush_same depth N b e).
Qed.

Lemma editHistoryPush_dedup_witness :
  exists hs1 h1,
    editHistoryPush 4 (buf_of "DIR" 8) 8 (editHistoryInit 4) [] = Some (hs1, h1) /\
    forall h2, editHistoryPush 4 (buf_of "DIR" 8) 8 hs1 h2 = Some (hs1, h2).
Proof.
  apply (editHistoryPush_dedup 4 8 (buf_of "DIR" 8) (editHistoryInit 4) []).
  - lia.
  - split; vm_compute; [reflexivity|discriminate].
  - vm_compute. reflexivity.
  - split; [simpl; lia|]. split; [reflexivity|]. intros i Hi. simpl in Hi. lia.
  - reflexivity.
Defined.

(** C8. Pushing [depth + 1] non-empty lines, no two holding the same
    string, into an empty history while every allocation succeeds leaves
    [history_size = depth]; the first line is gone and the table holds the
    copies of the other [depth] lines in the order they were pushed. *)
Theorem editHistoryPush_fifo (depth N : Z) (lines : list (list ascii)) (h : heap) :
  0 < depth ->
  Z.of_nat (length lines) = depth + 1 ->
  Forall (fun l => line_buffer N l /\ 0 < strlen l) lines ->
  NoDup (map cstr lines) ->
  all_succeed h ->
  exists hs h',
    push_all depth N lines (editHistoryInit depth) h = Some (hs, h') /\
    history_size hs = depth /\
    cmd_history hs = map (fun l => Some (cstr l ++ [NUL])) (tl lines).
Proof.
  intros Hd Hlen Hall Hnd Hh.
  destruct (exists_last (l := lines)) as (front & l & ->).
  { intros ->. simpl in Hlen. lia. }
  rewrite length_app in Hlen. simpl in Hlen.
  destruct front as [|l0 ls]; [simpl in Hlen; lia|].
  apply Forall_app in Hall as [Hfront Hlast].
  apply Forall_cons in Hlast as [[Hl Hpos] _].
  assert (Hinit : editHistoryInit depth = filled depth [] 0).
  { unfold editHistoryInit, filled. simpl. now rewrite Nat.sub_0_r. }
  destruct (push_all_fill depth N (l0 :: ls) [] 0 h) as (h1 & Hfill & Hh1);
    try assumption.
  { simpl. simpl in Hlen. lia. }
  { simpl. rewrite map_app in Hnd. now apply NoDup_app in Hnd as (? & _). }
  assert (Hsplit : forall a b hs0 h0,
    push_all depth N (a ++ b) hs0 h0
    = '(hs1, h1) ← push_all depth N a hs0 h0; push_all depth N b hs1 h1).
  { induction a as [|x a IH]; intros b hs0 h0; simpl.
    - now destruct (push_all depth N b hs0 h0) as [[? ?]|].
    - destruct (editHistoryPush depth x N hs0 h0) as [[hs2 h2]|]; simpl; [apply IH|reflexivity]. }
  rewrite Hsplit, Hinit, Hfill. cbn [mbind option_bind app push_all].
  destruct (umm_malloc_all_succeed h1 Hh1) as [Hal _].
  rewrite (editHistoryPush_evict depth N l0 l ls 0 h1); try assumption.
  - cbn [mbind option_bind]. eexists _, _. split; [reflexivity|].
    unfold filled. cbn [history_size cmd_history].
    rewrite length_app. simpl in *. split; [lia|].
    replace (Z.to_nat depth - (length ls + 1))%nat with O by lia.
    now rewrite app_nil_r.
  - simpl in *. lia.
  - rewrite map_app in Hnd. apply NoDup_app in Hnd as (_ & Hdis & _).
    intros Hin. apply list_elem_of_In in Hin. apply (Hdis _ Hin).
    simpl. left.
Qed.

Lemma editHistoryPush_fifo_witness :
  exists hs h',
    push_all 2 8 [buf_of "A" 8; buf_of "B" 8; buf_of "C" 8] (editHistoryInit 2) []
    = Some (hs, h') /\
    history_size hs = 2 /\
    cmd_history hs
    = map (fun l => Some (cstr l ++ [NUL])) (tl [buf_of "A" 8; buf_of "B" 8; buf_of "C" 8]).
Proof.
  apply (editHistoryPush_fifo 2 8 [buf_of "A" 8; buf_of "B" 8; buf_of "C" 8] []).
  - lia.
  - reflexivity.
  - repeat constructor; vm_compute; congruence.
  - vm_compute. repeat constructor; rewrite ?list_elem_of_In; simpl; intuition congruence.
  - constructor.
Defined.

(** C9. When the copy of the line cannot be allocated, [editHistoryPush]
    still takes a slot: from an empty history the size becomes 1 and the
    new entry is NULL, and the next push of a non-empty line dereferences
    that NULL entry. *)
Theorem editHistoryPush_alloc_failure :
  let b := buf_of "DIR" 8 in
  exists hs,
    editHistoryPush 4 b 8 (editHistoryInit 4) [false] = Some (hs, []) /\
    history_size hs = 1 /\
    history_entry hs 0 = None /\
    editHistoryPush 4 b 8 hs [] = None.
Proof. eexists. repeat split. Qed.

(** ** [memcpy] and the string buffer helpers *)

Lemma wr_take_drop (b : list ascii) (i : nat) (c : ascii) :
  (i < length b)%nat -> wr b (Z.of_nat i) c = take i b ++ c :: drop (S i) b.
Proof.
  intros Hi. unfold wr. destruct (Z.ltb_spec (Z.of_nat i) 0); [lia|].
  rewrite Nat2Z.id. now apply insert_take_drop.
Qed.

Lemma drop_rd (b : list ascii) (j : nat) :
  (j < length b)%nat -> drop j b = rd b (Z.of_nat j) :: drop (S j) b.
Proof.
  intros Hj. unfold rd. destruct (Z.ltb_spec (Z.of_nat j) 0); [lia|].
  rewrite Nat2Z.id. destruct (lookup_lt_is_Some_2 b j Hj) as [x Hx].
  rewrite Hx. simpl. now apply drop_S.
Qed.

Lemma memcpy_loop (src : list ascii) (at_ n : nat) : forall (j : nat) (d : list ascii),
  (at_ + j + n <= length d)%nat -> (j + n <= length src)%nat ->
  for_up n (Z.of_nat j) (fun k d => wr d (Z.of_nat at_ + k) (rd src k)) d
  = take (at_ + j) d ++ take n (drop j src) ++ drop (at_ + j + n) d.
Proof.
  induction n as [|n IH]; intros j d Hd Hs.
  - simpl. now rewrite Nat.add_0_r, take_drop.
  - cbn [for_up].
    replace (Z.of_nat j + 1) with (Z.of_nat (S j)) by lia.
    rewrite IH by (rewrite ?wr_length; lia).
    replace (Z.of_nat at_ + Z.of_nat j) with (Z.of_nat (at_ + j)) by lia.
    rewrite wr_take_drop by lia.
    replace (at_ + S j)%nat with ((at_ + j) + 1)%nat by lia.
    rewrite take_app_add' by (rewrite length_take; lia).
    replace (at_ + j + 1 + n)%nat with ((at_ + j) + (1 + n))%nat by lia.
    rewrite drop_app_add' by (rewrite length_take; lia).
    cbn [take drop Nat.add]. rewrite drop_drop.
    rewrite (drop_rd src j) by lia. cbn [take].
    rewrite <- !app_assoc. simpl.
    now replace (at_ + j + S n)%nat with (S (at_ + j + n)) by lia.
Qed.

Lemma memcpy_spec (dst src : list ascii) (at_ n : nat) :
  (at_ + n <= length dst)%nat -> (n <= length src)%nat ->
  memcpy dst (Z.of_nat at_) src (Z.of_nat n)
  = take at_ dst ++ take n src ++ drop (at_ + n) dst.
Proof.
  intros Hd Hs. unfold memcpy. rewrite Nat2Z.id.
  change 0 with (Z.of_nat 0).
  rewrite (memcpy_loop src at_ n 0 dst) by lia.
  now rewrite Nat.add_0_r, drop_0.
Qed.

Lemma strlen_nonneg (b : list ascii) : 0 <= strlen b.
Proof. unfold strlen. lia. Qed.

Lemma strlen_le_length (b : list ascii) : strlen b <= Z.of_nat (length b).
Proof. unfold strlen. pose proof (strlen_nat_le b). lia. Qed.

Lemma strnlen_bounds (b : list ascii) (n : Z) : 0 <= n \/ n < 0 ->
  strnlen b n <= strlen b /\ (0 <= n -> 0 <= strnlen b n <= n) /\ (n < 0 -> strnlen b n = strlen b).
Proof.
  intros _. unfold strnlen. pose proof (strlen_nonneg b).
  destruct (Z.ltb_spec n 0); lia.
Qed.

Lemma take_cstr (b : list ascii) (n : nat) :
  (n <= strlen_nat b)%nat -> take n b = take n (cstr b).
Proof. intros H. unfold cstr. rewrite take_take. f_equal. lia. Qed.

Lemma nul_free_take (s : list ascii) (n : nat) : nul_free s -> nul_free (take n s).
Proof. apply Forall_take. Qed.

Lemma nul_free_drop (s : list ascii) (n : nat) : nul_free s -> nul_free (drop n s).
Proof. apply Forall_drop. Qed.

Lemma line_buffer_lt (N : Z) (b : list ascii) :
  line_buffer N b -> (strlen_nat b < length b)%nat.
Proof. intros [HN Hle]. unfold strlen in Hle. lia. Qed.

(** [strbuf_append] on a line buffer: the string grows by the first
    [count] characters of the appended one. *)
Lemma strbuf_append_spec (buf str : list ascii) (cap max : Z) :
  line_buffer cap buf ->
  0 <= Z.min (strnlen str max) (cap - strlen buf - 1) ->
  line_buffer cap (strbuf_append buf cap str max) /\
  cstr (strbuf_append buf cap str max)
  = cstr buf ++ take (Z.to_nat (Z.min (strnlen str max) (cap - strlen buf - 1))) (cstr str).
Proof.
  intros Hb Hc0. unfold strbuf_append.
  rewrite (line_buffer_strnlen cap buf Hb).
  set (count := Z.min (strnlen str max) (cap - strlen buf - 1)) in *.
  pose proof (line_buffer_lt cap buf Hb) as Hlt.
  destruct Hb as [HN Hle].
  assert (Hcs : count <= strlen str).
  { destruct (strnlen_bounds str max) as (? & _); lia. }
  pose proof (strlen_le_length str) as Hsl.
  replace (if 0 <? count then memcpy buf (strlen buf) str count else buf)
    with (memcpy buf (strlen buf) str count).
  2:{ destruct (Z.ltb_spec 0 count); [reflexivity|].
      replace count with 0 by lia. reflexivity. }
  unfold strlen in *.
  set (n := Z.to_nat count).
  assert (Hnf : nul_free (take (strlen_nat buf) buf ++ take n str)).
  { apply Forall_app. split; [apply cstr_nul_free|].
    rewrite take_cstr by lia. apply nul_free_take, cstr_nul_free. }
  assert (Hres : exists R,
    wr (memcpy buf (Z.of_nat (strlen_nat buf)) str count)
       (Z.of_nat (strlen_nat buf) + count) NUL
    = (take (strlen_nat buf) buf ++ take n str) ++ NUL :: R /\
    length ((take (strlen_nat buf) buf ++ take n str) ++ NUL :: R) = length buf).
  { replace count with (Z.of_nat n) by lia.
    rewrite memcpy_spec by lia.
    destruct (drop (strlen_nat buf + n) buf) as [|y R] eqn:Ed.
    { apply (f_equal length) in Ed. rewrite length_drop in Ed. simpl in Ed. lia. }
    exists R.
    replace (Z.of_nat (strlen_nat buf) + Z.of_nat n)
      with (Z.of_nat (length (take (strlen_nat buf) buf ++ take n str)))
      by (rewrite length_app, !length_take; lia).
    rewrite app_assoc, wr_app. split; [reflexivity|].
    apply (f_equal length) in Ed. rewrite length_drop in Ed. simpl in Ed.
    rewrite !length_app, !length_take. simpl. lia. }
  destruct Hres as (R & -> & HL).
  split.
  - split; [rewrite HL; exact HN|].
    unfold strlen. rewrite strlen_nat_app by exact Hnf.
    rewrite length_app, !length_take. lia.
  - rewrite cstr_app by exact Hnf. f_equal.
    apply take_cstr. lia.
Qed.

Lemma strlen_cstr (b : list ascii) : strlen b = Z.of_nat (length (cstr b)).
Proof. unfold strlen. now rewrite cstr_length. Qed.

(** Appending a whole string that fits. *)
Lemma strbuf_append_all (buf str : list ascii) (cap max : Z) :
  line_buffer cap buf ->
  max < 0 \/ strlen str <= max ->
  strlen buf + strlen str <= cap - 1 ->
  line_buffer cap (strbuf_append buf cap str max) /\
  cstr (strbuf_append buf cap str max) = cstr buf ++ cstr str.
Proof.
  intros Hb Hmax Hfit.
  assert (Hn : strnlen str max = strlen str).
  { unfold strnlen. destruct (Z.ltb_spec max 0); lia. }
  pose proof (strlen_nonneg str).
  destruct (strbuf_append_spec buf str cap max Hb) as [Hlb Hc]; [rewrite Hn; lia|].
  split; [exact Hlb|]. rewrite Hc, Hn.
  replace (Z.min (strlen str) (cap - strlen buf - 1)) with (strlen str) by lia.
  rewrite strlen_cstr, Nat2Z.id. now rewrite firstn_all.
Qed.

(** Appending the first [max] characters of a longer string. *)
Lemma strbuf_append_prefix (buf str : list ascii) (cap max : Z) :
  line_buffer cap buf ->
  0 <= max <= strlen str ->
  strlen buf + max <= cap - 1 ->
  line_buffer cap (strbuf_append buf cap str max) /\
  cstr (strbuf_append buf cap str max) = cstr buf ++ take (Z.to_nat max) (cstr str).
Proof.
  intros Hb Hmax Hfit.
  assert (Hn : strnlen str max = max).
  { unfold strnlen. destruct (Z.ltb_spec max 0); lia. }
  destruct (strbuf_append_spec buf str cap max Hb) as [Hlb Hc]; [rewrite Hn; lia|].
  split; [exact Hlb|]. rewrite Hc, Hn.
  now replace (Z.min max (cap - strlen buf - 1)) with max by lia.
Qed.

(** An array that starts with NUL holds the empty string. *)
Lemma line_buffer_cleared (N : Z) (b : list ascii) :
  0 < N -> Z.of_nat (length b) = N ->
  line_buffer N (wr b 0 NUL) /\ cstr (wr b 0 NUL) = [].
Proof.
  intros HN Hl. destruct b as [|c b]; [simpl in Hl; lia|].
  unfold wr, line_buffer, strlen, cstr. simpl in *. split; [split; lia|reflexivity].
Qed.

Lemma for_up_length_wr (n : nat) (g : Z -> Z) (f : Z -> list ascii -> ascii) :
  forall (i : Z) (b : list ascii),
  length (for_up n i (fun k d => wr d (g k) (f k d)) b) = length b.
Proof.
  induction n as [|n IH]; intros i b; [reflexivity|].
  cbn [for_up]. now rewrite IH, wr_length.
Qed.

Lemma memset_length (b : list ascii) (c : ascii) (n : Z) :
  length (memset b c n) = length b.
Proof. unfold memset. apply (for_up_length_wr _ (fun k => k) (fun _ _ => c)). Qed.

Lemma removeEditLine_cleared (N : Z) (b : list ascii) (insertPos len : Z) :
  0 < N -> Z.of_nat (length b) = N ->
  line_buffer N (fst (removeEditLine b insertPos len)) /\
  cstr (fst (removeEditLine b insertPos len)) = [].
Proof.
  intros HN Hl. unfold removeEditLine. cbn [fst gotoEditLineStart].
  apply line_buffer_cleared; [exact HN|]. now rewrite memset_length.
Qed.

Lemma memcpy_length (dst src : list ascii) (at_ n : Z) :
  length (memcpy dst at_ src n) = length dst.
Proof.
  unfold memcpy. apply (for_up_length_wr _ (fun k => at_ + k) (fun k _ => rd src k)).
Qed.

Lemma strlen_nat_drop (b : list ascii) : forall p : nat,
  (p <= strlen_nat b)%nat -> strlen_nat (drop p b) = (strlen_nat b - p)%nat.
Proof.
  induction b as [|c b IH]; intros p Hp.
  - now rewrite drop_nil.
  - destruct p as [|p]; [now rewrite drop_0, Nat.sub_0_r|].
    simpl in *. destruct (is_nul c); [lia|]. apply IH. lia.
Qed.

(** [strbuf_insert] into a line buffer with room for the whole of [src]:
    the buffer is split at the insert position into [a] and [tl]. *)
Lemma strbuf_insert_split (a tl rest src : list ascii) (cap : Z) :
  nul_free (a ++ tl) ->
  Z.of_nat (length (a ++ tl ++ NUL :: rest)) = cap ->
  (strlen_nat src <= length rest)%nat ->
  exists R,
    strbuf_insert (a ++ tl ++ NUL :: rest) cap src (Z.of_nat (length a))
    = (a ++ cstr src ++ tl ++ NUL :: R, strlen src) /\
    length (a ++ cstr src ++ tl ++ NUL :: R) = length (a ++ tl ++ NUL :: rest).
Proof.
  intros Hnf Hcap Hroom.
  set (buf := a ++ tl ++ NUL :: rest) in *.
  assert (Hlen : length buf = (length a + length tl + 1 + length rest)%nat).
  { unfold buf. rewrite !length_app. simpl. lia. }
  assert (HL : strlen_nat buf = (length a + length tl)%nat).
  { unfold buf. rewrite app_assoc, strlen_nat_app, length_app by assumption. lia. }
  assert (Hdrop : drop (length a) buf = tl ++ NUL :: rest).
  { unfold buf. now rewrite drop_app_length. }
  pose proof (strlen_nat_le src) as Hsl.
  set (T := strlen_nat src) in *.
  unfold strbuf_insert.
  assert (Htail : strlen (at_offset buf (Z.of_nat (length a))) = Z.of_nat (length tl)).
  { unfold strlen, at_offset. rewrite Nat2Z.id, strlen_nat_drop by lia. lia. }
  rewrite Htail. change (strlen src) with (Z.of_nat T).
  set (count := Z.min (Z.of_nat (length tl) + 1)
                      (cap - Z.of_nat (length a) - Z.of_nat T - 1)).
  assert (Hcount : count = Z.of_nat (length tl) + 1 /\ (T < length rest)%nat
                   \/ count = Z.of_nat (length tl) /\ T = length rest) by lia.
  set (k := Z.to_nat count).
  assert (Hk : count = Z.of_nat k) by lia.
  (* step 1: the tail moves up *)
  replace (if 0 <? count
           then memmove buf (Z.of_nat (length a) + Z.of_nat T) (Z.of_nat (length a)) count
           else buf)
    with (memmove buf (Z.of_nat (length a) + Z.of_nat T) (Z.of_nat (length a)) count).
  2:{ destruct (Z.ltb_spec 0 count); [reflexivity|].
      replace count with 0 by lia. reflexivity. }
  unfold memmove, at_offset. rewrite Nat2Z.id, Hdrop, Hk.
  replace (Z.of_nat (length a) + Z.of_nat T) with (Z.of_nat (length a + T)) by lia.
  rewrite memcpy_spec by (rewrite ?length_app; simpl; lia).
  (* step 2: the terminator behind it *)
  assert (Hmoved : exists R3,
    take k (tl ++ NUL :: rest) ++ NUL :: drop (S (length a + T + k)) buf
    = tl ++ NUL :: R3).
  { destruct Hcount as [[Hc _]|[Hc _]].
    - replace k with (length tl + 1)%nat by lia.
      rewrite take_app_add' by reflexivity. simpl.
      rewrite <- app_assoc. simpl. eauto.
    - replace k with (length tl) by lia.
      rewrite take_app_length. eauto. }
  destruct Hmoved as (R3 & Hmoved).
  assert (Hbuf2 :
    wr (take (length a + T) buf ++ take k (tl ++ NUL :: rest) ++ drop (length a + T + k) buf)
       (Z.of_nat (length a + T) + Z.of_nat k) NUL
    = take (length a + T) buf ++ tl ++ NUL :: R3).
  { destruct (drop (length a + T + k) buf) as [|y R] eqn:Ed.
    { apply (f_equal length) in Ed. rewrite length_drop in Ed. simpl in Ed. lia. }
    assert (HR : R = drop (S (length a + T + k)) buf).
    { replace (S (length a + T + k)) with (length a + T + k + 1)%nat by lia.
      now rewrite <- drop_drop, Ed. }
    replace (Z.of_nat (length a + T) + Z.of_nat k)
      with (Z.of_nat (length (take (length a + T) buf ++ take k (tl ++ NUL :: rest)))).
    2:{ rewrite length_app, !length_take, length_app. simpl. lia. }
    rewrite app_assoc, wr_app, <- app_assoc, HR, Hmoved. reflexivity. }
  rewrite Hbuf2.
  (* step 3: the inserted text *)
  replace (Z.min (Z.of_nat T) (cap - Z.of_nat (length a) - 1)) with (Z.of_nat T) by lia.
  set (buf2 := take (length a + T) buf ++ tl ++ NUL :: R3) in *.
  assert (Hlen2 : length buf2 = length buf).
  { rewrite <- Hbuf2, wr_length, !length_app, !length_take, length_drop, length_app.
    simpl. lia. }
  replace (if 0 <? Z.of_nat T then memcpy buf2 (Z.of_nat (length a)) src (Z.of_nat T) else buf2)
    with (memcpy buf2 (Z.of_nat (length a)) src (Z.of_nat T)).
  2:{ destruct (Z.ltb_spec 0 (Z.of_nat T)); [reflexivity|].
      replace (Z.of_nat T) with 0 by lia. reflexivity. }
  rewrite memcpy_spec by lia.
  assert (Htake : take (length a) buf2 = a).
  { unfold buf2. rewrite take_app_le by (rewrite length_take; lia).
    rewrite take_take. replace (length a `min` (length a + T))%nat with (length a) by lia.
    unfold buf. now rewrite take_app_length. }
  assert (Hdrop2 : drop (length a + T) buf2 = tl ++ NUL :: R3).
  { unfold buf2. rewrite drop_app_length'; [reflexivity|].
    rewrite length_take. lia. }
  rewrite Htake, Hdrop2. fold (cstr src).
  exists R3. split; [reflexivity|].
  rewrite <- Hlen2. unfold buf2.
  rewrite !length_app, length_take, cstr_length. fold T. lia.
Qed.

(** ** Hotkeys *)

Lemma find_sub_bounds (needle : list ascii) : forall (hay : list ascii) (w : Z),
  find_sub needle hay = Some w ->
  0 <= w /\ w + Z.of_nat (length needle) <= Z.of_nat (length hay).
Proof.
  assert (Hsw : forall n h, starts_with n h = true -> (length n <= length h)%nat).
  { induction n as [|x n IH]; intros [|y h] H; simpl in *; try lia; try discriminate.
    apply andb_true_iff in H as [_ H]. apply IH in H. lia. }
  induction hay as [|c hay IH]; intros w H.
  - simpl in H. destruct (starts_with needle []) eqn:E; [|discriminate].
    injection H as <-. apply Hsw in E. simpl in *. lia.
  - simpl in H. destruct (starts_with needle (c :: hay)) eqn:E.
    + injection H as <-. apply Hsw in E. simpl in *. lia.
    + destruct (find_sub needle hay) as [w'|] eqn:Ef; [|discriminate].
      injection H as <-. destruct (IH w' eq_refl). simpl. lia.
Qed.

Lemma cstr_at_offset (b : list ascii) (k : Z) :
  0 <= k <= strlen b -> cstr (at_offset b k) = drop (Z.to_nat k) (cstr b).
Proof.
  intros Hk. unfold at_offset, strlen in *.
  assert (Hn : (Z.to_nat k <= strlen_nat b)%nat) by lia.
  clear Hk. revert Hn. generalize (Z.to_nat k) as n. clear k.
  induction b as [|c b IH]; intros n Hn.
  - change (cstr []) with (@nil ascii). now rewrite !drop_nil.
  - destruct n as [|n]; [reflexivity|].
    simpl in Hn. rewrite cstr_cons. destruct (is_nul c); [lia|].
    simpl. apply IH. lia.
Qed.

Section HotkeyFacts.

Variable hotkey_strings : list (option (list ascii)).
Variable fkey : Z.
Variable hotkey : list ascii.
Variable w : Z.
Hypothesis slot : mjoin (hotkey_strings !! Z.to_nat fkey) = Some hotkey.
Hypothesis marker : strstr hotkey (cconst "%s") = Some w.

Lemma marker_bounds : 0 <= w /\ w + 2 <= strlen hotkey.
Proof.
  unfold strstr in marker. apply find_sub_bounds in marker.
  rewrite strlen_cstr. change (length (cstr (cconst "%s"))) with 2%nat in marker. lia.
Qed.

(** Where [handleHotkey] stops with the beep. *)
Lemma handleHotkey_too_long (buffer : list ascii) (bufferLength insertPos len : Z) (h : heap) :
  bufferLength <= w mod 256 + strlen buffer mod 256
                  + strlen (at_offset hotkey (w + 2)) mod 256 + 1 ->
  handleHotkey hotkey_strings fkey buffer bufferLength insertPos len h
  = (false, buffer, [Putch BEL], h).
Proof.
  intros Hlong. unfold handleHotkey. rewrite slot, marker.
  destruct (Z.leb_spec bufferLength
    (w mod 256 + strlen buffer mod 256 + strlen (at_offset hotkey (w + 2)) mod 256 + 1));
    [reflexivity|lia].
Qed.

(** Where it does not: the result is not the beep. *)
Lemma handleHotkey_not_too_long (buffer : list ascii) (bufferLength insertPos len : Z) (h : heap) :
  w mod 256 + strlen buffer mod 256
    + strlen (at_offset hotkey (w + 2)) mod 256 + 1 < bufferLength ->
  snd (fst (handleHotkey hotkey_strings fkey buffer bufferLength insertPos len h))
  <> [Putch BEL].
Proof.
  intros Hfit. unfold handleHotkey. rewrite slot, marker.
  destruct (Z.leb_spec bufferLength
    (w mod 256 + strlen buffer mod 256 + strlen (at_offset hotkey (w + 2)) mod 256 + 1));
    [lia|].
  destruct (umm_malloc h) as [[|] h']; cbn [negb]; [|discriminate].
  destruct (removeEditLine buffer insertPos len) as [b1 o1].
  cbn [fst snd]. intros Habs.
  apply (f_equal (fun l => List.last l (Putch BEL))) in Habs.
  rewrite List.last_last in Habs. discriminate.
Qed.

(** The expansion where the three lengths fit a [uint8_t]: the line
    becomes the text before the marker, the old line, and the text
    behind the marker. *)
Lemma handleHotkey_expand (buffer : list ascii) (bufferLength insertPos len : Z) (h : heap) :
  line_buffer bufferLength buffer ->
  w < 256 -> strlen hotkey - (w + 2) < 256 -> strlen buffer < 256 ->
  strlen hotkey - 2 + strlen buffer + 1 < bufferLength ->
  fst (umm_malloc h) = true ->
  exists b' o,
    handleHotkey hotkey_strings fkey buffer bufferLength insertPos len h
    = (true, b', o, snd (umm_malloc h)) /\
    line_buffer bufferLength b' /\
    cstr b' = take (Z.to_nat w) (cstr hotkey) ++ cstr buffer
              ++ drop (Z.to_nat (w + 2)) (cstr hotkey).
Proof.
  intros Hb Hpre Hsuf' Hr Hfit Hal.
  destruct marker_bounds as [Hw0 Hw2].
  pose proof (strlen_nonneg buffer) as Hb0.
  assert (Hsuf : cstr (at_offset hotkey (w + 2)) = drop (Z.to_nat (w + 2)) (cstr hotkey))
    by (apply cstr_at_offset; lia).
  assert (Hs : strlen (at_offset hotkey (w + 2)) = strlen hotkey - w - 2).
  { rewrite (strlen_cstr (at_offset _ _)), Hsuf, length_drop, cstr_length.
    unfold strlen in *. lia. }
  unfold handleHotkey. rewrite slot, marker, Hs.
  rewrite !Z.mod_small by lia.
  set (rc := w + strlen buffer + (strlen hotkey - w - 2) + 1).
  destruct (Z.leb_spec bufferLength rc); [lia|].
  destruct (umm_malloc h) as [ok h'] eqn:Eh. simpl in Hal. subst ok. cbn [negb snd].
  (* the composed result *)
  destruct (line_buffer_cleared rc (repeat NUL (Z.to_nat rc))) as [H0 C0];
    [lia|rewrite repeat_length; lia|].
  set (result0 := wr (repeat NUL (Z.to_nat rc)) 0 NUL) in *.
  assert (L0 : strlen result0 = 0) by (now rewrite strlen_cstr, C0).
  destruct (strbuf_append_prefix result0 hotkey rc w H0) as [H1 C1]; [lia|lia|].
  set (result1 := strbuf_append result0 rc hotkey w) in *.
  rewrite C0 in C1. simpl in C1.
  assert (L1 : strlen result1 = w).
  { rewrite strlen_cstr, C1, length_take, cstr_length. unfold strlen in *. lia. }
  rewrite (line_buffer_strnlen _ _ Hb).
  destruct (strbuf_append_all result1 buffer rc (strlen buffer) H1) as [H2 C2];
    [lia|lia|].
  set (result2 := strbuf_append result1 rc buffer (strlen buffer)) in *.
  assert (L2 : strlen result2 = w + strlen buffer).
  { rewrite strlen_cstr, C2, length_app, Nat2Z.inj_add, <- !strlen_cstr. lia. }
  destruct (strbuf_append_all result2 (at_offset hotkey (w + 2)) rc rc H2) as [H3 C3];
    [lia|lia|].
  set (result3 := strbuf_append result2 rc (at_offset hotkey (w + 2)) rc) in *.
  assert (L3 : strlen result3 = rc - 1).
  { rewrite strlen_cstr, C3, length_app, Nat2Z.inj_add, <- !strlen_cstr. lia. }
  (* the line buffer *)
  destruct (removeEditLine_cleared bufferLength buffer insertPos len) as [Hc Cc];
    [lia|apply Hb|].
  destruct (removeEditLine buffer insertPos len) as [buffer1 o1]. cbn [fst] in Hc, Cc.
  destruct (line_buffer_cleared bufferLength buffer1) as [Hc' Cc']; [lia|apply Hc|].
  set (buffer2 := wr buffer1 0 NUL) in *.
  assert (Lc : strlen buffer2 = 0) by (now rewrite strlen_cstr, Cc').
  destruct (strbuf_append_all buffer2 result3 bufferLength rc Hc') as [H4 C4];
    [lia|lia|].
  eexists _, _. split; [reflexivity|]. split; [exact H4|].
  rewrite C4, Cc', C3, C2, C1, Hsuf. simpl. now rewrite <- app_assoc.
Qed.

End HotkeyFacts.

(** C5. The example of the specification holds: with F1 assigned to
    [RUN %s.bin] and the line [TEST], the expansion leaves [RUN TEST.bin].
    With a line of 256 characters in a buffer of 512 bytes and F1 assigned
    to [%s], [replacementLength] wraps to 0: the expansion succeeds and
    leaves the empty line, not the 256 characters. *)
Theorem handleHotkey_uint8_lengths :
  (exists b' o h,
     handleHotkey [Some (cconst "RUN %s.bin")] 0 (buf_of "TEST" 256) 256 4 4 []
     = (true, b', o, h) /\ cstr b' = lit "RUN TEST.bin") /\
  (let buffer := repeat "A"%char 256 ++ repeat NUL 256 in
   exists b' o h,
     handleHotkey [Some (cconst "%s")] 0 buffer 512 256 256 [] = (true, b', o, h) /\
     cstr buffer = repeat "A"%char 256 /\
     cstr b' = []).
Proof.
  split.
  - eexists _, _, _. split; vm_compute; reflexivity.
  - eexists _, _, _. split; [|split]; vm_compute; reflexivity.
Qed.

(** A line that fills its buffer (4 characters in 5 bytes) and the hotkey
    [%s] compose to the same 4 characters, which do not exceed the
    capacity, and yet the expansion is refused with the beep. *)
Lemma handleHotkey_full_line_refused :
  let buffer := buf_of "ABCD" 5 in
  ~ (handleHotkey [Some (cconst "%s")] 0 buffer 5 4 4 []
     = (false, buffer, [Putch BEL], [])
     <-> 5 < Z.of_nat (length (lit "" ++ cstr buffer ++ lit "")) + 1).
Proof.
  intros buffer [H _]. vm_compute in H. specialize (H eq_refl). discriminate.
Qed.

(** Where the guard stops the expansion. With the text before the
    marker, the line and the text behind the marker each shorter than 256
    characters, the expansion stops with the beep exactly when the
    composed length + 1 >= capacity. It then returns false with the buffer
    and the heap as they were and the bell as its only output, and the
    loop leaves the editor as it was but for that bell. *)
Lemma handleHotkey_too_long_iff
    (expansion_size : Z) (expansion_underflow : ascii)
    (mosCommands : list (list ascii))
    (f_find : list ascii -> list ascii -> list FILINFO) (cwd : list ascii)
    (hotkey_strings : list (option (list ascii))) (vk : vkey) (fkey : Z)
    (hotkey : list ascii) (w : Z) (bufferLength : Z) (enableTab : bool) (a : Z)
    (e : editor) :
  fkey_of vk = Some fkey ->
  mjoin (hotkey_strings !! Z.to_nat fkey) = Some hotkey ->
  strstr hotkey (cconst "%s") = Some w ->
  w < 256 -> strlen hotkey - (w + 2) < 256 -> strlen (ed_buffer e) < 256 ->
  let composed :=
    take (Z.to_nat w) (cstr hotkey) ++ cstr (ed_buffer e)
    ++ drop (Z.to_nat (w + 2)) (cstr hotkey) in
  (handleHotkey hotkey_strings fkey (ed_buffer e) bufferLength
     (ed_insertPos e) (ed_len e) (ed_heap e)
   = (false, ed_buffer e, [Putch BEL], ed_heap e)
   <-> bufferLength <= Z.of_nat (length composed) + 1) /\
  (bufferLength <= Z.of_nat (length composed) + 1 ->
   dispatch_key expansion_size expansion_underflow mosCommands f_find cwd
     hotkey_strings bufferLength enableTab true (mkEvent vk a) e
   = (put [Putch BEL] e, 0)).
Proof.
  intros Hvk Hslot Hmark Hpre Hsuf Hr composed.
  destruct (marker_bounds hotkey w Hmark) as [Hw0 Hw2].
  pose proof (strlen_nonneg (ed_buffer e)) as Hb0.
  assert (Hs : strlen (at_offset hotkey (w + 2)) = strlen hotkey - w - 2).
  { rewrite (strlen_cstr (at_offset _ _)), cstr_at_offset, length_drop, cstr_length by lia.
    unfold strlen in *. lia. }
  assert (Hc : Z.of_nat (length composed)
               = w mod 256 + strlen (ed_buffer e) mod 256
                 + strlen (at_offset hotkey (w + 2)) mod 256).
  { rewrite Hs, !Z.mod_small by lia. unfold composed.
    rewrite !length_app, length_take, length_drop, !cstr_length.
    unfold strlen in *. lia. }
  assert (Hlong : bufferLength <= Z.of_nat (length composed) + 1 ->
    handleHotkey hotkey_strings fkey (ed_buffer e) bufferLength
      (ed_insertPos e) (ed_len e) (ed_heap e)
    = (false, ed_buffer e, [Putch BEL], ed_heap e)).
  { intros Hle. apply (handleHotkey_too_long hotkey_strings fkey hotkey w Hslot Hmark).
    lia. }
  split; [split|].
  - intros Hres. destruct (Z.le_gt_cases bufferLength (Z.of_nat (length composed) + 1))
      as [|Hgt]; [assumption|].
    exfalso.
    apply (handleHotkey_not_too_long hotkey_strings fkey hotkey w Hslot Hmark
             (ed_buffer e) bufferLength (ed_insertPos e) (ed_len e) (ed_heap e));
      [lia|].
    now rewrite Hres.
  - exact Hlong.
  - intros Hle. specialize (Hlong Hle).
    unfold dispatch_key. cbn [ev_vkey ev_ascii].
    destruct vk; try discriminate Hvk; cbn [fkey_of from_option id] in *;
      injection Hvk as <-; rewrite Hlong; destruct e; reflexivity.
Qed.

Lemma handleHotkey_too_long_iff_witness :
  let e := mkEditor (buf_of "ABCD" 5) 4 4 0 false (mkHistory [] 0 0) [] [] in
  handleHotkey [Some (cconst "%s")] 0 (ed_buffer e) 5
    (ed_insertPos e) (ed_len e) (ed_heap e)
  = (false, ed_buffer e, [Putch BEL], ed_heap e)
  <-> 5 <= Z.of_nat (length (take (Z.to_nat 0) (cstr (cconst "%s")) ++ cstr (ed_buffer e)
                             ++ drop (Z.to_nat (0 + 2)) (cstr (cconst "%s")))) + 1.
Proof.
  intros e.
  apply (handleHotkey_too_long_iff 16 NUL [] (fun _ _ => []) [] [Some (cconst "%s")]
           VK_F1 0 (cconst "%s") 0 5 false 0 e).
  - reflexivity.
  - reflexivity.
  - reflexivity.
  - lia.
  - vm_compute. reflexivity.
  - vm_compute. reflexivity.
Defined.

(** C6. The guard of [handleHotkey] is off by one. With the line [ABCD]
    in a buffer of 5 bytes and F1 assigned to [%s], the composed text is
    those 4 characters: with its terminator it takes the 5 bytes and does
    not exceed the capacity. The expansion is refused all the same, with
    the beep and the line as it was. The same 4 characters are accepted
    in 5 bytes on the path without marker and by [insertCharacter], and a
    line one character shorter is expanded. *)
Theorem handleHotkey_guard_off_by_one :
  let buffer := buf_of "ABCD" 5 in
  let composed := lit "" ++ cstr buffer ++ lit "" in
  (composed = lit "ABCD") /\
  (Z.of_nat (length composed) + 1 <= 5) /\
  (handleHotkey [Some (cconst "%s")] 0 buffer 5 4 4 []
   = (false, buffer, [Putch BEL], [])) /\
  (exists b' o,
     handleHotkey [Some (cconst "ABCD")] 0 (buf_of "" 5) 5 0 0 [] = (true, b', o, []) /\
     cstr b' = lit "ABCD") /\
  (exists b' o,
     insertCharacter (buf_of "ABC" 5) 5 "D"%char 3 = (true, b', o) /\
     cstr b' = lit "ABCD") /\
  (exists b' o h,
     handleHotkey [Some (cconst "%s")] 0 (buf_of "ABC" 5) 5 3 3 [] = (true, b', o, h) /\
     cstr b' = lit "ABC").
Proof.
  intros buffer composed.
  split; [reflexivity|split; [vm_compute; discriminate|split; [reflexivity|]]].
  split; [|split].
  - eexists _, _. split; vm_compute; reflexivity.
  - eexists _, _. split; vm_compute; reflexivity.
  - eexists _, _, _. split; vm_compute; reflexivity.
Qed.

(** ** Tab completion *)

Lemma rd_nul_drop (b : list ascii) (j : nat) :
  rd b (Z.of_nat j) = NUL -> cstr (drop j b) = [].
Proof.
  intros H. destruct (Nat.lt_ge_cases j (length b)) as [Hlt|Hge].
  - rewrite (drop_rd b j Hlt), H. reflexivity.
  - now rewrite drop_ge.
Qed.

Lemma rd_not_nul_drop (b : list ascii) (j : nat) :
  rd b (Z.of_nat j) <> NUL ->
  cstr (drop j b) = rd b (Z.of_nat j) :: cstr (drop (S j) b).
Proof.
  intros H. destruct (Nat.lt_ge_cases j (length b)) as [Hlt|Hge].
  - rewrite (drop_rd b j Hlt) at 1. rewrite cstr_cons.
    apply is_nul_false in H. now rewrite H.
  - exfalso. apply H. unfold rd. destruct (_ <? _); [reflexivity|].
    rewrite Nat2Z.id, lookup_ge_None_2 by lia. reflexivity.
Qed.

(** The loop of [notify_tab_expansion] for a later candidate cuts the
    accumulator down to the prefix it shares, letter case aside, with the
    NUL-terminated text [exp] points at. *)
Lemma common_prefix_loop_spec (s : list ascii) : forall (pre r exp : list ascii),
  nul_free pre -> nul_free s ->
  cstr (common_prefix_loop (length s) (Z.of_nat (length pre)) (pre ++ s ++ NUL :: r) exp)
  = pre ++ common_prefix s (cstr (drop (length pre) exp)).
Proof.
  induction s as [|x s IH]; intros pre r exp Hpre Hs.
  - simpl. now rewrite cstr_app, app_nil_r.
  - apply Forall_cons in Hs as [Hx Hs].
    cbn [length common_prefix_loop].
    change ((x :: s) ++ NUL :: r) with (x :: s ++ NUL :: r).
    rewrite rd_app.
    destruct (is_nul (rd exp (Z.of_nat (length pre)))) eqn:En.
    + cbn [orb]. rewrite wr_app, cstr_app by assumption.
      apply is_nul_true in En. rewrite (rd_nul_drop exp _ En).
      simpl. now rewrite app_nil_r.
    + cbn [orb]. apply is_nul_false in En.
      rewrite (rd_not_nul_drop exp _ En). cbn [common_prefix].
      destruct (Ascii.eqb (toupper x) (toupper (rd exp (Z.of_nat (length pre))))) eqn:Eu;
        cbn [negb].
      * replace (Z.of_nat (length pre) + 1) with (Z.of_nat (length (pre ++ [x])))
          by (rewrite length_app; simpl; lia).
        replace (pre ++ x :: s ++ NUL :: r) with ((pre ++ [x]) ++ s ++ NUL :: r)
          by (now rewrite <- app_assoc).
        rewrite IH.
        -- rewrite length_app. simpl. rewrite Nat.add_1_r.
           now rewrite <- app_assoc.
        -- apply Forall_app. split; [assumption|]. now constructor.
        -- assumption.
      * rewrite wr_app, cstr_app by assumption. now rewrite app_nil_r.
Qed.

Section TabFacts.

Variable expansion_size : Z.
Variable expansion_underflow : ascii.

(** A later candidate: the accumulator becomes the prefix it shares
    with the whole NUL-terminated text behind [expansion_], whatever
    [expansionLen] says. *)
Lemma notify_tab_expansion_later (showall : bool) (type : TabExpansionType)
    (full : list ascii) (fullLen : Z) (expansion_ : list ascii) (expansionLen : Z)
    (ctx : tab_expansion_context) (o : list vdu) (h : heap) :
  num_matches ctx <> 0 ->
  line_buffer expansion_size (expansion ctx) ->
  let ctx' :=
    fst (fst (notify_tab_expansion expansion_size showall type full fullLen
                expansion_ expansionLen (ctx, o, h))) in
  num_matches ctx' = num_matches ctx + 1 /\
  cstr (expansion ctx') = common_prefix (cstr (expansion ctx)) (cstr expansion_).
Proof.
  intros Hn Hb. unfold notify_tab_expansion.
  destruct (if showall then _ else _) as [[cands o1] h1].
  cbn [fst num_matches expansion]. split; [reflexivity|].
  destruct (Z.eqb_spec (num_matches ctx) 0); [contradiction|].
  pose proof (cstr_split (expansion ctx) (line_buffer_lt _ _ Hb)) as Hs.
  pose proof (common_prefix_loop_spec (cstr (expansion ctx)) []
                (drop (S (strlen_nat (expansion ctx))) (expansion ctx)) expansion_)
    as Hloop.
  cbn [app length drop] in Hloop. rewrite <- Hs, cstr_length in Hloop.
  apply Hloop; [constructor|apply cstr_nul_free].
Qed.

(** The first candidate: the accumulator is seeded with the first
    [expansionLen] characters behind [expansion_], as far as it has
    room. *)
Lemma notify_tab_expansion_first (showall : bool) (type : TabExpansionType)
    (full : list ascii) (fullLen : Z) (expansion_ : list ascii) (expansionLen : Z)
    (ctx : tab_expansion_context) (o : list vdu) (h : heap) :
  num_matches ctx = 0 ->
  Z.of_nat (length (expansion ctx)) = expansion_size ->
  0 <= expansionLen <= strlen expansion_ ->
  0 < expansion_size ->
  let ctx' :=
    fst (fst (notify_tab_expansion expansion_size showall type full fullLen
                expansion_ expansionLen (ctx, o, h))) in
  num_matches ctx' = 1 /\
  cstr (expansion ctx')
  = take (Z.to_nat (Z.min expansionLen (expansion_size - 1))) (cstr expansion_).
Proof.
  intros Hn Hl He Hsz. unfold notify_tab_expansion.
  destruct (if showall then _ else _) as [[cands o1] h1].
  cbn [fst num_matches expansion]. rewrite Hn. split; [reflexivity|].
  cbn [Z.eqb]. destruct (Z.ltb_spec expansionLen 0); [lia|].
  set (count := Z.min expansionLen (expansion_size - 1)).
  pose proof (strlen_le_length expansion_).
  replace count with (Z.of_nat (Z.to_nat count)) at 1 2 by lia.
  change 0 with (Z.of_nat 0) at 1.
  rewrite memcpy_spec by lia. rewrite take_0. cbn [app Nat.add].
  destruct (drop (Z.to_nat count) (expansion ctx)) as [|y R] eqn:Ed.
  { apply (f_equal length) in Ed. rewrite length_drop in Ed. simpl in Ed. lia. }
  replace (Z.of_nat (Z.to_nat count))
    with (Z.of_nat (length (take (Z.to_nat count) expansion_)))
    by (rewrite length_take; lia).
  rewrite wr_app.
  unfold strlen in *. rewrite take_cstr by lia.
  apply cstr_app, nul_free_take, cstr_nul_free.
Qed.

Lemma rd_last (b : list ascii) :
  0 < strlen b -> rd b (strlen b - 1) = List.last (cstr b) NUL.
Proof.
  intros Hpos. unfold strlen in *.
  replace (Z.of_nat (strlen_nat b) - 1) with (Z.of_nat (strlen_nat b - 1)) by lia.
  rewrite rd_nth. unfold cstr.
  assert (Hp : (0 < strlen_nat b)%nat) by lia. clear Hpos.
  induction b as [|c b IH]; simpl in *; [lia|].
  destruct (is_nul c); [lia|].
  destruct (strlen_nat b) as [|m] eqn:En.
  - reflexivity.
  - replace (S (S m) - 1)%nat with (S m) by lia.
    replace (S m - 1)%nat with m in IH by lia.
    rewrite IH by lia.
    destruct b as [|d b]; [discriminate|reflexivity].
Qed.

End TabFacts.

(** C3. The example of the specification holds: with the commands CD,
    COPY and CLS and the typed prefix [C], the accumulator ends empty,
    [num_matches] is 3, nothing is inserted and show-all mode is entered.
    For [.bin] candidates a later candidate is compared beyond its
    suffix: with [X] typed and the files [XA.BINGO.bin] and [XA.bin], the
    suffixes are [A.BINGO] and [A], whose shared prefix is [A], but the
    accumulator ends as [A.BIN] and the line becomes [XA.BIN]. (The
    accumulator is taken to be 128 bytes.) *)
Theorem notify_tab_expansion_bin_suffix :
  (let cmds := [cconst "CD"; cconst "COPY"; cconst "CLS"] in
   let '(ctx, _, _) :=
     tab_enumerate 128 cmds no_files (cconst "/") false (buf_of "C" 256) 256 1 [] in
   let '(b, p, showall, _, _) :=
     do_tab_complete 128 NUL cmds no_files (cconst "/") false (buf_of "C" 256) 256 1 [] in
   num_matches ctx = 3 /\ cstr (expansion ctx) = [] /\
   cstr b = lit "C" /\ p = 1 /\ showall = true) /\
  (let '(ctx, _, _) :=
     tab_enumerate 128 mosCommands_table two_bins (cconst "/") false
       (buf_of "X" 256) 256 1 [] in
   let '(b, p, _, _, _) :=
     do_tab_complete 128 NUL mosCommands_table two_bins (cconst "/") false
       (buf_of "X" 256) 256 1 [] in
   num_matches ctx = 2 /\
   cstr (expansion ctx) = lit "A.BIN" /\
   common_prefix (lit "A.BINGO") (lit "A") = lit "A" /\
   cstr b = lit "XA.BIN" /\ p = 6).
Proof. split; vm_compute; repeat split. Qed.

(** C4, as stated, fails: in a buffer of 5 bytes holding [CO], the single
    match COPY leaves [COPY]; the trailing space that goes with a single
    match does not fit and is not inserted. *)
Lemma do_tab_complete_full_buffer :
  let '(ctx, _, _) :=
    tab_enumerate 128 mosCommands_table no_files (cconst "/") false
      (buf_of "CO" 5) 5 2 [] in
  let '(b, p, _, _, _) :=
    do_tab_complete 128 NUL mosCommands_table no_files (cconst "/") false
      (buf_of "CO" 5) 5 2 [] in
  num_matches ctx = 1 /\ cstr (expansion ctx) = lit "PY" /\
  cstr b = lit "COPY" /\ cstr b <> lit "CO" ++ lit "PY" ++ lit " " /\ p = 4.
Proof. vm_compute. repeat split; discriminate. Qed.

(** What the second half of [do_tab_complete] does when the text fits.
    The inserted text is the accumulated text, followed by a space when
    exactly one candidate matched and the byte the code tests,
    [expansion[num_chars_added - 1]], is not [/]. *)
Lemma tab_finish_spec (expansion_size : Z) (expansion_underflow : ascii)
    (showall : bool) (ctx : tab_expansion_context) (buffer : list ascii) (cap pos : Z) :
  line_buffer cap buffer -> 0 <= pos <= strlen buffer ->
  line_buffer expansion_size (expansion ctx) ->
  let acc := cstr (expansion ctx) in
  let single := num_matches ctx =? 1 in
  let before :=
    if strlen (expansion ctx) =? 0 then expansion_underflow else List.last acc NUL in
  let text :=
    if single && negb (Ascii.eqb before "/"%char) then acc ++ [" "%char] else acc in
  Z.of_nat (length text) <= expansion_size - 1 ->
  strlen buffer + Z.of_nat (length text) <= cap - 1 ->
  let r := tab_finish expansion_size expansion_underflow showall ctx buffer cap pos in
  let b' := fst (fst (fst r)) in
  let pos' := snd (fst (fst r)) in
  if single || negb (strlen (expansion ctx) =? 0) then
    line_buffer cap b' /\
    cstr b' = take (Z.to_nat pos) (cstr buffer) ++ text ++ drop (Z.to_nat pos) (cstr buffer) /\
    pos' = pos + Z.of_nat (length text)
  else b' = buffer /\ pos' = pos.
Proof.
  intros Hb Hpos Hacc acc single before text Hroom_acc Hroom r b' pos'.
  pose proof (strlen_nonneg (expansion ctx)) as Hn0.
  subst r b' pos'. unfold tab_finish. fold single.
  replace ((0 <? strlen (expansion ctx))
           || (strlen (expansion ctx) =? 0) && single)
    with (single || negb (strlen (expansion ctx) =? 0)).
  2:{ destruct single, (Z.eqb_spec (strlen (expansion ctx)) 0),
        (Z.ltb_spec 0 (strlen (expansion ctx))); simpl; try reflexivity; lia. }
  destruct (single || negb (strlen (expansion ctx) =? 0)) eqn:Ego;
    [|cbn [fst snd]; now split].
  (* the byte tested for the path separator *)
  assert (Hbefore : rd_expansion expansion_underflow ctx (strlen (expansion ctx) - 1) = before).
  { unfold rd_expansion, before.
    destruct (Z.eqb_spec (strlen (expansion ctx)) 0) as [H0|H0].
    - rewrite H0. reflexivity.
    - destruct (Z.eqb_spec (strlen (expansion ctx) - 1) (-1)); [lia|].
      apply rd_last. lia. }
  rewrite Hbefore.
  (* the text to insert *)
  set (expansion' :=
    if single && negb (Ascii.eqb before "/")
    then strbuf_append (expansion ctx) expansion_size (cconst " ") 1
    else expansion ctx).
  assert (Htext : cstr expansion' = text).
  { subst expansion' text.
    destruct (single && negb (Ascii.eqb before "/")); [|reflexivity].
    rewrite length_app in Hroom_acc. simpl in Hroom_acc.
    destruct (strbuf_append_all (expansion ctx) (cconst " ") expansion_size 1 Hacc)
      as [_ Hc].
    - right. vm_compute. discriminate.
    - rewrite strlen_cstr. change (strlen (cconst " ")) with 1. fold acc. lia.
    - rewrite Hc. reflexivity. }
  clearbody expansion'.
  (* the insertion *)
  pose proof (cstr_split buffer (line_buffer_lt _ _ Hb)) as Hsplit.
  set (a := take (Z.to_nat pos) (cstr buffer)).
  set (tl := drop (Z.to_nat pos) (cstr buffer)).
  set (rest := drop (S (strlen_nat buffer)) buffer) in *.
  assert (Hcs : cstr buffer = a ++ tl) by (subst a tl; now rewrite take_drop).
  assert (Hla : Z.of_nat (length a) = pos).
  { subst a. rewrite length_take, cstr_length. unfold strlen in *. lia. }
  rewrite Hcs in Hsplit. rewrite <- app_assoc in Hsplit.
  assert (Hnf : nul_free (a ++ tl)) by (rewrite <- Hcs; apply cstr_nul_free).
  assert (Hlen : Z.of_nat (length (a ++ tl ++ NUL :: rest)) = cap)
    by (rewrite <- Hsplit; apply Hb).
  assert (Hrest : (strlen_nat expansion' <= length rest)%nat).
  { rewrite <- cstr_length, Htext.
    rewrite strlen_cstr, Hcs in Hroom.
    assert (length (a ++ tl ++ NUL :: rest) = length a + length tl + 1 + length rest)%nat
      as Hl by (rewrite !length_app; simpl; lia).
    rewrite Hl in Hlen. rewrite length_app in Hroom. lia. }
  destruct (strbuf_insert_split a tl rest expansion' cap Hnf Hlen Hrest)
    as (R & Hins & HlenR).
  rewrite <- Hsplit, Hla in Hins. rewrite Hins. cbn [fst snd].
  rewrite Htext in *.
  assert (Hnf' : nul_free (a ++ text ++ tl)).
  { apply Forall_app in Hnf as [Hna Hnt].
    apply Forall_app. split; [assumption|]. apply Forall_app. split; [|assumption].
    rewrite <- Htext. apply cstr_nul_free. }
  replace (a ++ text ++ tl ++ NUL :: R) with ((a ++ text ++ tl) ++ NUL :: R) in *
    by (now rewrite <- !app_assoc).
  split; [split|split].
  - rewrite HlenR. exact Hlen.
  - unfold strlen. rewrite strlen_nat_app by assumption.
    rewrite strlen_cstr, Hcs in Hroom. rewrite !length_app in *. lia.
  - now apply cstr_app.
  - rewrite strlen_cstr, Htext. reflexivity.
Qed.

(** C4, amended. After the enumeration, when exactly one candidate
    matched or the accumulator is not empty, and the line buffer has room
    for the whole text (and the accumulator for the space), the
    accumulated text is inserted at the cursor: the line becomes the old
    text before the cursor, the inserted text, and the old text from the
    cursor on, and the cursor moves behind the inserted text. When exactly
    one candidate matched and the accumulated text does not end in [/], a
    space follows it, also when the single match adds no character. In
    that last case the code tests the byte in front of the accumulator;
    the statement covers the runs in which that byte is not [/]. *)
Theorem tab_finish_inserts (expansion_size : Z) (expansion_underflow : ascii)
    (showall : bool) (ctx : tab_expansion_context) (buffer : list ascii) (cap pos : Z) :
  line_buffer cap buffer -> 0 <= pos <= strlen buffer ->
  line_buffer expansion_size (expansion ctx) ->
  (strlen (expansion ctx) = 0 -> expansion_underflow <> "/"%char) ->
  let acc := cstr (expansion ctx) in
  let single := num_matches ctx =? 1 in
  let text :=
    if single && negb (Ascii.eqb (List.last acc NUL) "/"%char)
    then acc ++ [" "%char] else acc in
  Z.of_nat (length text) <= expansion_size - 1 ->
  strlen buffer + Z.of_nat (length text) <= cap - 1 ->
  let r := tab_finish expansion_size expansion_underflow showall ctx buffer cap pos in
  let b' := fst (fst (fst r)) in
  let pos' := snd (fst (fst r)) in
  if single || negb (strlen (expansion ctx) =? 0) then
    line_buffer cap b' /\
    cstr b' = take (Z.to_nat pos) (cstr buffer) ++ text ++ drop (Z.to_nat pos) (cstr buffer) /\
    pos' = pos + Z.of_nat (length text)
  else b' = buffer /\ pos' = pos.
Proof.
  intros Hb Hpos Hacc Hunder acc single text.
  assert (Hsame :
    (if strlen (expansion ctx) =? 0 then expansion_underflow else List.last acc NUL)
    = "/"%char <-> List.last acc NUL = "/"%char).
  { destruct (Z.eqb_spec (strlen (expansion ctx)) 0) as [H0|H0]; [|reflexivity].
    assert (Hnil : acc = []).
    { apply length_zero_iff_nil. unfold acc. rewrite strlen_cstr in H0. lia. }
    rewrite Hnil. cbn [List.last]. split; [intros H; now destruct (Hunder H0)|discriminate]. }
  assert (Htext :
    (if single
        && negb (Ascii.eqb
                   (if strlen (expansion ctx) =? 0 then expansion_underflow
                    else List.last acc NUL) "/"%char)
     then acc ++ [" "%char] else acc) = text).
  { assert (Hbool :
      Ascii.eqb (if strlen (expansion ctx) =? 0 then expansion_underflow
                 else List.last acc NUL) "/"%char
      = Ascii.eqb (List.last acc NUL) "/"%char)
      by (apply eq_true_iff_eq; rewrite !Ascii.eqb_eq; exact Hsame).
    unfold text. now rewrite Hbool. }
  pose proof (tab_finish_spec expansion_size expansion_underflow showall ctx buffer
                cap pos Hb Hpos Hacc) as H.
  cbv zeta in H. fold acc single in H. rewrite Htext in H. exact H.
Qed.

Lemma tab_finish_inserts_witness :
  let ctx := mkCtx 1 (buf_of "COPY" 16) 4 (buf_of "" 8) [] in
  let r := tab_finish 8 NUL false ctx (buf_of "COPY" 16) 16 4 in
  line_buffer 16 (fst (fst (fst r))) /\
  cstr (fst (fst (fst r))) = lit "COPY " /\
  snd (fst (fst r)) = 5.
Proof.
  intros ctx r.
  apply (tab_finish_inserts 8 NUL false ctx (buf_of "COPY" 16) 16 4).
  - split; vm_compute; [reflexivity|discriminate].
  - vm_compute. split; discriminate.
  - split; vm_compute; [reflexivity|discriminate].
  - intros _. discriminate.
  - vm_compute. discriminate.
  - vm_compute. discriminate.
Defined.



(** The byte in front of the accumulator matters only there: with a
    single match that adds no character and the byte [/] in front of the
    array, no space is inserted. *)
Lemma tab_finish_byte_in_front :
  let ctx := mkCtx 1 (buf_of "COPY" 16) 4 (buf_of "" 8) [] in
  cstr (fst (fst (fst (tab_finish 8 "/"%char false ctx (buf_of "COPY" 16) 16 4))))
  = lit "COPY" /\
  cstr (fst (fst (fst (tab_finish 8 NUL false ctx (buf_of "COPY" 16) 16 4))))
  = lit "COPY ".
Proof. split; reflexivity. Qed.

(** ** The editor loop *)

Section EditLineFacts.

Variable cmd_historyDepth : Z.
Variable expansion_size : Z.
Variable expansion_underflow : ascii.
Variable mosCommands : list (list ascii).
Variable f_find : list ascii -> list ascii -> list FILINFO.
Variable cwd : list ascii.
Variable hotkey_strings : list (option (list ascii)).
Variable scrcols : Z.

Lemma ascii_key_keyr (bufferLength : Z) (enableTab : bool) (keya : Z) (e : editor) :
  exit_key (ed_keyr e) ->
  exit_key
    (ed_keyr (fst (ascii_key expansion_size expansion_underflow mosCommands f_find cwd
                     bufferLength enableTab keya e))).
Proof.
  intros Hk. unfold ascii_key, goto_start, goto_end, cursor_left, cursor_right.
  destruct (keya =? 0); [exact Hk|].
  destruct ((32 <=? keya) && negb (keya =? 127)).
  { split_branches; exact Hk. }
  destruct (keya =? 1); [split_branches; exact Hk|].
  destruct (keya =? 2); [split_branches; exact Hk|].
  destruct (keya =? 5); [split_branches; exact Hk|].
  destruct (keya =? 9); [split_branches; exact Hk|].
  destruct (keya =? 10); [exact Hk|].
  destruct (keya =? 11); [exact Hk|].
  destruct (Z.eqb_spec keya 13) as [->|_]; [right; left; reflexivity|].
  destruct (keya =? 14); [exact Hk|].
  destruct (keya =? 16); [exact Hk|].
  destruct ((keya =? 6) || (keya =? 21)); [split_branches; exact Hk|].
  destruct (keya =? 23); [split_branches; exact Hk|].
  destruct (Z.eqb_spec keya 27) as [->|_]; [right; right; reflexivity|].
  destruct ((keya =? 8) || (keya =? 127)); [split_branches; exact Hk|].
  exact Hk.
Qed.

Lemma dispatch_key_keyr (bufferLength : Z) (enableTab enableHotkeys : bool)
    (ev : keyboard_event_t) (e : editor) :
  exit_key (ed_keyr e) ->
  exit_key
    (ed_keyr (fst (dispatch_key expansion_size expansion_underflow mosCommands f_find
                     cwd hotkey_strings bufferLength enableTab enableHotkeys ev e))).
Proof.
  intros Hk. unfold dispatch_key, goto_start, goto_end, cursor_left.
  destruct (ev_vkey ev);
    try (split_branches; exact Hk);
    try (apply ascii_key_keyr; exact Hk);
    (destruct enableHotkeys; [|exact Hk];
     destruct (handleHotkey _ _ _ _ _ _ _) as [[[[|] b] o] h];
     [apply ascii_key_keyr; exact Hk|exact Hk]).
Qed.

Lemma history_step_keyr (bufferLength historyAction : Z) (e e' : editor) :
  history_step cmd_historyDepth bufferLength historyAction e = Some e' ->
  ed_keyr e' = ed_keyr e.
Proof.
  unfold history_step.
  destruct (historyAction =? 1).
  { destruct (editHistoryPush _ _ _ _ _) as [[hs h]|]; [|discriminate].
    intros [= <-]. reflexivity. }
  destruct (historyAction =? 2).
  { destruct (editHistoryUp _ _ _ _ _) as [[[[[|] b] hs] o]|]; [| |discriminate];
      intros [= <-]; reflexivity. }
  destruct (historyAction =? 3).
  { destruct (editHistoryDown _ _ _ _ _) as [[[[[|] b] hs] o]|]; [| |discriminate];
      intros [= <-]; reflexivity. }
  now intros [= <-].
Qed.

Lemma edit_step_keyr (bufferLength : Z) (enableTab enableHotkeys enableHistory : bool)
    (ev : keyboard_event_t) (e e' : editor) :
  exit_key (ed_keyr e) ->
  edit_step cmd_historyDepth expansion_size expansion_underflow mosCommands f_find cwd
    hotkey_strings bufferLength enableTab enableHotkeys enableHistory ev e = Some e' ->
  exit_key (ed_keyr e').
Proof.
  intros Hk. unfold edit_step.
  set (e2 := if negb (ev_ascii ev mod 256 =? 9) then _ else _).
  assert (Hk2 : exit_key (ed_keyr e2)) by (subst e2; split_branches; exact Hk).
  pose proof (dispatch_key_keyr bufferLength enableTab enableHotkeys ev e2 Hk2) as Hd.
  destruct (dispatch_key _ _ _ _ _ _ _ _ _ _ _) as [e3 historyAction].
  cbn [fst] in Hd.
  destruct enableHistory.
  - intros Hs. apply history_step_keyr in Hs. now rewrite Hs.
  - now intros [= <-].
Qed.

Lemma edit_finish_keyr (e e' : editor) (keyr : Z) :
  edit_finish scrcols e = Returned keyr e' -> keyr = ed_keyr e.
Proof.
  unfold edit_finish. destruct (cursor_down _ _ _ _) as [[len' o]|]; [|discriminate].
  now intros [= <- _].
Qed.

Lemma edit_loop_keyr (bufferLength : Z) (enableTab enableHotkeys enableHistory : bool)
    (events : list keyboard_event_t) : forall (e e' : editor) (keyr : Z),
  exit_key (ed_keyr e) ->
  edit_loop cmd_historyDepth expansion_size expansion_underflow mosCommands f_find cwd
    hotkey_strings scrcols bufferLength enableTab enableHotkeys enableHistory events e
  = Returned keyr e' ->
  keyr = 13 \/ keyr = 27.
Proof.
  assert (Hfin : forall e e' keyr, exit_key (ed_keyr e) ->
            negb (ed_keyr e =? 0) = true ->
            edit_finish scrcols e = Returned keyr e' -> keyr = 13 \/ keyr = 27).
  { intros e e' keyr Hk Hnz Hf. apply edit_finish_keyr in Hf. subst keyr.
    destruct Hk as [H0|H]; [rewrite H0 in Hnz; discriminate|exact H]. }
  induction events as [|ev events IH]; intros e e' keyr Hk; cbn [edit_loop].
  - destruct (negb (ed_keyr e =? 0)) eqn:Hnz; [now apply Hfin|discriminate].
  - destruct (negb (ed_keyr e =? 0)) eqn:Hnz; [now apply Hfin|].
    destruct (edit_step _ _ _ _ _ _ _ _ _ _ _ ev e) as [e1|] eqn:Es; [|discriminate].
    apply IH. eapply edit_step_keyr; eassumption.
Qed.

Lemma cursor_down_ends (fuel : nat) : forall (len : Z) (o : list vdu),
  0 < scrcols -> len <= Z.of_nat fuel -> cursor_down scrcols fuel len o <> None.
Proof.
  induction fuel as [|fuel IH]; intros len o Hs Hl; cbn [cursor_down].
  - destruct (Z.leb_spec scrcols len); [lia|discriminate].
  - destruct (Z.leb_spec scrcols len); [apply IH; lia|discriminate].
Qed.

Lemma edit_finish_returns (e : editor) :
  0 < scrcols -> exists e', edit_finish scrcols e = Returned (ed_keyr e) e'.
Proof.
  intros Hs. unfold edit_finish.
  destruct (cursor_down scrcols _ _ _) as [[len' o]|] eqn:Ec; [eauto|].
  exfalso. revert Ec. apply cursor_down_ends; [exact Hs|lia].
Qed.


Lemma edit_loop_enter (bufferLength : Z) (enableTab enableHotkeys : bool) (e : editor) :
  0 < scrcols -> ed_keyr e = 0 ->
  exists e',
    edit_loop cmd_historyDepth expansion_size expansion_underflow mosCommands f_find cwd
      hotkey_strings scrcols bufferLength enableTab enableHotkeys false
      [mkEvent VK_OTHER 13] e
    = Returned 13 e'.
Proof.
  intros Hs Hk. cbn [edit_loop]. rewrite Hk. cbn [Z.eqb negb].
  unfold edit_step, dispatch_key. cbn [ev_vkey ev_ascii].
  change (13 mod 256) with 13. unfold ascii_key. cbn -[edit_finish].
  match goal with |- context [edit_finish scrcols ?x] =>
    destruct (edit_finish_returns x Hs) as [e' He']; exists e'; exact He' end.
Qed.


End EditLineFacts.

(** *** Which key ends the loop *)

Section ExitKey.

Variable cmd_historyDepth : Z.
Variable expansion_size : Z.
Variable expansion_underflow : ascii.
Variable mosCommands : list (list ascii).
Variable f_find : list ascii -> list ascii -> list FILINFO.
Variable cwd : list ascii.
Variable hotkey_strings : list (option (list ascii)).
Variable scrcols : Z.
Variable bufferLength : Z.
Variable enableTab enableHotkeys enableHistory : bool.








End ExitKey.




Example insertCharacter_ex :
  let '(ok, b, _) := insertCharacter (buf_of "ABD" 8) 8 "C"%char 2 in
  (ok, cstr b) = (true, lit "ABCD").
Proof. reflexivity. Qed.

Example deleteCharacter_ex :
  let '(ok, b, _) := deleteCharacter (buf_of "ABCD" 8) 3 4 in
  (ok, cstr b) = (true, lit "ABD").
Proof. reflexivity. Qed.

(** * Further properties *)

(** ** strings.c *)

Lemma strnlen_nonneg (b : list ascii) (n : Z) : 0 <= strnlen b n.
Proof.
  unfold strnlen. pose proof (strlen_nonneg b). destruct (Z.ltb_spec n 0); lia.
Qed.

Lemma strnlen_le_strlen (b : list ascii) (n : Z) : strnlen b n <= strlen b.
Proof. unfold strnlen. destruct (Z.ltb_spec n 0); lia. Qed.

Lemma take_min_length {A : Type} (l : list A) (n : nat) :
  take (n `min` length l) l = take n l.
Proof.
  destruct (Nat.le_ge_cases n (length l)) as [H|H].
  - now rewrite Nat.min_l.
  - rewrite Nat.min_r by exact H. now rewrite !take_ge by lia.
Qed.

(** X1. [strbuf_append] on a line buffer leaves a line buffer of the same
    capacity: the string grows by the first [count] characters of the
    appended one, where [count] is the smaller of [strnlen(str, max)] and
    the room left before the last byte; so never more than [max]
    characters are appended and the terminator is always there. *)
Theorem strbuf_append_bounded (buf str : list ascii) (cap max : Z) :
  line_buffer cap buf ->
  let count := Z.min (strnlen str max) (cap - strlen buf - 1) in
  let res := strbuf_append buf cap str max in
  line_buffer cap res /\
  cstr res = cstr buf ++ take (Z.to_nat count) (cstr str) /\
  strlen res = strlen buf + count /\
  (0 <= max -> count <= max).
Proof.
  intros Hb count res.
  pose proof (strnlen_nonneg str max) as H0.
  pose proof (strnlen_le_strlen str max) as H1.
  assert (Hc0 : 0 <= count) by (destruct Hb; unfold count; lia).
  destruct (strbuf_append_spec buf str cap max Hb Hc0) as [Hlb Hcs].
  fold count in Hcs. fold res in Hlb, Hcs.
  split; [exact Hlb|]. split; [exact Hcs|]. split.
  - rewrite (strlen_cstr res), Hcs, length_app, length_take, !cstr_length.
    unfold strlen in *. unfold count in *. lia.
  - intros Hm. unfold count, strnlen. destruct (Z.ltb_spec max 0); lia.
Qed.

Lemma strbuf_append_bounded_witness :
  let res := strbuf_append (buf_of "LOAD " 8) 8 (cconst "GAME.BIN") 128 in
  line_buffer 8 res /\ cstr res = cstr (buf_of "LOAD " 8) ++
    take (Z.to_nat (Z.min (strnlen (cconst "GAME.BIN") 128) (8 - strlen (buf_of "LOAD " 8) - 1)))
      (cstr (cconst "GAME.BIN")).
Proof.
  intros res.
  destruct (strbuf_append_bounded (buf_of "LOAD " 8) (cconst "GAME.BIN") 8 128)
    as (H1 & H2 & _).
  - split; vm_compute; [reflexivity|discriminate].
  - split; [exact H1|exact H2].
Defined.

(** [strbuf_insert] into a line buffer with room for the whole of [src]. *)
Lemma strbuf_insert_room (buf src : list ascii) (cap loc : Z) :
  line_buffer cap buf -> 0 <= loc <= strlen buf ->
  strlen buf + strlen src <= cap - 1 ->
  snd (strbuf_insert buf cap src loc) = strlen src /\
  line_buffer cap (fst (strbuf_insert buf cap src loc)) /\
  cstr (fst (strbuf_insert buf cap src loc))
  = take (Z.to_nat loc) (cstr buf) ++ cstr src ++ drop (Z.to_nat loc) (cstr buf).
Proof.
  intros Hb Hloc Hroom.
  pose proof (cstr_split buf (line_buffer_lt _ _ Hb)) as Hsplit.
  set (a := take (Z.to_nat loc) (cstr buf)).
  set (tl := drop (Z.to_nat loc) (cstr buf)).
  set (rest := drop (S (strlen_nat buf)) buf) in *.
  assert (Hcs : cstr buf = a ++ tl) by (subst a tl; now rewrite take_drop).
  assert (Hla : Z.of_nat (length a) = loc).
  { subst a. rewrite length_take, cstr_length. unfold strlen in *. lia. }
  rewrite Hcs in Hsplit. rewrite <- app_assoc in Hsplit.
  assert (Hnf : nul_free (a ++ tl)) by (rewrite <- Hcs; apply cstr_nul_free).
  assert (Hlen : Z.of_nat (length (a ++ tl ++ NUL :: rest)) = cap)
    by (rewrite <- Hsplit; apply Hb).
  assert (Hl : length (a ++ tl ++ NUL :: rest)
               = (length a + length tl + 1 + length rest)%nat)
    by (rewrite !length_app; simpl; lia).
  assert (Hrest : (strlen_nat src <= length rest)%nat).
  { rewrite strlen_cstr, Hcs, length_app in Hroom. unfold strlen in Hroom.
    rewrite Hl in Hlen. lia. }
  destruct (strbuf_insert_split a tl rest src cap Hnf Hlen Hrest) as (R & Hins & HlenR).
  rewrite <- Hsplit, Hla in Hins. rewrite Hins. cbn [fst snd].
  assert (Hnf' : nul_free (a ++ cstr src ++ tl)).
  { apply Forall_app in Hnf as [Hna Hnt].
    apply Forall_app. split; [assumption|]. apply Forall_app. split; [|assumption].
    apply cstr_nul_free. }
  replace (a ++ cstr src ++ tl ++ NUL :: R) with ((a ++ cstr src ++ tl) ++ NUL :: R) in *
    by (now rewrite <- !app_assoc).
  split; [reflexivity|]. split; [split|].
  - rewrite HlenR. exact Hlen.
  - unfold strlen. rewrite strlen_nat_app by assumption.
    rewrite strlen_cstr, Hcs in Hroom. rewrite !length_app in *.
    rewrite cstr_length. unfold strlen in Hroom. lia.
  - now apply cstr_app.
Qed.

(** X2. [strbuf_insert] into a line buffer that has room for the whole of
    [src] puts the string of [src] in at [insert_loc], keeps the text
    before and behind it, leaves a line buffer and returns the length of
    [src]. *)
Theorem strbuf_insert_fits (buf src : list ascii) (cap loc : Z) :
  line_buffer cap buf -> 0 <= loc <= strlen buf ->
  strlen buf + strlen src <= cap - 1 ->
  let r := strbuf_insert buf cap src loc in
  snd r = strlen src /\
  line_buffer cap (fst r) /\
  cstr (fst r) = take (Z.to_nat loc) (cstr buf) ++ cstr src ++ drop (Z.to_nat loc) (cstr buf).
Proof. intros Hb Hloc Hroom r. now apply strbuf_insert_room. Qed.

Lemma strbuf_insert_fits_witness :
  let r := strbuf_insert (buf_of "CD DS" 16) 16 (cconst "OC") 4 in
  snd r = strlen (cconst "OC") /\
  line_buffer 16 (fst r) /\
  cstr (fst r) = take (Z.to_nat 4) (cstr (buf_of "CD DS" 16)) ++ cstr (cconst "OC")
                 ++ drop (Z.to_nat 4) (cstr (buf_of "CD DS" 16)).
Proof.
  apply (strbuf_insert_fits (buf_of "CD DS" 16) (cconst "OC") 16 4).
  - split; vm_compute; [reflexivity|discriminate].
  - vm_compute. split; discriminate.
  - vm_compute. discriminate.
Defined.

Lemma memcpy_loop_take (src : list ascii) (at_ : Z) (n : nat) (k : nat) :
  forall (i : Z) (d : list ascii),
  Z.of_nat n <= at_ + i ->
  take n (for_up k i (fun j d => wr d (at_ + j) (rd src j)) d) = take n d.
Proof.
  induction k as [|k IH]; intros i d Hn; [reflexivity|].
  cbn [for_up]. rewrite IH by lia. unfold wr.
  destruct (Z.ltb_spec (at_ + i) 0); [reflexivity|].
  apply take_insert_ge. lia.
Qed.

Lemma memcpy_take (dst src : list ascii) (at_ k : Z) (n : nat) :
  Z.of_nat n <= at_ -> take n (memcpy dst at_ src k) = take n dst.
Proof. intros Hn. unfold memcpy. apply memcpy_loop_take. lia. Qed.

Lemma memcpy_loop_rd (src : list ascii) (at_ : Z) (j : Z) (k : nat) :
  forall (i : Z) (d : list ascii),
  j < at_ + i \/ at_ + i + Z.of_nat k <= j ->
  rd (for_up k i (fun j d => wr d (at_ + j) (rd src j)) d) j = rd d j.
Proof.
  induction k as [|k IH]; intros i d Hj; [reflexivity|].
  cbn [for_up]. rewrite IH by lia. apply rd_wr_ne. lia.
Qed.

Lemma memcpy_rd_outside (dst src : list ascii) (at_ k j : Z) :
  j < at_ \/ at_ + k <= j -> 0 <= k -> rd (memcpy dst at_ src k) j = rd dst j.
Proof. intros Hj Hk. unfold memcpy. apply memcpy_loop_rd. lia. Qed.

Lemma take_wr_ge (b : list ascii) (i : Z) (c : ascii) (n : nat) :
  Z.of_nat n <= i -> take n (wr b i c) = take n b.
Proof.
  intros Hn. unfold wr. destruct (Z.ltb_spec i 0); [reflexivity|].
  apply take_insert_ge. lia.
Qed.

(** A prefix without NUL bounds the string length from below. *)
Lemma strlen_ge_nul_free (b : list ascii) (n : nat) :
  (n <= length b)%nat -> nul_free (take n b) -> (n <= strlen_nat b)%nat.
Proof.
  revert n. induction b as [|c b IH]; intros n Hn Hnf; simpl in *; [lia|].
  destruct n as [|n]; [lia|].
  simpl in Hnf. apply Forall_cons in Hnf as [Hc Hnf].
  apply is_nul_false in Hc. rewrite Hc. apply le_n_S, IH; [lia|exact Hnf].
Qed.

(** [strbuf_insert] into a line buffer, with or without room. *)
Lemma strbuf_insert_any (buf src : list ascii) (cap loc : Z) :
  line_buffer cap buf -> 0 <= loc <= strlen buf ->
  let n := Z.min (strlen src) (cap - loc - 1) in
  snd (strbuf_insert buf cap src loc) = n /\
  0 <= n /\
  line_buffer cap (fst (strbuf_insert buf cap src loc)) /\
  take (Z.to_nat (loc + n)) (fst (strbuf_insert buf cap src loc))
  = take (Z.to_nat loc) (cstr buf) ++ take (Z.to_nat n) (cstr src) /\
  loc + n <= strlen (fst (strbuf_insert buf cap src loc)).
Proof.
  intros Hb Hloc n.
  pose proof (strlen_nonneg src) as HT0.
  pose proof (strlen_le_length src) as HTl.
  pose proof (strlen_nonneg (at_offset buf loc)) as Htail0.
  destruct Hb as [HN Hle].
  assert (Hn0 : 0 <= n) by (unfold n; lia).
  unfold strbuf_insert. cbn [fst snd]. fold n.
  set (count := Z.min (strlen (at_offset buf loc) + 1) (cap - loc - strlen src - 1)).
  set (buf1 := if 0 <? count then memmove buf (loc + strlen src) loc count else buf).
  set (idx := loc + strlen src + count).
  set (buf2 := wr buf1 idx NUL).
  assert (Hl1 : length buf1 = length buf).
  { unfold buf1, memmove. destruct (0 <? count); [apply memcpy_length|reflexivity]. }
  assert (Hl2 : length buf2 = length buf) by (unfold buf2; now rewrite wr_length).
  assert (Hidx : loc + n <= idx <= cap - 1) by (unfold idx, count, n; lia).
  assert (Htk1 : take (Z.to_nat loc) buf1 = take (Z.to_nat loc) buf).
  { unfold buf1, memmove. destruct (0 <? count); [|reflexivity].
    apply memcpy_take. lia. }
  assert (Htk2 : take (Z.to_nat loc) buf2 = take (Z.to_nat loc) buf).
  { unfold buf2. rewrite take_wr_ge by lia. exact Htk1. }
  replace (if 0 <? n then memcpy buf2 loc src n else buf2) with (memcpy buf2 loc src n).
  2:{ destruct (Z.ltb_spec 0 n); [reflexivity|]. replace n with 0 by lia. reflexivity. }
  set (res := memcpy buf2 loc src n).
  assert (Hlr : length res = length buf) by (unfold res; now rewrite memcpy_length).
  assert (Hres : res = take (Z.to_nat loc) buf2 ++ take (Z.to_nat n) src
                       ++ drop (Z.to_nat loc + Z.to_nat n) buf2).
  { unfold res.
    replace loc with (Z.of_nat (Z.to_nat loc)) at 1 by lia.
    replace n with (Z.of_nat (Z.to_nat n)) at 1 by lia.
    apply memcpy_spec; lia. }
  assert (Hpre : take (Z.to_nat (loc + n)) res
                 = take (Z.to_nat loc) (cstr buf) ++ take (Z.to_nat n) (cstr src)).
  { rewrite Hres, Htk2.
    replace (Z.to_nat (loc + n)) with (Z.to_nat loc + Z.to_nat n)%nat by lia.
    rewrite app_assoc, take_app_length'.
    - assert (Hns : (Z.to_nat n <= strlen_nat src)%nat)
        by (unfold n, strlen in *; lia).
      assert (Hls : (Z.to_nat loc <= strlen_nat buf)%nat)
        by (unfold strlen in *; lia).
      now rewrite (take_cstr buf _ Hls), (take_cstr src _ Hns).
    - assert (Hns : n <= Z.of_nat (length src)) by (unfold n; lia).
      rewrite length_app, !length_take. lia. }
  split; [reflexivity|]. split; [exact Hn0|].
  assert (Hnul : rd res idx = NUL).
  { unfold res. rewrite memcpy_rd_outside by lia.
    unfold buf2. apply rd_wr_eq. lia. }
  split; [|split; [exact Hpre|]].
  - split; [lia|]. transitivity idx; [|lia]. apply strlen_le_rd; [lia|exact Hnul].
  - unfold strlen.
    enough (Z.to_nat (loc + n) <= strlen_nat res)%nat by lia.
    apply strlen_ge_nul_free; [lia|]. rewrite Hpre.
    apply Forall_app. split; apply nul_free_take, cstr_nul_free.
Qed.

(** X3. [strbuf_insert] into a line buffer always leaves a line buffer,
    whatever the length of [src]: it returns the number [n] of characters
    it put in, the smaller of [strlen(src)] and the room between
    [insert_loc] and the last byte; the text before [insert_loc] is kept
    and followed by the first [n] characters of [src], and the string
    reaches at least that far. *)
Theorem strbuf_insert_clamped (buf src : list ascii) (cap loc : Z) :
  line_buffer cap buf -> 0 <= loc <= strlen buf ->
  let n := Z.min (strlen src) (cap - loc - 1) in
  let r := strbuf_insert buf cap src loc in
  snd r = n /\
  line_buffer cap (fst r) /\
  take (Z.to_nat (loc + n)) (cstr (fst r))
  = take (Z.to_nat loc) (cstr buf) ++ take (Z.to_nat n) (cstr src) /\
  loc + n <= strlen (fst r).
Proof.
  intros Hb Hloc n r.
  destruct (strbuf_insert_any buf src cap loc Hb Hloc) as (H1 & H2 & H3 & H4 & H5).
  fold n in H1, H2, H4, H5. fold r in H1, H3, H4, H5.
  split; [exact H1|]. split; [exact H3|]. split; [|exact H5].
  rewrite <- H4. symmetry. apply take_cstr. unfold strlen in H5. lia.
Qed.

Lemma strbuf_insert_clamped_witness :
  let r := strbuf_insert (buf_of "CO XYZW" 8) 8 (cconst "PY ") 2 in
  snd r = Z.min (strlen (cconst "PY ")) (8 - 2 - 1) /\
  line_buffer 8 (fst r).
Proof.
  intros r.
  destruct (strbuf_insert_clamped (buf_of "CO XYZW" 8) (cconst "PY ") 8 2)
    as (H1 & H2 & _).
  - split; vm_compute; [reflexivity|discriminate].
  - vm_compute. split; discriminate.
  - split; [exact H1|exact H2].
Defined.

(** X4. [mos_strndup] returns NULL exactly when the allocation fails;
    otherwise the copy is an array of [strnlen(s, n) + 1] bytes holding
    the first [n] characters of the string of [s]. [mos_strdup] is
    [mos_strndup] with the whole length. *)
Theorem mos_strndup_copy (s : list ascii) (n : Z) (h : heap) :
  0 <= n ->
  match fst (mos_strndup s n h) with
  | Some d =>
      fst (umm_malloc h) = true /\
      cstr d = take (Z.to_nat n) (cstr s) /\
      Z.of_nat (length d) = strnlen s n + 1
  | None => fst (umm_malloc h) = false
  end /\
  snd (mos_strndup s n h) = snd (umm_malloc h) /\
  mos_strdup s h = mos_strndup s (strlen s) h.
Proof.
  intros Hn. unfold mos_strndup, mos_strdup.
  pose proof (strlen_nonneg s) as Hs0.
  pose proof (strlen_le_length s) as Hsl.
  assert (Hlen : strnlen s n = Z.min (strlen s) n)
    by (unfold strnlen; destruct (Z.ltb_spec n 0); lia).
  assert (Hfull : strnlen s (strlen s) = strlen s)
    by (unfold strnlen; destruct (Z.ltb_spec (strlen s) 0); lia).
  rewrite Hfull.
  destruct (umm_malloc h) as [[|] h']; cbn [fst snd]; [|repeat split].
  split; [|split; reflexivity].
  split; [reflexivity|]. split.
  - unfold strlen in *. rewrite take_cstr by lia.
    rewrite cstr_app by apply nul_free_take, cstr_nul_free.
    rewrite Hlen.
    replace (Z.to_nat (Z.min (Z.of_nat (strlen_nat s)) n))
      with (Z.to_nat n `min` length (cstr s))%nat by (rewrite cstr_length; lia).
    apply take_min_length.
  - rewrite length_app, length_take. simpl. lia.
Qed.

Lemma mos_strndup_copy_witness :
  mos_strdup (cconst "RUN") [] = mos_strndup (cconst "RUN") (strlen (cconst "RUN")) [].
Proof.
  apply (mos_strndup_copy (cconst "RUN") 2 []). lia.
Defined.

(** ** Searching a string backwards *)

Lemma slice_strrchr_from_Some (n : nat) (s : list ascii) (c : ascii) (i : Z) :
  slice_strrchr_from n s c = Some i ->
  0 <= i < Z.of_nat n /\ rd s i = c /\
  forall j, i < j < Z.of_nat n -> rd s j <> c.
Proof.
  induction n as [|n IH]; [discriminate|].
  cbn [slice_strrchr_from].
  destruct (Ascii.eqb_spec (rd s (Z.of_nat n)) c) as [Heq|Hne].
  - intros [= <-]. split; [lia|]. split; [exact Heq|]. intros j Hj. lia.
  - intros H. destruct (IH H) as (Hi & Hc & Hafter).
    split; [lia|]. split; [exact Hc|]. intros j Hj.
    destruct (Z.eq_dec j (Z.of_nat n)) as [->|Hjn]; [exact Hne|].
    apply Hafter. lia.
Qed.

Lemma slice_strrchr_from_None (n : nat) (s : list ascii) (c : ascii) :
  slice_strrchr_from n s c = None ->
  forall j, 0 <= j < Z.of_nat n -> rd s j <> c.
Proof.
  induction n as [|n IH]; [intros _ j Hj; simpl in Hj; lia|].
  cbn [slice_strrchr_from].
  destruct (Ascii.eqb_spec (rd s (Z.of_nat n)) c) as [Heq|Hne]; [discriminate|].
  intros H j Hj.
  destruct (Z.eq_dec j (Z.of_nat n)) as [->|Hjn]; [exact Hne|].
  apply (IH H). lia.
Qed.

Lemma slice_strrchr_spec (s : list ascii) (len : Z) (needle : ascii) :
  match slice_strrchr s len needle with
  | Some i =>
      0 <= i < len /\ rd s i = needle /\
      forall j, i < j < len -> rd s j <> needle
  | None => forall j, 0 <= j < len -> rd s j <> needle
  end.
Proof.
  unfold slice_strrchr.
  destruct (slice_strrchr_from (Z.to_nat len) s needle) as [i|] eqn:E.
  - destruct (slice_strrchr_from_Some _ _ _ _ E) as (Hi & Hc & Hafter).
    split; [lia|]. split; [exact Hc|]. intros j Hj. apply Hafter. lia.
  - intros j Hj. apply (slice_strrchr_from_None _ _ _ E). lia.
Qed.

(** X5. [slice_strrchr] finds the last [needle] among the first [len]
    bytes: a result [i] is inside the slice, holds [needle], and no later
    byte of the slice does; NULL means that no byte of the slice is
    [needle] (so also for an empty or negative [len]). *)
Theorem slice_strrchr_last (s : list ascii) (len : Z) (needle : ascii) :
  match slice_strrchr s len needle with
  | Some i =>
      0 <= i < len /\ rd s i = needle /\
      forall j, i < j < len -> rd s j <> needle
  | None => forall j, 0 <= j < len -> rd s j <> needle
  end.
Proof. apply slice_strrchr_spec. Qed.

(** X6. [strrchr_pathsep] returns NULL for a NULL path and for a path
    holding neither separator. Otherwise the result is inside the string
    and is the last [/] if the path has one, even when a backslash comes
    later; only a path without [/] gives its last backslash. *)
Theorem strrchr_pathsep_last (path : list ascii) :
  strrchr_pathsep None = None /\
  match strrchr_pathsep (Some path) with
  | Some i =>
      0 <= i < strlen path /\
      ((rd path i = "/"%char /\
        forall j, i < j < strlen path -> rd path j <> "/"%char) \/
       (rd path i = "\"%char /\
        (forall j, 0 <= j < strlen path -> rd path j <> "/"%char) /\
        forall j, i < j < strlen path -> rd path j <> "\"%char))
  | None =>
      forall j, 0 <= j < strlen path ->
        rd path j <> "/"%char /\ rd path j <> "\"%char
  end.
Proof.
  split; [reflexivity|]. unfold strrchr_pathsep, strrchr.
  pose proof (slice_strrchr_spec path (strlen path) "/"%char) as Hs.
  destruct (slice_strrchr path (strlen path) "/") as [i|].
  - destruct Hs as (Hi & Hc & Hafter). split; [exact Hi|]. left. now split.
  - pose proof (slice_strrchr_spec path (strlen path) "\"%char) as Hb.
    destruct (slice_strrchr path (strlen path) "\") as [i|].
    + destruct Hb as (Hi & Hc & Hafter). split; [exact Hi|]. right. now repeat split.
    + intros j Hj. split; [now apply Hs|now apply Hb].
Qed.

(** ** Deleting before the cursor *)

Lemma concat_repeat_single {A : Type} (x : A) (n : nat) :
  concat (repeat [x] n) = repeat x n.
Proof. induction n as [|n IH]; simpl; [reflexivity|]. now rewrite IH. Qed.

(** The loop of [deleteCharacter] with what it sends. *)
Lemma shift_left_echo (m : list ascii) : forall (a r : list ascii) (x : ascii) (o : list vdu),
  for_up (length m) (Z.of_nat (length a))
    (fun i '(b, o) =>
       let c := rd b (i + 1) in
       (wr b i c, o ++ [Putch (if is_nul c then " "%char else c)]))
    (a ++ x :: m ++ r, o)
  = (a ++ m ++ List.last m x :: r, o ++ map echo_char m).
Proof.
  induction m as [|y m IH]; intros a r x o.
  - simpl. now rewrite app_nil_r.
  - cbn [length for_up].
    assert (Hr : rd (a ++ x :: (y :: m) ++ r) (Z.of_nat (length a) + 1) = y).
    { replace (Z.of_nat (length a) + 1) with (Z.of_nat (length (a ++ [x])))
        by (rewrite length_app; simpl; lia).
      replace (a ++ x :: (y :: m) ++ r) with ((a ++ [x]) ++ y :: m ++ r)
        by (now rewrite <- app_assoc).
      apply rd_app. }
    cbv zeta. rewrite !Hr, wr_app.
    replace (a ++ y :: (y :: m) ++ r) with ((a ++ [y]) ++ y :: m ++ r)
      by (now rewrite <- app_assoc).
    replace (Z.of_nat (length a) + 1) with (Z.of_nat (length (a ++ [y])))
      by (rewrite length_app; simpl; lia).
    rewrite IH. rewrite <- !app_assoc. simpl. f_equal.
    destruct m as [|z m]; [reflexivity|].
    now rewrite (last_cons_default m z y x).
Qed.

(** [deleteCharacter] in a line buffer, with a [len] between the length
    of the string and the capacity. *)
Lemma deleteCharacter_line (N : Z) (b : list ascii) (p len : Z) :
  line_buffer N b -> 0 < p <= strlen b -> strlen b <= len < N ->
  exists b' o,
    deleteCharacter b p len = (true, b', o) /\
    line_buffer N b' /\
    cstr b' = take (Z.to_nat (p - 1)) (cstr b) ++ drop (Z.to_nat p) (cstr b) /\
    (len = strlen b ->
     o = [LeftCursor] ++ map Putch (drop (Z.to_nat p) (cstr b)) ++ [Putch " "%char]
         ++ repeat LeftCursor (Z.to_nat (strlen b - p + 1))).
Proof.
  intros Hb Hp Hlen.
  pose proof (cstr_split b (line_buffer_lt _ _ Hb)) as Hsplit.
  pose proof (cstr_nul_free b) as Hnf.
  pose proof (cstr_length b) as HL.
  destruct Hb as [HN Hle]. unfold strlen in *.
  set (cs := cstr b) in *. set (L := strlen_nat b) in *.
  set (rest := drop (S L) b) in *.
  assert (Hrest : length rest = (length b - S L)%nat) by (unfold rest; apply length_drop).
  set (a := take (Z.to_nat (p - 1)) cs).
  set (t := drop (Z.to_nat p) cs).
  destruct (lookup_lt_is_Some_2 cs (Z.to_nat (p - 1))) as [x Hx]; [lia|].
  assert (Hcs : cs = a ++ x :: t).
  { subst a t. rewrite <- (take_drop (Z.to_nat (p - 1)) cs) at 1. f_equal.
    rewrite (drop_S cs x (Z.to_nat (p - 1)) Hx). do 2 f_equal. lia. }
  set (j := take (Z.to_nat len - L) rest).
  set (r := drop (Z.to_nat len - L) rest).
  assert (Hla : length a = Z.to_nat (p - 1)) by (subst a; rewrite length_take; lia).
  assert (Hlt : length t = (L - Z.to_nat p)%nat) by (subst t; rewrite length_drop; lia).
  assert (Hlj : length j = (Z.to_nat len - L)%nat) by (subst j; rewrite length_take; lia).
  assert (Eb : b = a ++ x :: (t ++ NUL :: j) ++ r).
  { rewrite Hsplit at 1. rewrite Hcs. subst j r.
    rewrite <- (take_drop (Z.to_nat len - L) rest) at 1.
    repeat (rewrite <- app_assoc; simpl). reflexivity. }
  pose proof (shift_left_echo (t ++ NUL :: j) a r x []) as Hs.
  cbv zeta in Hs.
  assert (Hd : deleteCharacter b p len
               = (true, a ++ (t ++ NUL :: j) ++ List.last (t ++ NUL :: j) x :: r,
                  doLeftCursor ++ ([] ++ map echo_char (t ++ NUL :: j))
                  ++ concat (repeat doLeftCursor (length (t ++ NUL :: j))))).
  { unfold deleteCharacter.
    destruct (Z.ltb_spec 0 p); [|lia].
    replace (Z.to_nat (len - (p - 1))) with (length (t ++ NUL :: j))
      by (rewrite length_app; simpl; lia).
    replace (p - 1) with (Z.of_nat (length a)) by lia.
    rewrite Eb at 1. rewrite Hs. reflexivity. }
  rewrite Hd. clear Hd Hs.
  assert (Hnfa : nul_free (a ++ t)).
  { rewrite Hcs in Hnf. apply Forall_app in Hnf as [Ha Ht].
    apply Forall_cons in Ht as [_ Ht]. now apply Forall_app. }
  eexists _, _. split; [reflexivity|].
  replace (a ++ (t ++ NUL :: j) ++ List.last (t ++ NUL :: j) x :: r)
    with ((a ++ t) ++ NUL :: j ++ List.last (t ++ NUL :: j) x :: r)
    by (repeat (rewrite <- app_assoc; simpl); reflexivity).
  split; [split|split].
  - pose proof (f_equal length Eb) as Hlb.
    rewrite length_app in Hlb. simpl in Hlb.
    rewrite !length_app in Hlb. simpl in Hlb.
    rewrite <- HN, !length_app. simpl. rewrite !length_app. simpl. lia.
  - unfold strlen. rewrite strlen_nat_app by exact Hnfa. rewrite length_app. lia.
  - rewrite cstr_app by exact Hnfa. reflexivity.
  - intros Hlen'. assert (Hj : j = []).
    { destruct j; [reflexivity|]. simpl in Hlj. lia. }
    rewrite Hj, length_app, map_app. unfold doLeftCursor. simpl.
    rewrite concat_repeat_single. unfold echo_char at 2. simpl.
    replace (map echo_char t) with (map Putch t).
    2:{ apply map_ext_Forall. apply Forall_app in Hnfa as [_ Ht].
        eapply Forall_impl; [exact Ht|]. intros c Hc. unfold echo_char.
        apply is_nul_false in Hc. now rewrite Hc. }
    rewrite <- !app_assoc. simpl. do 3 f_equal. f_equal. lia.
Qed.

(** X7. [deleteCharacter], called with the length of the string as the
    editor does: at position 0 it refuses and changes nothing; elsewhere
    it removes the character before the cursor, keeps the text on both
    sides and the line buffer, and sends a cursor-left, the text behind
    the cursor, a blank over the old last column, and as many cursor-lefts
    as it sent characters. *)
Theorem deleteCharacter_before_cursor (N : Z) (b : list ascii) (p : Z) :
  line_buffer N b -> 0 <= p <= strlen b ->
  (p = 0 -> deleteCharacter b p (strlen b) = (false, b, [])) /\
  (0 < p ->
   exists b',
     deleteCharacter b p (strlen b)
     = (true, b',
        [LeftCursor] ++ map Putch (drop (Z.to_nat p) (cstr b)) ++ [Putch " "%char]
        ++ repeat LeftCursor (Z.to_nat (strlen b - p + 1))) /\
     line_buffer N b' /\
     cstr b' = take (Z.to_nat (p - 1)) (cstr b) ++ drop (Z.to_nat p) (cstr b) /\
     strlen b' = strlen b - 1).
Proof.
  intros Hb Hp. split.
  - intros ->. reflexivity.
  - intros Hpos.
    destruct (deleteCharacter_line N b p (strlen b) Hb) as (b' & o & Hd & Hlb & Hcs & Ho);
      [lia|destruct Hb; lia|].
    exists b'. rewrite Hd, (Ho eq_refl). split; [reflexivity|].
    split; [exact Hlb|]. split; [exact Hcs|].
    rewrite (strlen_cstr b'), Hcs, length_app, length_take, length_drop, cstr_length.
    unfold strlen in *. lia.
Qed.

Lemma deleteCharacter_before_cursor_witness :
  exists b',
    deleteCharacter (buf_of "ABCD" 8) 3 (strlen (buf_of "ABCD" 8))
    = (true, b',
       [LeftCursor] ++ map Putch (drop (Z.to_nat 3) (cstr (buf_of "ABCD" 8)))
       ++ [Putch " "%char]
       ++ repeat LeftCursor (Z.to_nat (strlen (buf_of "ABCD" 8) - 3 + 1))) /\
    line_buffer 8 b' /\
    cstr b' = take (Z.to_nat (3 - 1)) (cstr (buf_of "ABCD" 8))
              ++ drop (Z.to_nat 3) (cstr (buf_of "ABCD" 8)) /\
    strlen b' = strlen (buf_of "ABCD" 8) - 1.
Proof.
  apply (deleteCharacter_before_cursor 8 (buf_of "ABCD" 8) 3).
  - split; vm_compute; [reflexivity|discriminate].
  - vm_compute. split; discriminate.
  - lia.
Defined.

(** ** What an insertion sends *)

Lemma echo_loop (b : list ascii) (n : nat) : forall (j : nat) (o : list vdu),
  (j + n <= length b)%nat ->
  for_up n (Z.of_nat j) (fun i o => o ++ [Putch (rd b i)]) o
  = o ++ map Putch (take n (drop j b)).
Proof.
  induction n as [|n IH]; intros j o Hj.
  - simpl. now rewrite app_nil_r.
  - cbn [for_up].
    replace (Z.of_nat j + 1) with (Z.of_nat (S j)) by lia.
    rewrite IH by lia. rewrite (drop_rd b j) by lia.
    cbn [take map]. now rewrite <- app_assoc.
Qed.

(** X8. An accepted [insertCharacter] sends the character, then the text
    that was behind the cursor, then one cursor-left for each character
    of that text: the screen cursor ends just behind the new character. *)
Theorem insertCharacter_echo (N : Z) (b : list ascii) (c : ascii) (p : Z) :
  line_buffer N b -> strlen b < N - 1 -> 0 <= p <= strlen b ->
  snd (insertCharacter b N c p)
  = [Putch c] ++ map Putch (drop (Z.to_nat p) (cstr b))
    ++ repeat LeftCursor (Z.to_nat (strlen b - p)).
Proof.
  intros Hb Hroom Hp.
  destruct (line_buffer_split N b p Hb Hroom Hp) as (a & t & x & r & Eb & Hs & Ha & Hc).
  assert (Hst : strlen b = Z.of_nat (length a + length t)).
  { unfold strlen. rewrite <- cstr_length, Hc, length_app. lia. }
  pose proof (insertCharacter_split a t r x c N Hs) as Hi.
  rewrite <- Eb, Ha in Hi. specialize (Hi (proj1 Hb)).
  assert (Hout : snd (insertCharacter b N c p)
    = [Putch c]
      ++ for_up (Z.to_nat (strlen b - p)) (p + 1)
           (fun i o => o ++ [Putch (rd (snd (fst (insertCharacter b N c p))) i)]) []
      ++ concat (repeat doLeftCursor (Z.to_nat (strlen b - p)))).
  { unfold insertCharacter. rewrite (line_buffer_strnlen N b Hb).
    destruct (Z.ltb_spec (strlen b) (N - 1)); [reflexivity|lia]. }
  rewrite Hout, Hi. cbn [snd]. unfold doLeftCursor. rewrite concat_repeat_single.
  replace (p + 1) with (Z.of_nat (S (length a))) by lia.
  replace (Z.to_nat (strlen b - p)) with (length t) by lia.
  rewrite echo_loop by (rewrite !length_app; simpl; rewrite length_app; simpl; lia).
  replace (a ++ c :: t ++ NUL :: r) with ((a ++ [c]) ++ t ++ NUL :: r)
    by (now rewrite <- app_assoc).
  rewrite drop_app_length' by (rewrite length_app; simpl; lia).
  rewrite take_app_length.
  rewrite Hc, <- Ha, Nat2Z.id, drop_app_length. reflexivity.
Qed.

Lemma insertCharacter_echo_witness :
  snd (insertCharacter (buf_of "ABD" 8) 8 "C"%char 2)
  = [Putch "C"%char] ++ map Putch (drop (Z.to_nat 2) (cstr (buf_of "ABD" 8)))
    ++ repeat LeftCursor (Z.to_nat (strlen (buf_of "ABD" 8) - 2)).
Proof.
  apply (insertCharacter_echo 8 (buf_of "ABD" 8) "C"%char 2).
  - split; vm_compute; [reflexivity|discriminate].
  - vm_compute. reflexivity.
  - vm_compute. split; discriminate.
Defined.

(** ** Deleting a word *)

Lemma span_len_le (cond : ascii -> bool) (l : list ascii) :
  (span_len cond l <= length l)%nat.
Proof. induction l as [|c l IH]; simpl; [lia|]. destruct (cond c); simpl; lia. Qed.

Lemma run_before_le (cond : ascii -> bool) (s : list ascii) (p : nat) :
  (run_before cond s p <= p)%nat.
Proof.
  unfold run_before. pose proof (span_len_le cond (rev (take p s))) as H.
  rewrite length_rev, length_take in H. lia.
Qed.

Lemma rev_take_last (b : list ascii) (p : Z) :
  0 < p <= strlen b ->
  rev (take (Z.to_nat p) (cstr b))
  = rd b (p - 1) :: rev (take (Z.to_nat (p - 1)) (cstr b)).
Proof.
  intros Hp. unfold strlen in Hp.
  destruct (lookup_lt_is_Some_2 (cstr b) (Z.to_nat (p - 1))) as [x Hx];
    [rewrite cstr_length; lia|].
  replace (Z.to_nat p) with (S (Z.to_nat (p - 1))) by lia.
  rewrite (take_S_r _ _ _ Hx), rev_app_distr. simpl. f_equal.
  unfold cstr in Hx. rewrite lookup_take_lt in Hx by lia.
  unfold rd. destruct (Z.ltb_spec (p - 1) 0); [lia|]. now rewrite Hx.
Qed.

Lemma deleteWord_while_spec (N len : Z) (cond : ascii -> bool) (fuel : nat) :
  forall (b : list ascii) (p num : Z) (o : list vdu),
  line_buffer N b -> 0 <= p <= strlen b -> strlen b <= len < N ->
  (Z.to_nat p <= fuel)%nat -> 0 <= num < 256 ->
  exists b' o',
    deleteWord_while fuel cond len (b, p, num, o)
    = (b', p - Z.of_nat (run_before cond (cstr b) (Z.to_nat p)),
       (num + Z.of_nat (run_before cond (cstr b) (Z.to_nat p))) mod 256, o') /\
    line_buffer N b' /\
    cstr b' = take (Z.to_nat p - run_before cond (cstr b) (Z.to_nat p)) (cstr b)
              ++ drop (Z.to_nat p) (cstr b).
Proof.
  assert (Hstop : forall (b : list ascii) (p num : Z) (o : list vdu),
    line_buffer N b -> 0 <= num < 256 ->
    run_before cond (cstr b) (Z.to_nat p) = O ->
    exists b' o',
      (b, p, num, o)
      = (b', p - Z.of_nat (run_before cond (cstr b) (Z.to_nat p)),
         (num + Z.of_nat (run_before cond (cstr b) (Z.to_nat p))) mod 256, o') /\
      line_buffer N b' /\
      cstr b' = take (Z.to_nat p - run_before cond (cstr b) (Z.to_nat p)) (cstr b)
                ++ drop (Z.to_nat p) (cstr b)).
  { intros b p num o Hb Hnum Hk. exists b, o. rewrite Hk. simpl.
    rewrite Z.sub_0_r, Z.add_0_r, Z.mod_small, Nat.sub_0_r, take_drop by lia.
    split; [reflexivity|split; [exact Hb|reflexivity]]. }
  induction fuel as [|fuel IH]; intros b p num o Hb Hp Hlen Hfuel Hnum.
  - cbn [deleteWord_while]. apply Hstop; [assumption..|].
    replace (Z.to_nat p) with O by lia. reflexivity.
  - cbn [deleteWord_while].
    destruct (Z.ltb_spec 0 p) as [Hpos|Hz]; cbn [andb].
    2:{ apply Hstop; [assumption..|]. replace (Z.to_nat p) with O by lia. reflexivity. }
    pose proof (rev_take_last b p (conj Hpos (proj2 Hp))) as Hrev.
    destruct (cond (rd b (p - 1))) eqn:Ec.
    2:{ apply Hstop; [assumption..|]. unfold run_before. rewrite Hrev. simpl.
        now rewrite Ec. }
    destruct (deleteCharacter_line N b p len Hb (conj Hpos (proj2 Hp)) Hlen)
      as (b1 & o1 & Hd & Hb1 & Hc1 & _).
    rewrite Hd.
    assert (Hl1 : strlen b1 = strlen b - 1).
    { rewrite (strlen_cstr b1), Hc1, length_app, length_take, length_drop, cstr_length.
      unfold strlen in *. lia. }
    assert (Htk : take (Z.to_nat (p - 1)) (cstr b1) = take (Z.to_nat (p - 1)) (cstr b)).
    { rewrite Hc1, take_app_le by (rewrite length_take, cstr_length; unfold strlen in *; lia).
      rewrite take_take. f_equal. lia. }
    assert (Hk : run_before cond (cstr b) (Z.to_nat p)
                 = S (run_before cond (cstr b1) (Z.to_nat (p - 1)))).
    { unfold run_before. rewrite Hrev, Htk. simpl. now rewrite Ec. }
    pose proof (run_before_le cond (cstr b1) (Z.to_nat (p - 1))) as Hle.
    destruct (IH b1 (p - 1) ((num + 1) mod 256) (o ++ o1)) as (b' & o' & Hw & Hb' & Hc');
      [assumption|lia|lia|lia|apply Z.mod_pos_bound; lia|].
    exists b', o'. rewrite Hw, Hk. split; [|split; [exact Hb'|]].
    + rewrite Zplus_mod_idemp_l.
      set (k' := run_before cond (cstr b1) (Z.to_nat (p - 1))).
      replace (p - 1 - Z.of_nat k') with (p - Z.of_nat (S k')) by lia.
      replace (num + 1 + Z.of_nat k') with (num + Z.of_nat (S k')) by lia.
      reflexivity.
    + rewrite Hc'.
      set (k' := run_before cond (cstr b1) (Z.to_nat (p - 1))) in *.
      rewrite Hc1 at 2.
      rewrite drop_app_length' by (rewrite length_take, cstr_length; unfold strlen in *; lia).
      f_equal.
      replace (Z.to_nat (p - 1) - k')%nat
        with ((Z.to_nat (p - 1) - k') `min` Z.to_nat (p - 1))%nat at 1 by lia.
      rewrite <- take_take, Htk, take_take. f_equal. lia.
Qed.

Lemma deleteWord_spec (N : Z) (b : list ascii) (p : Z) :
  line_buffer N b -> 0 <= p <= strlen b ->
  let cs := cstr b in
  let n1 := run_before is_space cs (Z.to_nat p) in
  let n2 := run_before (fun c => negb (is_space c)) cs (Z.to_nat p - n1) in
  exists b' o,
    deleteWord b p (strlen b) = (Z.of_nat (n1 + n2) mod 256, b', o) /\
    line_buffer N b' /\
    cstr b' = take (Z.to_nat p - n1 - n2) cs ++ drop (Z.to_nat p) cs.
Proof.
  intros Hb Hp cs n1 n2.
  assert (Hlen : strlen b <= strlen b < N) by (destruct Hb; lia).
  unfold deleteWord.
  destruct (deleteWord_while_spec N (strlen b) is_space (Z.to_nat p) b p 0 [] Hb Hp Hlen)
    as (b1 & o1 & Hw1 & Hb1 & Hc1); [lia|lia|].
  fold cs in Hw1, Hc1. fold n1 in Hw1, Hc1. rewrite Hw1.
  pose proof (run_before_le is_space cs (Z.to_nat p)) as Hn1. fold n1 in Hn1.
  assert (Hl1 : strlen b1 = strlen b - Z.of_nat n1).
  { rewrite (strlen_cstr b1), Hc1, length_app, length_take, length_drop.
    unfold cs. rewrite cstr_length. unfold strlen in *. lia. }
  assert (Htk : take (Z.to_nat p - n1) (cstr b1) = take (Z.to_nat p - n1) cs).
  { rewrite Hc1, take_app_le
      by (rewrite length_take; unfold cs; rewrite cstr_length; unfold strlen in *; lia).
    rewrite take_take. f_equal. lia. }
  destruct (deleteWord_while_spec N (strlen b) (fun c => negb (is_space c)) (Z.to_nat p)
              b1 (p - Z.of_nat n1) ((0 + Z.of_nat n1) mod 256) o1 Hb1)
    as (b2 & o2 & Hw2 & Hb2 & Hc2); [lia|lia|lia|apply Z.mod_pos_bound; lia|].
  replace (Z.to_nat (p - Z.of_nat n1)) with (Z.to_nat p - n1)%nat in * by lia.
  assert (Hk2 : run_before (fun c => negb (is_space c)) (cstr b1) (Z.to_nat p - n1) = n2).
  { unfold n2, run_before. now rewrite Htk. }
  rewrite Hk2 in Hw2, Hc2. rewrite Hw2.
  exists b2, o2. split; [|split; [exact Hb2|]].
  - rewrite Zplus_mod_idemp_l.
    replace (p - Z.of_nat n1 - Z.of_nat n2) with (p - Z.of_nat (n1 + n2)) by lia.
    replace (0 + Z.of_nat n1 + Z.of_nat n2) with (Z.of_nat (n1 + n2)) by lia.
    reflexivity.
  - rewrite Hc2. rewrite Hc1 at 2.
    rewrite drop_app_length'
      by (rewrite length_take; unfold cs; rewrite cstr_length; unfold strlen in *; lia).
    f_equal.
    pose proof (run_before_le (fun c => negb (is_space c)) cs (Z.to_nat p - n1)) as Hn2.
    fold n2 in Hn2.
    replace (Z.to_nat p - n1 - n2)%nat
      with ((Z.to_nat p - n1 - n2) `min` (Z.to_nat p - n1))%nat at 1 by lia.
    rewrite <- take_take, Htk, take_take. f_equal. lia.
Qed.

(** X9. [deleteWord], called with the length of the string as the editor
    does, removes the spaces just before the cursor and then the run of
    non-spaces before them, and nothing else; the buffer stays a line
    buffer. The count it returns is the number of characters removed
    modulo 256, [num_deleted] being a [uint8_t]. *)
Theorem deleteWord_removes_word (N : Z) (b : list ascii) (p : Z) :
  line_buffer N b -> 0 <= p <= strlen b ->
  let cs := cstr b in
  let n1 := run_before is_space cs (Z.to_nat p) in
  let n2 := run_before (fun c => negb (is_space c)) cs (Z.to_nat p - n1) in
  exists b' o,
    deleteWord b p (strlen b) = (Z.of_nat (n1 + n2) mod 256, b', o) /\
    line_buffer N b' /\
    cstr b' = take (Z.to_nat p - n1 - n2) cs ++ drop (Z.to_nat p) cs.
Proof. apply deleteWord_spec. Qed.

Lemma deleteWord_removes_word_witness :
  let b := buf_of "COPY A.BIN  X" 16 in
  exists b' o,
    deleteWord b 12 (strlen b)
    = (Z.of_nat (run_before is_space (cstr b) (Z.to_nat 12)
                 + run_before (fun c => negb (is_space c)) (cstr b)
                     (Z.to_nat 12 - run_before is_space (cstr b) (Z.to_nat 12))) mod 256,
       b', o) /\
    line_buffer 16 b' /\
    cstr b'
    = take (Z.to_nat 12 - run_before is_space (cstr b) (Z.to_nat 12)
            - run_before (fun c => negb (is_space c)) (cstr b)
                (Z.to_nat 12 - run_before is_space (cstr b) (Z.to_nat 12))) (cstr b)
      ++ drop (Z.to_nat 12) (cstr b).
Proof.
  intros b. apply (deleteWord_removes_word 16 b 12).
  - split; vm_compute; [reflexivity|discriminate].
  - vm_compute. split; discriminate.
Defined.

(** ** Erasing the line *)

Lemma memset_loop (c : ascii) (n : nat) : forall a r : list ascii,
  (n <= length r)%nat ->
  for_up n (Z.of_nat (length a)) (fun k d => wr d k c) (a ++ r)
  = a ++ repeat c n ++ drop n r.
Proof.
  induction n as [|n IH]; intros a r Hn; [reflexivity|].
  destruct r as [|x r]; [simpl in Hn; lia|].
  cbn [for_up]. rewrite wr_app.
  replace (Z.of_nat (length a) + 1) with (Z.of_nat (length (a ++ [c])))
    by (rewrite length_app; simpl; lia).
  replace (a ++ c :: r) with ((a ++ [c]) ++ r) by now rewrite <- app_assoc.
  rewrite IH by (simpl in Hn; lia).
  now rewrite <- app_assoc.
Qed.

Lemma memset_spec (b : list ascii) (c : ascii) (n : Z) :
  0 <= n <= Z.of_nat (length b) ->
  memset b c n = repeat c (Z.to_nat n) ++ drop (Z.to_nat n) b.
Proof.
  intros Hn. unfold memset.
  apply (memset_loop c (Z.to_nat n) [] b). lia.
Qed.

Lemma cstr_app_nul_free (s r : list ascii) : nul_free s -> cstr (s ++ r) = s ++ cstr r.
Proof.
  induction 1 as [|x s Hx Hs IH]; [reflexivity|].
  cbn [app]. rewrite cstr_cons, IH.
  destruct (is_nul x) eqn:E; [|reflexivity].
  apply Ascii.eqb_eq in E. contradiction.
Qed.

Lemma nul_free_repeat (c : ascii) (n : nat) : c <> NUL -> nul_free (repeat c n).
Proof. intros Hc. induction n; constructor; assumption. Qed.

(** X10. [removeEditLine], for a cursor at [insertPos] and a [len] that
    does not pass the end of the string, moves the cursor left [insertPos]
    times, prints [len] blanks followed by whatever the line holds from
    [len] on, moves left [len] times, and leaves the empty string in the
    buffer. *)
Theorem removeEditLine_erases (N : Z) (b : list ascii) (insertPos len : Z) :
  line_buffer N b -> 0 <= len <= strlen b ->
  line_buffer N (fst (removeEditLine b insertPos len)) /\
  cstr (fst (removeEditLine b insertPos len)) = [] /\
  snd (removeEditLine b insertPos len)
  = repeat LeftCursor (Z.to_nat insertPos)
    ++ [Print (repeat " "%char (Z.to_nat len) ++ drop (Z.to_nat len) (cstr b))]
    ++ repeat LeftCursor (Z.to_nat len).
Proof.
  intros Hb Hlen.
  pose proof (strlen_le_length b) as Hle.
  destruct (removeEditLine_cleared N b insertPos len) as [H1 H2];
    [destruct Hb; lia|apply Hb|].
  split; [exact H1|split; [exact H2|]].
  unfold removeEditLine, gotoEditLineStart, doLeftCursor. cbn [snd].
  rewrite !concat_repeat_single, memset_spec by lia.
  rewrite cstr_app_nul_free by (apply nul_free_repeat; discriminate).
  change (drop (Z.to_nat len) b) with (at_offset b len).
  now rewrite cstr_at_offset by lia.
Qed.

Lemma removeEditLine_erases_witness :
  let b := buf_of "DIR" 8 in
  line_buffer 8 (fst (removeEditLine b 1 3)) /\
  cstr (fst (removeEditLine b 1 3)) = [] /\
  snd (removeEditLine b 1 3)
  = repeat LeftCursor (Z.to_nat 1)
    ++ [Print (repeat " "%char (Z.to_nat 3) ++ drop (Z.to_nat 3) (cstr b))]
    ++ repeat LeftCursor (Z.to_nat 3).
Proof.
  intros b. apply (removeEditLine_erases 8 b 1 3).
  - split; vm_compute; [reflexivity|discriminate].
  - vm_compute. split; discriminate.
Defined.

(** ** The first character that is not a blank *)

Lemma skip_spaces_spec (str : list ascii) (max : Z) (fuel : nat) : forall i : nat,
  Z.of_nat i + Z.of_nat fuel = max -> (i + fuel <= length str)%nat ->
  skip_spaces fuel (Z.of_nat i) str max
  = Z.of_nat (i + span_len is_space (take fuel (drop i str))).
Proof.
  induction fuel as [|fuel IH]; intros i Hmax Hlen.
  - simpl. f_equal. lia.
  - cbn [skip_spaces].
    destruct (Z.ltb_spec (Z.of_nat i) max); [|lia]. cbn [andb].
    rewrite (drop_rd str i) by lia. cbn [take span_len].
    destruct (is_space (rd str (Z.of_nat i))).
    + replace (Z.of_nat i + 1) with (Z.of_nat (S i)) by lia.
      rewrite IH by lia. f_equal. lia.
    + f_equal. lia.
Qed.

Lemma span_len_all (cond : ascii -> bool) (l : list ascii) :
  Forall (fun c => cond c = true) (take (span_len cond l) l).
Proof.
  induction l as [|c l IH]; simpl; [constructor|].
  destruct (cond c) eqn:E; simpl; [constructor; assumption|constructor].
Qed.

Lemma span_len_stop (cond : ascii -> bool) (l : list ascii) :
  (span_len cond l < length l)%nat -> cond (nth (span_len cond l) l NUL) = false.
Proof.
  induction l as [|c l IH]; simpl; [lia|].
  destruct (cond c) eqn:E; simpl; [intros; apply IH; lia|auto].
Qed.

(** X11. [find_first_nonspace_chr] returns the first byte of the slice
    [str[0 .. max)] that is not a blank. When the slice holds nothing but
    blanks it returns [str[max]], the byte just past the slice. *)
Theorem find_first_nonspace_chr_first (str : list ascii) (max : Z) :
  0 <= max <= Z.of_nat (length str) ->
  let k := span_len is_space (take (Z.to_nat max) str) in
  find_first_nonspace_chr str max = rd str (Z.of_nat k) /\
  Z.of_nat k <= max /\
  Forall (fun c => is_space c = true) (take k str) /\
  (Z.of_nat k < max -> is_space (find_first_nonspace_chr str max) = false).
Proof.
  intros Hmax k.
  assert (Hk : (k <= Z.to_nat max)%nat).
  { unfold k. pose proof (span_len_le is_space (take (Z.to_nat max) str)) as H.
    rewrite length_take in H. lia. }
  assert (Hf : find_first_nonspace_chr str max = rd str (Z.of_nat k)).
  { unfold find_first_nonspace_chr.
    change 0 with (Z.of_nat 0) at 1.
    rewrite (skip_spaces_spec str max (Z.to_nat max) 0) by lia.
    reflexivity. }
  split; [exact Hf|split; [lia|split]].
  - pose proof (span_len_all is_space (take (Z.to_nat max) str)) as H.
    fold k in H. rewrite take_take in H.
    now replace (k `min` Z.to_nat max)%nat with k in H by lia.
  - intros Hlt. rewrite Hf, rd_nth.
    pose proof (span_len_stop is_space (take (Z.to_nat max) str)) as H.
    fold k in H. rewrite length_take in H.
    specialize (H ltac:(lia)).
    rewrite <- H. f_equal.
    rewrite <- (take_drop (Z.to_nat max) str) at 1.
    rewrite app_nth1 by (rewrite length_take; lia). reflexivity.
Qed.

Lemma find_first_nonspace_chr_first_witness :
  let str := buf_of "  ./X" 8 in
  let k := span_len is_space (take (Z.to_nat 5) str) in
  find_first_nonspace_chr str 5 = rd str (Z.of_nat k) /\
  Z.of_nat k <= 5 /\
  Forall (fun c => is_space c = true) (take k str) /\
  (Z.of_nat k < 5 -> is_space (find_first_nonspace_chr str 5) = false).
Proof.
  intros str. apply (find_first_nonspace_chr_first str 5).
  vm_compute. split; discriminate.
Defined.

(** ** Hotkeys: what a function key does to the line *)

(** X12. A hotkey string without the marker [%s] replaces the line: the
    old line is erased, the buffer then holds the hotkey string cut to
    [bufferLength - 1] characters, that text is printed, and nothing is
    allocated. *)
Theorem handleHotkey_plain (hotkey_strings : list (option (list ascii))) (fkey : Z)
    (hotkey buffer : list ascii) (bufferLength insertPos len : Z) (h : heap) :
  mjoin (hotkey_strings !! Z.to_nat fkey) = Some hotkey ->
  strstr hotkey (cconst "%s") = None ->
  line_buffer bufferLength buffer ->
  exists b',
    handleHotkey hotkey_strings fkey buffer bufferLength insertPos len h
    = (true, b', snd (removeEditLine buffer insertPos len) ++ [Print (cstr b')], h) /\
    line_buffer bufferLength b' /\
    cstr b' = take (Z.to_nat (bufferLength - 1)) (cstr hotkey).
Proof.
  intros Hslot Hmark Hb.
  assert (HN : 0 < bufferLength) by (pose proof (strlen_nonneg buffer); destruct Hb; lia).
  unfold handleHotkey. rewrite Hslot, Hmark.
  destruct (removeEditLine_cleared bufferLength buffer insertPos len HN (proj1 Hb))
    as [Hb1 _].
  destruct (removeEditLine buffer insertPos len) as [b1 o1]. cbn [fst snd] in *.
  destruct (line_buffer_cleared bufferLength b1 HN (proj1 Hb1)) as [Hb2 Hc2].
  assert (Hl2 : strlen (wr b1 0 NUL) = 0) by now rewrite strlen_cstr, Hc2.
  pose proof (strlen_nonneg hotkey) as Hh.
  assert (Hn : strnlen hotkey bufferLength = Z.min (strlen hotkey) bufferLength).
  { unfold strnlen. destruct (Z.ltb_spec bufferLength 0); [lia|reflexivity]. }
  destruct (strbuf_append_spec (wr b1 0 NUL) hotkey bufferLength bufferLength Hb2)
    as [Hb3 Hc3]; [lia|].
  eexists. split; [reflexivity|split; [exact Hb3|]].
  rewrite Hc3, Hc2, Hl2, Hn. cbn [app].
  destruct (Z.le_gt_cases (strlen hotkey) (bufferLength - 1)) as [Hfit|Hcut].
  - rewrite !take_ge; [reflexivity|rewrite strlen_cstr in *; lia..].
  - f_equal. lia.
Qed.

Lemma handleHotkey_plain_witness :
  let keys := [None; Some (cconst "DIR /mos")] in
  let buffer := buf_of "abc" 16 in
  exists b',
    handleHotkey keys 1 buffer 16 3 3 []
    = (true, b', snd (removeEditLine buffer 3 3) ++ [Print (cstr b')], []) /\
    line_buffer 16 b' /\
    cstr b' = take (Z.to_nat (16 - 1)) (cstr (cconst "DIR /mos")).
Proof.
  intros keys buffer.
  apply (handleHotkey_plain keys 1 (cconst "DIR /mos") buffer 16 3 3 []).
  - reflexivity.
  - reflexivity.
  - split; vm_compute; [reflexivity|discriminate].
Defined.

(** X13. A hotkey string with the marker [%s] at offset [w] wraps the
    line: when the three lengths are below 256, the whole fits the buffer
    and the allocation succeeds, the buffer then holds the text before
    the marker, the old line and the text after the marker. *)
Theorem handleHotkey_substitutes (hotkey_strings : list (option (list ascii))) (fkey : Z)
    (hotkey buffer : list ascii) (w bufferLength insertPos len : Z) (h : heap) :
  mjoin (hotkey_strings !! Z.to_nat fkey) = Some hotkey ->
  strstr hotkey (cconst "%s") = Some w ->
  line_buffer bufferLength buffer ->
  w < 256 -> strlen hotkey - (w + 2) < 256 -> strlen buffer < 256 ->
  strlen hotkey - 2 + strlen buffer + 1 < bufferLength ->
  fst (umm_malloc h) = true ->
  exists b' o,
    handleHotkey hotkey_strings fkey buffer bufferLength insertPos len h
    = (true, b', o, snd (umm_malloc h)) /\
    line_buffer bufferLength b' /\
    cstr b' = take (Z.to_nat w) (cstr hotkey) ++ cstr buffer
              ++ drop (Z.to_nat (w + 2)) (cstr hotkey).
Proof.
  intros Hslot Hmark. apply (handleHotkey_expand hotkey_strings fkey hotkey w Hslot Hmark).
Qed.

Lemma handleHotkey_substitutes_witness :
  let keys := [Some (cconst "RUN %s.bin")] in
  let hotkey := cconst "RUN %s.bin" in
  let buffer := buf_of "demo" 32 in
  exists b' o,
    handleHotkey keys 0 buffer 32 4 4 [] = (true, b', o, snd (umm_malloc [])) /\
    line_buffer 32 b' /\
    cstr b' = take (Z.to_nat 4) (cstr hotkey) ++ cstr buffer
              ++ drop (Z.to_nat (4 + 2)) (cstr hotkey).
Proof.
  intros keys hotkey buffer.
  apply (handleHotkey_substitutes keys 0 hotkey buffer 4 32 4 4 []).
  - reflexivity.
  - reflexivity.
  - split; vm_compute; [reflexivity|discriminate].
  - lia.
  - vm_compute. reflexivity.
  - vm_compute. reflexivity.
  - vm_compute. reflexivity.
  - reflexivity.
Defined.

Lemma handleHotkey_keeps (hotkey_strings : list (option (list ascii))) (fkey : Z)
    (buffer : list ascii) (bufferLength insertPos len : Z) (h : heap) :
  fst (fst (fst (handleHotkey hotkey_strings fkey buffer bufferLength insertPos len h)))
  = false ->
  snd (fst (fst (handleHotkey hotkey_strings fkey buffer bufferLength insertPos len h)))
  = buffer.
Proof.
  unfold handleHotkey.
  destruct (mjoin (hotkey_strings !! Z.to_nat fkey)) as [hotkey|]; [|reflexivity].
  destruct (strstr hotkey (cconst "%s")) as [w|].
  - destruct (bufferLength <=? _); [reflexivity|].
    destruct (umm_malloc h) as [[|] h']; cbn [negb]; [|reflexivity].
    destruct (removeEditLine buffer insertPos len). cbn. discriminate.
  - destruct (removeEditLine buffer insertPos len). cbn. discriminate.
Qed.

(** X14. Whenever [handleHotkey] returns 0 (no string for the key, the
    expansion too long, or no memory) it has left the line buffer as it
    was. *)
Theorem handleHotkey_unhandled (hotkey_strings : list (option (list ascii))) (fkey : Z)
    (buffer : list ascii) (bufferLength insertPos len : Z) (h : heap) :
  fst (fst (fst (handleHotkey hotkey_strings fkey buffer bufferLength insertPos len h)))
  = false ->
  snd (fst (fst (handleHotkey hotkey_strings fkey buffer bufferLength insertPos len h)))
  = buffer.
Proof. apply handleHotkey_keeps. Qed.

Lemma handleHotkey_unhandled_witness :
  snd (fst (fst (handleHotkey [Some (cconst "RUN %s.bin")] 0 (buf_of "demo" 8) 8 4 4 [])))
  = buf_of "demo" 8.
Proof.
  apply (handleHotkey_unhandled [Some (cconst "RUN %s.bin")] 0 (buf_of "demo" 8) 8 4 4 []).
  reflexivity.
Defined.

(** ** Walking the history *)

Lemma strbuf_append_empty (buf str : list ascii) (cap max : Z) :
  line_buffer cap buf -> cstr buf = [] -> cap - 1 <= max ->
  line_buffer cap (strbuf_append buf cap str max) /\
  cstr (strbuf_append buf cap str max) = take (Z.to_nat (cap - 1)) (cstr str).
Proof.
  intros Hb Hc Hmax.
  assert (Hl : strlen buf = 0) by now rewrite strlen_cstr, Hc.
  assert (HN : 0 < cap) by (destruct Hb; lia).
  pose proof (strlen_nonneg str) as Hs.
  assert (Hn : strnlen str max = Z.min (strlen str) max).
  { unfold strnlen. destruct (Z.ltb_spec max 0); [lia|reflexivity]. }
  destruct (strbuf_append_spec buf str cap max Hb) as [Hb' Hc']; [lia|].
  split; [exact Hb'|].
  rewrite Hc', Hc, Hl, Hn. cbn [app].
  destruct (Z.le_gt_cases (strlen str) (cap - 1)) as [Hfit|Hcut].
  - rewrite !take_ge; [reflexivity|rewrite strlen_cstr in *; lia..].
  - f_equal. lia.
Qed.

Lemma editHistorySet_spec (N : Z) (b : list ascii) (insertPos len index : Z)
    (hs : history) (e : list ascii) :
  line_buffer N b -> 0 <= index < history_size hs ->
  history_entry hs index = Some e ->
  exists b',
    editHistorySet b N insertPos len index hs
    = Some (true, b', mkHistory (cmd_history hs) (history_size hs) index,
            snd (removeEditLine b insertPos len)) /\
    line_buffer N b' /\ cstr b' = take (Z.to_nat (N - 1)) (cstr e).
Proof.
  intros Hb Hi He.
  assert (HN : 0 < N) by (pose proof (strlen_nonneg b); destruct Hb; lia).
  unfold editHistorySet.
  destruct (Z.leb_spec 0 index); [|lia].
  destruct (Z.ltb_spec index (history_size hs)); [|lia]. cbn [andb].
  destruct (removeEditLine_cleared N b insertPos len HN (proj1 Hb)) as [Hb1 _].
  destruct (removeEditLine b insertPos len) as [b1 o1]. cbn [fst snd] in *.
  rewrite He.
  destruct (line_buffer_cleared N b1 HN (proj1 Hb1)) as [Hb2 Hc2].
  destruct (strbuf_append_empty (wr b1 0 NUL) e N (N - 1) Hb2 Hc2) as [Hb3 Hc3]; [lia|].
  eexists. split; [reflexivity|split; assumption].
Qed.

Lemma editHistoryUp_spec (depth N : Z) (b : list ascii) (insertPos len : Z) (hs : history) :
  history_ok depth hs -> line_buffer N b ->
  0 < history_size hs -> history_no hs <= history_size hs ->
  exists e b',
    history_entry hs (Z.max (history_no hs - 1) 0) = Some e /\
    editHistoryUp b N insertPos len hs
    = Some (true, b',
            mkHistory (cmd_history hs) (history_size hs) (Z.max (history_no hs - 1) 0),
            snd (removeEditLine b insertPos len)) /\
    line_buffer N b' /\ cstr b' = take (Z.to_nat (N - 1)) (cstr e).
Proof.
  intros (_ & _ & Hnn) Hb Hsz Hno.
  set (j := Z.max (history_no hs - 1) 0).
  assert (Hj : 0 <= j < history_size hs) by lia.
  destruct (history_entry hs j) as [e|] eqn:Ee; [|now destruct (Hnn j Hj)].
  destruct (editHistorySet_spec N b insertPos len j hs e Hb Hj Ee) as (b' & Hs & Hb' & Hc').
  exists e, b'. split; [reflexivity|split; [|split; assumption]].
  rewrite <- Hs. unfold editHistoryUp. f_equal.
  destruct (Z.ltb_spec 0 (history_no hs)); [lia|].
  destruct (Z.ltb_spec 0 (history_size hs)); lia.
Qed.

Lemma editHistoryDown_spec (depth N : Z) (b : list ascii) (insertPos len : Z) (hs : history) :
  history_ok depth hs -> line_buffer N b ->
  0 <= history_no hs < history_size hs ->
  exists b',
    editHistoryDown b N insertPos len hs
    = Some (true, b',
            mkHistory (cmd_history hs) (history_size hs) (history_no hs + 1),
            snd (removeEditLine b insertPos len)) /\
    line_buffer N b' /\
    if history_no hs + 1 <? history_size hs then
      exists e, history_entry hs (history_no hs + 1) = Some e /\
                cstr b' = take (Z.to_nat (N - 1)) (cstr e)
    else cstr b' = [].
Proof.
  intros (_ & _ & Hnn) Hb Hno.
  assert (HN : 0 < N) by (pose proof (strlen_nonneg b); destruct Hb; lia).
  unfold editHistoryDown.
  destruct (Z.ltb_spec (history_no hs) (history_size hs)); [|lia].
  destruct (Z.eqb_spec (history_no hs) (history_size hs - 1)) as [Hlast|Hmid].
  - destruct (removeEditLine_cleared N b insertPos len HN (proj1 Hb)) as [Hb1 Hc1].
    destruct (removeEditLine b insertPos len) as [b1 o1]. cbn [fst snd] in *.
    exists b1. split; [do 4 f_equal; lia|split; [exact Hb1|]].
    destruct (Z.ltb_spec (history_no hs + 1) (history_size hs)); [lia|exact Hc1].
  - assert (Hj : 0 <= history_no hs + 1 < history_size hs) by lia.
    destruct (history_entry hs (history_no hs + 1)) as [e|] eqn:Ee;
      [|now destruct (Hnn _ Hj)].
    destruct (editHistorySet_spec N b insertPos len (history_no hs + 1)
                (mkHistory (cmd_history hs) (history_size hs) (history_no hs + 1)) e Hb Hj Ee)
      as (b' & Hs & Hb' & Hc').
    exists b'. split; [exact Hs|split; [exact Hb'|]].
    destruct (Z.ltb_spec (history_no hs + 1) (history_size hs)); [|lia].
    now exists e.
Qed.

(** X15. Cursor Up in a history that holds entries: [editHistoryUp]
    reports a changed line, moves [history_no] one entry back (staying at
    entry 0 once there), erases the old line and leaves in the buffer the
    recalled entry, cut to [buffer_capacity - 1] characters. *)
Theorem editHistoryUp_recalls (depth N : Z) (b : list ascii) (insertPos len : Z)
    (hs : history) :
  history_ok depth hs -> line_buffer N b ->
  0 < history_size hs -> history_no hs <= history_size hs ->
  exists e b',
    history_entry hs (Z.max (history_no hs - 1) 0) = Some e /\
    editHistoryUp b N insertPos len hs
    = Some (true, b',
            mkHistory (cmd_history hs) (history_size hs) (Z.max (history_no hs - 1) 0),
            snd (removeEditLine b insertPos len)) /\
    line_buffer N b' /\ cstr b' = take (Z.to_nat (N - 1)) (cstr e).
Proof. apply editHistoryUp_spec. Qed.

Lemma editHistoryUp_recalls_witness :
  let hs := filled 4 [buf_of "DIR" 8; buf_of "CLS" 8] 2 in
  let b := buf_of "x" 8 in
  exists e b',
    history_entry hs (Z.max (history_no hs - 1) 0) = Some e /\
    editHistoryUp b 8 1 1 hs
    = Some (true, b',
            mkHistory (cmd_history hs) (history_size hs) (Z.max (history_no hs - 1) 0),
            snd (removeEditLine b 1 1)) /\
    line_buffer 8 b' /\ cstr b' = take (Z.to_nat (8 - 1)) (cstr e).
Proof.
  intros hs b. apply (editHistoryUp_recalls 4 8 b 1 1 hs).
  - apply filled_ok. simpl. lia.
  - split; vm_compute; [reflexivity|discriminate].
  - reflexivity.
  - vm_compute. discriminate.
Defined.

(** X16. Cursor Down while [history_no] points at an entry:
    [editHistoryDown] reports a changed line and moves [history_no] one
    entry forward; the buffer then holds that entry, or the empty string
    when the entry left was the newest. *)
Theorem editHistoryDown_moves (depth N : Z) (b : list ascii) (insertPos len : Z)
    (hs : history) :
  history_ok depth hs -> line_buffer N b ->
  0 <= history_no hs < history_size hs ->
  exists b',
    editHistoryDown b N insertPos len hs
    = Some (true, b',
            mkHistory (cmd_history hs) (history_size hs) (history_no hs + 1),
            snd (removeEditLine b insertPos len)) /\
    line_buffer N b' /\
    if history_no hs + 1 <? history_size hs then
      exists e, history_entry hs (history_no hs + 1) = Some e /\
                cstr b' = take (Z.to_nat (N - 1)) (cstr e)
    else cstr b' = [].
Proof. apply editHistoryDown_spec. Qed.

Lemma editHistoryDown_moves_witness :
  let hs := filled 4 [buf_of "DIR" 8; buf_of "CLS" 8] 0 in
  let b := buf_of "DIR" 8 in
  exists b',
    editHistoryDown b 8 3 3 hs
    = Some (true, b',
            mkHistory (cmd_history hs) (history_size hs) (history_no hs + 1),
            snd (removeEditLine b 3 3)) /\
    line_buffer 8 b' /\
    if history_no hs + 1 <? history_size hs then
      exists e, history_entry hs (history_no hs + 1) = Some e /\
                cstr b' = take (Z.to_nat (8 - 1)) (cstr e)
    else cstr b' = [].
Proof.
  intros hs b. apply (editHistoryDown_moves 4 8 b 3 3 hs).
  - apply filled_ok. simpl. lia.
  - split; vm_compute; [reflexivity|discriminate].
  - vm_compute. split; [discriminate|reflexivity].
Defined.

(** ** The history table stays well formed *)

Lemma get_slot_lookup (sl : list (option (list ascii))) (i : Z) :
  0 <= i -> get_slot sl i = mjoin (sl !! Z.to_nat i).
Proof. intros Hi. unfold get_slot. destruct (Z.ltb_spec i 0); [lia|reflexivity]. Qed.

Lemma get_set_slot_ne (sl : list (option (list ascii))) (i j : Z) (p : option (list ascii)) :
  0 <= i -> 0 <= j -> i <> j -> get_slot (set_slot sl i p) j = get_slot sl j.
Proof.
  intros Hi Hj Hne. unfold get_slot, set_slot.
  destruct (Z.ltb_spec i 0); [lia|]. destruct (Z.ltb_spec j 0); [lia|].
  rewrite list_lookup_insert_ne by lia. reflexivity.
Qed.

Lemma editHistoryPush_ok (depth N : Z) (b : list ascii) (hs hs' : history) (h h' : heap) :
  0 < depth -> line_buffer N b -> history_ok depth hs ->
  fst (umm_malloc h) = true ->
  editHistoryPush depth b N hs h = Some (hs', h') ->
  history_ok depth hs' /\ history_no hs' = history_no hs.
Proof.
  intros Hd Hb Hok Hal Hpush.
  destruct (Z.ltb_spec 0 (strlen b)) as [Hpos|Hz].
  2:{ rewrite editHistoryPush_empty in Hpush by (pose proof (strlen_nonneg b); lia).
      injection Hpush as <- <-. now split. }
  assert (Hcases : (hs', h') = (hs, h) \/
    forall e, history_entry hs (history_size hs - 1) = Some e -> cstr b <> cstr e).
  { destruct (history_entry hs (history_size hs - 1)) as [e|] eqn:Ee.
    - destruct (List.list_eq_dec ascii_dec (cstr b) (cstr e)) as [Heq|Hne].
      + destruct (Z.ltb_spec 0 (history_size hs)) as [Hsz|Hsz].
        * left. rewrite (editHistoryPush_same depth N b e hs h Hsz Ee Heq) in Hpush.
          now injection Hpush as <- <-.
        * exfalso. unfold history_entry, get_slot in Ee.
          destruct (Z.ltb_spec (history_size hs - 1) 0); [discriminate|].
          destruct Hok; lia.
      + right. intros e' He'. congruence.
    - right. intros e' He'. discriminate. }
  destruct Hcases as [Hsame|Hnew]; [injection Hsame as -> ->; now split|].
  rewrite (editHistoryPush_new depth N b hs h Hb Hpos Hok Hnew), Hal in Hpush.
  injection Hpush as <- <-.
  destruct Hok as (Hs & Hl & Hnn).
  destruct (Z.eqb_spec (history_size hs) depth) as [Hfull|Hnf];
    (split; [|reflexivity]); unfold history_ok, history_entry in *;
    cbn [history_size cmd_history].
  - destruct (cmd_history hs) as [|x m] eqn:Em; [simpl in Hl; lia|].
    cbn [length] in Hl.
    replace (Z.to_nat (history_size hs - 1)) with (length m) by lia.
    pose proof (evict_spec m [] x) as Hev. cbn [length app] in Hev.
    change (Z.of_nat 0 + 1) with 1 in Hev. rewrite Hev.
    replace (history_size hs - 1) with (Z.of_nat (length m)) by lia.
    rewrite set_slot_app.
    split; [lia|split; [rewrite length_app; simpl; lia|]].
    intros i Hi. rewrite get_slot_lookup by lia.
    destruct (Z.eq_dec i (Z.of_nat (length m))) as [->|Hne].
    + rewrite Nat2Z.id, list_lookup_middle by reflexivity. discriminate.
    + rewrite lookup_app_l by lia.
      specialize (Hnn (i + 1) ltac:(lia)). rewrite get_slot_lookup in Hnn by lia.
      replace (Z.to_nat (i + 1)) with (S (Z.to_nat i)) in Hnn by lia.
      exact Hnn.
  - split; [lia|split; [rewrite set_slot_length; exact Hl|]].
    intros i Hi.
    destruct (Z.eq_dec i (history_size hs)) as [->|Hne].
    + rewrite get_set_slot by lia. discriminate.
    + rewrite get_set_slot_ne by lia. apply Hnn. lia.
Qed.

(** X17. The history table stays well formed: when the allocation
    succeeds, a push into a table of [size <= depth] entries, none of them
    NULL, leaves such a table, and it does not move [history_no]. *)
Theorem editHistoryPush_keeps_history_ok (depth N : Z) (b : list ascii)
    (hs hs' : history) (h h' : heap) :
  0 < depth -> line_buffer N b -> history_ok depth hs ->
  fst (umm_malloc h) = true ->
  editHistoryPush depth b N hs h = Some (hs', h') ->
  history_ok depth hs' /\ history_no hs' = history_no hs.
Proof. apply editHistoryPush_ok. Qed.

Lemma editHistoryPush_keeps_history_ok_witness :
  let hs := filled 2 [buf_of "DIR" 8; buf_of "CLS" 8] 2 in
  let hs' := filled 2 [buf_of "CLS" 8; buf_of "CD" 8] 2 in
  history_ok 2 hs' /\ history_no hs' = history_no hs.
Proof.
  intros hs hs'.
  apply (editHistoryPush_keeps_history_ok 2 8 (buf_of "CD" 8) hs hs' [] []).
  - lia.
  - split; vm_compute; [reflexivity|discriminate].
  - apply filled_ok. simpl. lia.
  - reflexivity.
  - reflexivity.
Defined.

(** ** The line and the cursor across a key *)

Lemma chr_not_nul (k : Z) : 0 < k < 256 -> chr k <> NUL.
Proof.
  intros Hk H. unfold chr, NUL in H. rewrite Z.mod_small in H by lia.
  apply (f_equal N_of_ascii) in H. rewrite N_ascii_embedding in H by lia.
  simpl in H. lia.
Qed.

Lemma insertCharacter_cursor (N : Z) (b : list ascii) (c : ascii) (p : Z) :
  line_buffer N b -> 0 <= p <= strlen b -> c <> NUL ->
  line_buffer N (snd (fst (insertCharacter b N c p))) /\
  if fst (fst (insertCharacter b N c p))
  then cstr (snd (fst (insertCharacter b N c p)))
       = take (Z.to_nat p) (cstr b) ++ c :: drop (Z.to_nat p) (cstr b)
  else snd (fst (insertCharacter b N c p)) = b.
Proof.
  intros Hb Hp Hc. split; [now apply insertCharacter_line_buffer|].
  destruct (Z.eq_dec (strlen b) (N - 1)) as [Hfull|Hroom].
  - rewrite (insertCharacter_refused N b c p Hb Hfull). reflexivity.
  - assert (Hlt : strlen b < N - 1) by (destruct Hb; lia).
    destruct (line_buffer_split N b p Hb Hlt Hp) as (a & t & x & r & Eb & Hs & Ha & Hcs).
    pose proof (insertCharacter_split a t r x c N Hs) as Hi.
    rewrite <- Eb, Ha in Hi. rewrite (Hi (proj1 Hb)). cbn [fst snd].
    replace (a ++ c :: t ++ NUL :: r) with ((a ++ c :: t) ++ NUL :: r)
      by (now rewrite <- app_assoc).
    rewrite cstr_app, Hcs.
    + assert (Hla : Z.to_nat p = length a) by lia.
      now rewrite Hla, take_app_length, drop_app_length.
    + apply Forall_app in Hs as [H1 H2].
      apply Forall_app. split; [|constructor]; assumption.
Qed.

Lemma deleteCharacter_cursor (N : Z) (b : list ascii) (p : Z) :
  line_buffer N b -> 0 <= p <= strlen b ->
  line_buffer N (snd (fst (deleteCharacter b p (strlen b)))) /\
  if fst (fst (deleteCharacter b p (strlen b)))
  then 0 < p /\ strlen (snd (fst (deleteCharacter b p (strlen b)))) = strlen b - 1
  else snd (fst (deleteCharacter b p (strlen b))) = b.
Proof.
  intros Hb Hp.
  destruct (Z.ltb_spec 0 p) as [Hpos|Hz].
  - destruct (deleteCharacter_line N b p (strlen b) Hb) as (b' & o & Hd & Hb' & Hc & _);
      [lia|destruct Hb; lia|].
    rewrite Hd. cbn [fst snd]. split; [exact Hb'|split; [lia|]].
    rewrite (strlen_cstr b'), Hc, length_app, length_take, length_drop, cstr_length.
    unfold strlen in *. lia.
  - unfold deleteCharacter. destruct (Z.ltb_spec 0 p); [lia|].
    cbn [fst snd]. split; [exact Hb|reflexivity].
Qed.

Lemma deleteWord_cursor (N : Z) (b : list ascii) (p : Z) :
  N <= 256 -> line_buffer N b -> 0 <= p <= strlen b ->
  line_buffer N (snd (fst (deleteWord b p (strlen b)))) /\
  0 <= p - fst (fst (deleteWord b p (strlen b)))
    <= strlen (snd (fst (deleteWord b p (strlen b)))).
Proof.
  intros HN Hb Hp.
  pose proof (deleteWord_spec N b p Hb Hp) as H. cbv zeta in H.
  set (n1 := run_before is_space (cstr b) (Z.to_nat p)) in *.
  set (n2 := run_before (fun c => negb (is_space c)) (cstr b) (Z.to_nat p - n1)) in *.
  destruct H as (b' & o & Hd & Hb' & Hc).
  pose proof (run_before_le is_space (cstr b) (Z.to_nat p)) as H1. fold n1 in H1.
  pose proof (run_before_le (fun c => negb (is_space c)) (cstr b) (Z.to_nat p - n1)) as H2.
  fold n2 in H2.
  assert (Hlen : strlen b <= N - 1) by apply Hb.
  rewrite Hd. cbn [fst snd]. split; [exact Hb'|].
  rewrite Z.mod_small by lia.
  rewrite (strlen_cstr b'), Hc, length_app, length_take, length_drop, cstr_length.
  unfold strlen in *. lia.
Qed.

Lemma tab_finish_cursor (expansion_size : Z) (expansion_underflow : ascii)
    (showall : bool) (ctx : tab_expansion_context) (b : list ascii) (N p : Z) :
  line_buffer N b -> 0 <= p <= strlen b ->
  line_buffer N
    (fst (fst (fst (tab_finish expansion_size expansion_underflow showall ctx b N p)))) /\
  0 <= snd (fst (fst (tab_finish expansion_size expansion_underflow showall ctx b N p)))
    <= strlen
         (fst (fst (fst (tab_finish expansion_size expansion_underflow showall ctx b N p)))).
Proof.
  intros Hb Hp. unfold tab_finish.
  destruct ((0 <? strlen (expansion ctx)) || _); [|cbn [fst snd]; now split].
  match goal with
  | |- context [strbuf_insert b N ?x p] =>
      pose proof (strbuf_insert_any b x N p Hb Hp) as H; cbv zeta in H;
      destruct (strbuf_insert b N x p) as [b' n]
  end.
  cbn [fst snd] in *. destruct H as (Hn & H0 & Hb' & _ & Hle).
  split; [exact Hb'|]. lia.
Qed.

Lemma reload_line_buffer (N : Z) (b : list ascii) (insertPos len : Z)
    (src : list ascii) (max : Z) :
  line_buffer N b ->
  line_buffer N (strbuf_append (wr (fst (removeEditLine b insertPos len)) 0 NUL) N src max).
Proof.
  intros Hb.
  assert (HN : 0 < N) by (pose proof (strlen_nonneg b); destruct Hb; lia).
  destruct (removeEditLine_cleared N b insertPos len HN (proj1 Hb)) as [Hb1 _].
  destruct (line_buffer_cleared N _ HN (proj1 Hb1)) as [Hb2 Hc2].
  apply strbuf_append_spec; [exact Hb2|].
  rewrite (strlen_cstr (wr _ 0 NUL)), Hc2.
  pose proof (strnlen_nonneg src max). simpl. lia.
Qed.

Lemma handleHotkey_line_buffer (hotkey_strings : list (option (list ascii))) (fkey : Z)
    (b : list ascii) (N insertPos len : Z) (h : heap) :
  line_buffer N b ->
  line_buffer N (snd (fst (fst (handleHotkey hotkey_strings fkey b N insertPos len h)))).
Proof.
  intros Hb. unfold handleHotkey.
  destruct (mjoin (hotkey_strings !! Z.to_nat fkey)) as [hotkey|]; [|exact Hb].
  destruct (strstr hotkey (cconst "%s")) as [w|].
  - destruct (N <=? _); [exact Hb|].
    destruct (umm_malloc h) as [[|] h']; cbn [negb]; [|exact Hb].
    match goal with
    | |- context [strbuf_append (wr _ 0 NUL) N ?src ?max] =>
        pose proof (reload_line_buffer N b insertPos len src max Hb) as H
    end.
    destruct (removeEditLine b insertPos len). exact H.
  - pose proof (reload_line_buffer N b insertPos len hotkey N Hb) as H.
    destruct (removeEditLine b insertPos len). exact H.
Qed.

Lemma editHistorySet_keeps (N : Z) (b : list ascii) (insertPos len index : Z)
    (hs : history) (r : bool * list ascii * history * list vdu) :
  line_buffer N b ->
  editHistorySet b N insertPos len index hs = Some r ->
  line_buffer N (snd (fst (fst r))) /\
  (fst (fst (fst r)) = false -> snd (fst (fst r)) = b) /\
  cmd_history (snd (fst r)) = cmd_history hs /\
  history_size (snd (fst r)) = history_size hs.
Proof.
  intros Hb. unfold editHistorySet.
  destruct ((0 <=? index) && (index <? history_size hs)).
  - pose proof (fun e => reload_line_buffer N b insertPos len e (N - 1) Hb) as H.
    destruct (removeEditLine b insertPos len) as [b1 o1]. cbn [fst] in H.
    destruct (history_entry hs index) as [e|]; [|discriminate].
    intros [= <-]. cbn [fst snd cmd_history history_size].
    split; [apply H|split; [discriminate|split; reflexivity]].
  - intros [= <-]. cbn [fst snd]. split; [exact Hb|split; [|split]]; reflexivity.
Qed.

Lemma editHistoryUp_keeps (N : Z) (b : list ascii) (insertPos len : Z)
    (hs : history) (r : bool * list ascii * history * list vdu) :
  line_buffer N b ->
  editHistoryUp b N insertPos len hs = Some r ->
  line_buffer N (snd (fst (fst r))) /\
  (fst (fst (fst r)) = false -> snd (fst (fst r)) = b) /\
  cmd_history (snd (fst r)) = cmd_history hs /\
  history_size (snd (fst r)) = history_size hs.
Proof. unfold editHistoryUp. apply editHistorySet_keeps. Qed.

Lemma editHistoryDown_keeps (N : Z) (b : list ascii) (insertPos len : Z)
    (hs : history) (r : bool * list ascii * history * list vdu) :
  line_buffer N b ->
  editHistoryDown b N insertPos len hs = Some r ->
  line_buffer N (snd (fst (fst r))) /\
  (fst (fst (fst r)) = false -> snd (fst (fst r)) = b) /\
  cmd_history (snd (fst r)) = cmd_history hs /\
  history_size (snd (fst r)) = history_size hs.
Proof.
  intros Hb. unfold editHistoryDown.
  assert (HN : 0 < N) by (pose proof (strlen_nonneg b); destruct Hb; lia).
  destruct (history_no hs <? history_size hs).
  - destruct (history_no hs =? history_size hs - 1).
    + destruct (removeEditLine_cleared N b insertPos len HN (proj1 Hb)) as [Hb1 _].
      destruct (removeEditLine b insertPos len) as [b1 o1]. cbn [fst] in Hb1.
      intros [= <-]. cbn [fst snd cmd_history history_size].
      split; [exact Hb1|split; [discriminate|split; reflexivity]].
    + intros Hs. apply (editHistorySet_keeps N b _ _ _ _ r Hb) in Hs. exact Hs.
  - intros [= <-]. cbn [fst snd]. split; [exact Hb|split; [|split]]; reflexivity.
Qed.

Section EditLineInvariant.

Variable cmd_historyDepth : Z.
Variable expansion_size : Z.
Variable expansion_underflow : ascii.
Variable mosCommands : list (list ascii).
Variable f_find : list ascii -> list ascii -> list FILINFO.
Variable cwd : list ascii.
Variable hotkey_strings : list (option (list ascii)).
Variable scrcols : Z.
Variable N : Z.
Hypothesis N_small : N <= 256.

Lemma ascii_key_cursor (enableTab : bool) (keya : Z) (e : editor) :
  cursor_in_line N e -> ed_len e = strlen (ed_buffer e) -> 0 <= keya < 256 ->
  cursor_in_line N
    (fst (ascii_key expansion_size expansion_underflow mosCommands f_find cwd
            N enableTab keya e)).
Proof.
  intros [Hb Hp] Hlen Hk. unfold ascii_key, goto_start, goto_end, cursor_left,
    cursor_right, gotoEditLineStart, gotoEditLineEnd.
  destruct (keya =? 0); [now split|].
  destruct ((32 <=? keya) && negb (keya =? 127)) eqn:Epr.
  { apply andb_true_iff in Epr as [E32 _]. apply Z.leb_le in E32.
    destruct (insertCharacter_cursor N (ed_buffer e) (chr keya) (ed_insertPos e) Hb Hp)
      as [Hb' Hc]; [apply chr_not_nul; lia|].
    destruct (insertCharacter _ _ _ _) as [[ok b'] o]. cbn [fst snd] in *.
    destruct ok; editor_simpl.
    - split; [exact Hb'|].
      rewrite (strlen_cstr b'), Hc, length_app. cbn [length].
      rewrite length_take, length_drop, cstr_length. unfold strlen in *. lia.
    - subst b'. now split. }
  destruct (keya =? 1).
  { editor_simpl. split; [exact Hb|]. destruct (0 <? ed_insertPos e); lia. }
  destruct (keya =? 2).
  { destruct (Z.ltb_spec 0 (ed_insertPos e)); editor_simpl; (split; [exact Hb|lia]). }
  destruct (keya =? 5).
  { editor_simpl. split; [exact Hb|].
    destruct (Z.ltb_spec (ed_insertPos e) (ed_len e)); lia. }
  destruct (keya =? 9).
  { destruct enableTab; [|now split].
    unfold do_tab_complete.
    destruct (tab_enumerate _ _ _ _ _ _ _ _ _) as [[ctx o] h'].
    pose proof (tab_finish_cursor expansion_size expansion_underflow (ed_showall e) ctx
                  (ed_buffer e) N (ed_insertPos e) Hb Hp) as H.
    destruct (tab_finish _ _ _ _ _ _ _) as [[[b' p'] sa] o'].
    editor_simpl. exact H. }
  destruct (keya =? 10); [now split|].
  destruct (keya =? 11); [now split|].
  destruct (keya =? 13); [now split|].
  destruct (keya =? 14); [now split|].
  destruct (keya =? 16); [now split|].
  destruct ((keya =? 6) || (keya =? 21)).
  { destruct (Z.ltb_spec (ed_insertPos e) (ed_len e)); editor_simpl;
      (split; [exact Hb|lia]). }
  destruct (keya =? 23).
  { rewrite Hlen.
    pose proof (deleteWord_cursor N (ed_buffer e) (ed_insertPos e) N_small Hb Hp) as H.
    destruct (deleteWord _ _ _) as [[n b'] o]. editor_simpl. exact H. }
  destruct (keya =? 27); [now split|].
  destruct ((keya =? 8) || (keya =? 127)); [|now split].
  rewrite Hlen.
  pose proof (deleteCharacter_cursor N (ed_buffer e) (ed_insertPos e) Hb Hp) as [Hb' Hc].
  destruct (deleteCharacter _ _ _) as [[ok b'] o]. cbn [fst snd] in *.
  destruct ok; editor_simpl.
  - split; [exact Hb'|lia].
  - subst b'. now split.
Qed.

Lemma dispatch_key_cursor (enableTab enableHotkeys : bool)
    (ev : keyboard_event_t) (e : editor) :
  cursor_in_line N e -> ed_len e = strlen (ed_buffer e) ->
  cursor_in_line N
    (fst (dispatch_key expansion_size expansion_underflow mosCommands f_find
            cwd hotkey_strings N enableTab enableHotkeys ev e)).
Proof.
  intros Hc Hlen.
  assert (Hhot : forall fkey,
    cursor_in_line N
      (fst (if enableHotkeys then
              let '(handled, b, o, h) :=
                handleHotkey hotkey_strings fkey (ed_buffer e) N
                  (ed_insertPos e) (ed_len e) (ed_heap e) in
              let e1 := set_heap h (put o (set_buffer b e)) in
              if handled then
                ascii_key expansion_size expansion_underflow mosCommands f_find cwd
                  N enableTab 13 (set_insertPos (strlen b) (set_len (strlen b) e1))
              else (e1, 0)
            else (e, 0)))).
  { intros fkey. destruct enableHotkeys; [|exact Hc].
    pose proof (handleHotkey_line_buffer hotkey_strings fkey (ed_buffer e) N
                  (ed_insertPos e) (ed_len e) (ed_heap e) (proj1 Hc)) as Hb'.
    pose proof (handleHotkey_keeps hotkey_strings fkey (ed_buffer e) N
                  (ed_insertPos e) (ed_len e) (ed_heap e)) as Hk.
    destruct (handleHotkey _ _ _ _ _ _ _) as [[[handled b] o] h]. cbn [fst snd] in *.
    destruct handled.
    - apply ascii_key_cursor; [|reflexivity|lia].
      editor_simpl. split; [exact Hb'|]. pose proof (strlen_nonneg b). lia.
    - rewrite (Hk eq_refl). destruct Hc as [Hb Hp]. editor_simpl. now split. }
  unfold dispatch_key.
  destruct (ev_vkey ev); cbn [fkey_of from_option id]; try apply Hhot.
  - destruct Hc as [Hb Hp]. unfold goto_start, gotoEditLineStart. editor_simpl.
    split; [exact Hb|]. destruct (0 <? ed_insertPos e); lia.
  - destruct Hc as [Hb Hp]. unfold goto_end, gotoEditLineEnd. editor_simpl.
    split; [exact Hb|]. destruct (Z.ltb_spec (ed_insertPos e) (ed_len e)); lia.
  - exact Hc.
  - exact Hc.
  - destruct Hc as [Hb Hp]. unfold cursor_left.
    destruct (Z.ltb_spec 0 (ed_insertPos e)); editor_simpl; (split; [exact Hb|lia]).
  - destruct Hc as [Hb Hp]. unfold cursor_left.
    destruct (Z.ltb_spec 0 (ed_insertPos e)); editor_simpl; (split; [exact Hb|lia]).
  - apply ascii_key_cursor; [exact Hc|exact Hlen|].
    apply Z.mod_pos_bound. lia.
Qed.

Lemma history_step_cursor (historyAction : Z) (e e' : editor) :
  cursor_in_line N e ->
  history_step cmd_historyDepth N historyAction e = Some e' ->
  cursor_in_line N e'.
Proof.
  intros [Hb Hp]. unfold history_step.
  assert (Hredraw : forall r,
    line_buffer N (snd (fst (fst r))) ->
    (fst (fst (fst r)) = false -> snd (fst (fst r)) = ed_buffer e) ->
    cursor_in_line N
      ((fun '(lineChanged, b, hs, o) =>
          let e1 := set_history hs (put o (set_buffer b e)) in
          if lineChanged : bool then
            set_len (strlen b) (set_insertPos (strlen b) (put [Print (cstr b)] e1))
          else e1) r)).
  { intros [[[[|] b] hs] o] Hb' Hsame; editor_simpl.
    - split; [exact Hb'|]. pose proof (strlen_nonneg b). lia.
    - rewrite (Hsame eq_refl). now split. }
  destruct (historyAction =? 1).
  { destruct (editHistoryPush _ _ _ _ _) as [[hs h]|]; [|discriminate].
    intros [= <-]. editor_simpl. now split. }
  destruct (historyAction =? 2).
  { destruct (editHistoryUp _ _ _ _ _) as [r|] eqn:Er; [|discriminate].
    intros [= <-]. apply (editHistoryUp_keeps N) in Er as (H1 & H2 & _); [|exact Hb].
    now apply Hredraw. }
  destruct (historyAction =? 3).
  { destruct (editHistoryDown _ _ _ _ _) as [r|] eqn:Er; [|discriminate].
    intros [= <-]. apply (editHistoryDown_keeps N) in Er as (H1 & H2 & _); [|exact Hb].
    now apply Hredraw. }
  intros [= <-]. now split.
Qed.

Lemma edit_step_cursor (enableTab enableHotkeys enableHistory : bool)
    (ev : keyboard_event_t) (e e' : editor) :
  cursor_in_line N e ->
  edit_step cmd_historyDepth expansion_size expansion_underflow mosCommands f_find cwd
    hotkey_strings N enableTab enableHotkeys enableHistory ev e = Some e' ->
  cursor_in_line N e'.
Proof.
  intros Hc. unfold edit_step.
  set (e2 := if negb (ev_ascii ev mod 256 =? 9) then _ else _).
  assert (Hc2 : cursor_in_line N e2)
    by (subst e2; destruct (negb _); destruct Hc; editor_simpl; now split).
  assert (Hl2 : ed_len e2 = strlen (ed_buffer e2))
    by (subst e2; destruct (negb _); reflexivity).
  pose proof (dispatch_key_cursor enableTab enableHotkeys ev e2 Hc2 Hl2) as Hd.
  destruct (dispatch_key _ _ _ _ _ _ _ _ _ _ _) as [e3 historyAction].
  cbn [fst] in Hd.
  destruct enableHistory.
  - now apply history_step_cursor.
  - now intros [= <-].
Qed.

Lemma edit_loop_cursor (enableTab enableHotkeys enableHistory : bool)
    (events : list keyboard_event_t) : forall e : editor,
  cursor_in_line N e ->
  outcome_has (cursor_in_line N)
    (edit_loop cmd_historyDepth expansion_size expansion_underflow mosCommands f_find cwd
       hotkey_strings scrcols N enableTab enableHotkeys enableHistory events e).
Proof.
  assert (Hfin : forall e, cursor_in_line N e ->
            outcome_has (cursor_in_line N) (edit_finish scrcols e)).
  { intros e Hc. unfold edit_finish.
    destruct (cursor_down _ _ _ _) as [[len' o]|]; [|exact I].
    destruct Hc. cbn [outcome_has]. editor_simpl. now split. }
  induction events as [|ev events IH]; intros e Hc; cbn [edit_loop].
  - destruct (negb (ed_keyr e =? 0)); [now apply Hfin|exact Hc].
  - destruct (negb (ed_keyr e =? 0)); [now apply Hfin|].
    destruct (edit_step _ _ _ _ _ _ _ _ _ _ _ ev e) as [e1|] eqn:Es; [|exact I].
    apply IH. eapply edit_step_cursor; eassumption.
Qed.

End EditLineInvariant.

(** X18. The line editor never loses its line: for a buffer of at most
    256 bytes that holds a terminated string on entry, whatever keys
    arrive, whenever [mos_EDITLINE] returns or waits for the next key the
    buffer still holds a string terminated inside it and the insert
    position lies between 0 and the length of that string. *)
Theorem mos_EDITLINE_cursor_in_line (cmd_historyDepth expansion_size : Z)
    (expansion_underflow : ascii) (mosCommands : list (list ascii))
    (f_find : list ascii -> list ascii -> list FILINFO) (cwd : list ascii)
    (hotkey_strings : list (option (list ascii))) (scrcols : Z)
    (buffer : list ascii) (bufferLength flags : Z)
    (events : list keyboard_event_t) (hs : history) (h : heap) :
  bufferLength <= 256 -> line_buffer bufferLength buffer ->
  outcome_has (cursor_in_line bufferLength)
    (mos_EDITLINE cmd_historyDepth expansion_size expansion_underflow mosCommands f_find
       cwd hotkey_strings scrcols buffer bufferLength flags events hs h).
Proof.
  intros HN Hb. unfold mos_EDITLINE. apply edit_loop_cursor; [exact HN|].
  assert (H0 : 0 < bufferLength) by (pose proof (strlen_nonneg buffer); destruct Hb; lia).
  destruct (Z.testbit flags 0); unfold cursor_in_line; cbn [ed_buffer ed_insertPos].
  - destruct (line_buffer_cleared bufferLength buffer H0 (proj1 Hb)) as [Hb' Hc'].
    split; [exact Hb'|]. rewrite (strlen_cstr (wr buffer 0 NUL)), Hc'. simpl. lia.
  - split; [exact Hb|]. pose proof (strlen_nonneg buffer). lia.
Qed.

Lemma mos_EDITLINE_cursor_in_line_witness :
  outcome_has (cursor_in_line 8)
    (mos_EDITLINE 4 128 NUL mosCommands_table no_files (cconst "/") [] 80
       (buf_of "ab  cd" 8) 8 0
       [mkEvent VK_LEFT 0; mkEvent VK_OTHER 23; mkEvent VK_OTHER 120; mkEvent VK_OTHER 13]
       (editHistoryInit 4) []).
Proof.
  apply mos_EDITLINE_cursor_in_line.
  - lia.
  - split; vm_compute; [reflexivity|discriminate].
Defined.

(** ** A call that cannot go wrong *)

Lemma umm_malloc_ok (h : heap) :
  all_succeed h -> exists h', umm_malloc h = (true, h') /\ all_succeed h'.
Proof.
  intros Hh. destruct (umm_malloc_all_succeed h Hh) as [H1 H2].
  destruct (umm_malloc h) as [ok h']. cbn [fst snd] in *. subst ok. now exists h'.
Qed.

Lemma notify_tab_expansion_heap (expansion_size : Z) (showall : bool)
    (type : TabExpansionType) (full : list ascii) (fullLen : Z)
    (exp : list ascii) (expLen : Z) (ts : tab_expansion_context * list vdu * heap) :
  all_succeed (snd ts) ->
  all_succeed
    (snd (notify_tab_expansion expansion_size showall type full fullLen exp expLen ts)).
Proof.
  destruct ts as [[ctx o] h]. cbn [snd]. intros Hh. unfold notify_tab_expansion.
  destruct showall; [|exact Hh].
  unfold mos_strndup.
  destruct (umm_malloc_ok h Hh) as (h1 & -> & Hh1).
  destruct (umm_malloc_ok h1 Hh1) as (h2 & -> & Hh2).
  exact Hh2.
Qed.

Lemma find_loop_heap (visit : FILINFO -> tab_expansion_context * list vdu * heap
                              -> tab_expansion_context * list vdu * heap)
    (entries : list FILINFO) :
  (forall fno ts, all_succeed (snd ts) -> all_succeed (snd (visit fno ts))) ->
  forall ts, all_succeed (snd ts) -> all_succeed (snd (find_loop visit entries ts)).
Proof.
  intros Hv. induction entries as [|fno entries IH]; intros ts Hts; cbn [find_loop].
  - exact Hts.
  - destruct (is_nul (rd (fname fno) 0)); [exact Hts|]. apply IH, Hv, Hts.
Qed.

Section TabHeap.

Variable expansion_size : Z.
Variable expansion_underflow : ascii.
Variable mosCommands : list (list ascii).
Variable f_find : list ascii -> list ascii -> list FILINFO.
Variable cwd : list ascii.

Lemma try_tab_expand_internal_cmd_heap (showall : bool)
    (ts : tab_expansion_context * list vdu * heap) :
  all_succeed (snd ts) ->
  all_succeed (snd (try_tab_expand_internal_cmd expansion_size mosCommands showall ts)).
Proof.
  unfold try_tab_expand_internal_cmd. revert ts.
  induction mosCommands as [|name names IH]; intros ts Hts; cbn [fold_left].
  - exact Hts.
  - apply IH. destruct (strncasecmp_eq _ _ _); [|exact Hts].
    now apply notify_tab_expansion_heap.
Qed.

Lemma try_tab_expand_bin_name_heap (showall : bool)
    (ts : tab_expansion_context * list vdu * heap) :
  all_succeed (snd ts) ->
  all_succeed (snd (try_tab_expand_bin_name expansion_size f_find cwd showall ts)).
Proof.
  intros Hts. unfold try_tab_expand_bin_name.
  assert (Hv : forall fno ts0, all_succeed (snd ts0) ->
    all_succeed
      (snd (notify_tab_expansion expansion_size showall ExpandNormal (fname fno)
              (strlen (fname fno) - 4)
              (at_offset (fname fno) (cmdline_insertpos (fst (fst ts))))
              (strlen (fname fno) - cmdline_insertpos (fst (fst ts)) - 4) ts0)))
    by (intros; now apply notify_tab_expansion_heap).
  cbv zeta.
  repeat match goal with
    | |- all_succeed (snd (if ?c then _ else _)) => destruct c
    | |- all_succeed (snd (find_loop _ _ _)) => apply find_loop_heap; [exact Hv|]
    end; exact Hts.
Qed.

Lemma try_tab_expand_argument_heap (showall : bool)
    (ts : tab_expansion_context * list vdu * heap) :
  all_succeed (snd ts) ->
  all_succeed (snd (try_tab_expand_argument expansion_size f_find showall ts)).
Proof.
  intros Hts. unfold try_tab_expand_argument. cbv zeta.
  destruct (is_some _ || is_some _); [exact Hts|].
  match goal with
  | |- context [let '(path, term) := ?x in _] => destruct x as [path term]
  end.
  apply find_loop_heap.
  - intros fno ts0 H0. now apply notify_tab_expansion_heap.
  - repeat match goal with
      | |- all_succeed (snd (if ?c then _ else _)) => destruct c
      | |- all_succeed (snd (notify_tab_expansion _ _ _ _ _ _ _ _)) =>
          apply notify_tab_expansion_heap
      end; exact Hts.
Qed.

Lemma do_tab_complete_heap (showall : bool) (buffer : list ascii)
    (buffer_len insertPos : Z) (h : heap) :
  all_succeed h ->
  all_succeed
    (snd (do_tab_complete expansion_size expansion_underflow mosCommands f_find cwd
            showall buffer buffer_len insertPos h)).
Proof.
  intros Hh. unfold do_tab_complete.
  assert (He : all_succeed
    (snd (tab_enumerate expansion_size mosCommands f_find cwd showall buffer
            buffer_len insertPos h))).
  { unfold tab_enumerate. cbv zeta.
    destruct (_ || _ || _).
    - now apply try_tab_expand_argument_heap.
    - now apply try_tab_expand_bin_name_heap, try_tab_expand_internal_cmd_heap. }
  destruct (tab_enumerate _ _ _ _ _ _ _ _ _) as [[ctx o] h'].
  destruct (tab_finish _ _ _ _ _ _ _) as [[[b' p'] sa] o']. exact He.
Qed.

End TabHeap.

Lemma handleHotkey_heap (hotkey_strings : list (option (list ascii))) (fkey : Z)
    (b : list ascii) (N insertPos len : Z) (h : heap) :
  all_succeed h ->
  all_succeed (snd (handleHotkey hotkey_strings fkey b N insertPos len h)).
Proof.
  intros Hh. unfold handleHotkey.
  destruct (mjoin (hotkey_strings !! Z.to_nat fkey)) as [hotkey|]; [|exact Hh].
  destruct (strstr hotkey (cconst "%s")) as [w|].
  - destruct (N <=? _); [exact Hh|].
    destruct (umm_malloc_ok h Hh) as (h1 & -> & Hh1). cbn [negb].
    destruct (removeEditLine b insertPos len). exact Hh1.
  - destruct (removeEditLine b insertPos len). exact Hh.
Qed.

Lemma editHistoryPush_heap (depth N : Z) (b : list ascii) (hs hs' : history) (h h' : heap) :
  all_succeed h ->
  editHistoryPush depth b N hs h = Some (hs', h') -> all_succeed h'.
Proof.
  intros Hh. unfold editHistoryPush, mos_strndup.
  destruct (umm_malloc_ok h Hh) as (h1 & -> & Hh1).
  destruct (0 <? strnlen b N); [|now intros [= _ <-]].
  destruct (if 0 <? history_size hs then _ else _) as [[|]|];
    [now intros [= _ <-]| |discriminate].
  destruct (history_size hs =? depth); now intros [= _ <-].
Qed.

Section EditLineDefined.

Variable cmd_historyDepth : Z.
Variable expansion_size : Z.
Variable expansion_underflow : ascii.
Variable mosCommands : list (list ascii).
Variable f_find : list ascii -> list ascii -> list FILINFO.
Variable cwd : list ascii.
Variable hotkey_strings : list (option (list ascii)).
Variable scrcols : Z.
Variable N : Z.
Hypothesis N_small : N <= 256.
Hypothesis depth_pos : 0 < cmd_historyDepth.

Lemma ascii_key_rest (enableTab : bool) (keya : Z) (e : editor) :
  all_succeed (ed_heap e) ->
  ed_history
    (fst (ascii_key expansion_size expansion_underflow mosCommands f_find cwd
            N enableTab keya e)) = ed_history e /\
  all_succeed
    (ed_heap (fst (ascii_key expansion_size expansion_underflow mosCommands f_find cwd
                     N enableTab keya e))).
Proof.
  intros Hh. unfold ascii_key, goto_start, goto_end, cursor_left, cursor_right.
  destruct (keya =? 0); [now split|].
  destruct ((32 <=? keya) && negb (keya =? 127)).
  { destruct (insertCharacter _ _ _ _) as [[[|] b'] o]; editor_simpl; now split. }
  destruct (keya =? 1); [split_branches; editor_simpl; now split|].
  destruct (keya =? 2); [split_branches; editor_simpl; now split|].
  destruct (keya =? 5); [split_branches; editor_simpl; now split|].
  destruct (keya =? 9).
  { destruct enableTab; [|now split].
    pose proof (do_tab_complete_heap expansion_size expansion_underflow mosCommands
                  f_find cwd (ed_showall e) (ed_buffer e) N (ed_insertPos e)
                  (ed_heap e) Hh) as H.
    destruct (do_tab_complete _ _ _ _ _ _ _ _ _ _) as [[[[b' p'] sa] o'] h'].
    editor_simpl. now split. }
  destruct (keya =? 10); [now split|].
  destruct (keya =? 11); [now split|].
  destruct (keya =? 13); [now split|].
  destruct (keya =? 14); [now split|].
  destruct (keya =? 16); [now split|].
  destruct ((keya =? 6) || (keya =? 21)); [split_branches; editor_simpl; now split|].
  destruct (keya =? 23).
  { destruct (deleteWord _ _ _) as [[n b'] o]; editor_simpl; now split. }
  destruct (keya =? 27); [now split|].
  destruct ((keya =? 8) || (keya =? 127)); [|now split].
  destruct (deleteCharacter _ _ _) as [[[|] b'] o]; editor_simpl; now split.
Qed.

Lemma dispatch_key_rest (enableTab enableHotkeys : bool)
    (ev : keyboard_event_t) (e : editor) :
  all_succeed (ed_heap e) ->
  ed_history
    (fst (dispatch_key expansion_size expansion_underflow mosCommands f_find
            cwd hotkey_strings N enableTab enableHotkeys ev e)) = ed_history e /\
  all_succeed
    (ed_heap (fst (dispatch_key expansion_size expansion_underflow mosCommands f_find
                     cwd hotkey_strings N enableTab enableHotkeys ev e))).
Proof.
  intros Hh.
  assert (Hhot : forall fkey,
    let r :=
      if enableHotkeys then
        let '(handled, b, o, h) :=
          handleHotkey hotkey_strings fkey (ed_buffer e) N
            (ed_insertPos e) (ed_len e) (ed_heap e) in
        let e1 := set_heap h (put o (set_buffer b e)) in
        if handled then
          ascii_key expansion_size expansion_underflow mosCommands f_find cwd
            N enableTab 13 (set_insertPos (strlen b) (set_len (strlen b) e1))
        else (e1, 0)
      else (e, 0) in
    ed_history (fst r) = ed_history e /\ all_succeed (ed_heap (fst r))).
  { intros fkey. cbv zeta. destruct enableHotkeys; [|now split].
    pose proof (handleHotkey_heap hotkey_strings fkey (ed_buffer e) N
                  (ed_insertPos e) (ed_len e) (ed_heap e) Hh) as Hh'.
    destruct (handleHotkey _ _ _ _ _ _ _) as [[[handled b] o] h]. cbn [snd] in Hh'.
    destruct handled.
    - match goal with
      | |- context [ascii_key _ _ _ _ _ _ _ _ ?x] =>
          destruct (ascii_key_rest enableTab 13 x) as [H1 H2]; [exact Hh'|]
      end.
      split; [rewrite H1; reflexivity|exact H2].
    - editor_simpl. now split. }
  unfold dispatch_key, goto_start, goto_end, cursor_left.
  destruct (ev_vkey ev); cbn [fkey_of from_option id]; try apply Hhot;
    try (split_branches; editor_simpl; now split).
  now apply ascii_key_rest.
Qed.

Lemma history_step_ok (historyAction : Z) (e : editor) :
  editor_ok cmd_historyDepth N e ->
  exists e', history_step cmd_historyDepth N historyAction e = Some e' /\
             editor_ok cmd_historyDepth N e'.
Proof.
  intros (Hc & Hok & Hh).
  assert (Hredraw : forall r,
    line_buffer N (snd (fst (fst r))) ->
    (fst (fst (fst r)) = false -> snd (fst (fst r)) = ed_buffer e) ->
    cmd_history (snd (fst r)) = cmd_history (ed_history e) ->
    history_size (snd (fst r)) = history_size (ed_history e) ->
    editor_ok cmd_historyDepth N
      ((fun '(lineChanged, b, hs, o) =>
          let e1 := set_history hs (put o (set_buffer b e)) in
          if lineChanged : bool then
            set_len (strlen b) (set_insertPos (strlen b) (put [Print (cstr b)] e1))
          else e1) r)).
  { intros [[[lc b] hs] o] Hb' Hsame Hcmd Hsize. cbn [fst snd] in *.
    assert (Hok' : history_ok cmd_historyDepth hs).
    { unfold history_ok, history_entry in *. rewrite Hcmd, Hsize. exact Hok. }
    destruct Hc as [Hb Hp].
    destruct lc; unfold editor_ok; editor_simpl.
    - split; [split; [exact Hb'|pose proof (strlen_nonneg b); lia]|now split].
    - rewrite (Hsame eq_refl). split; [now split|now split]. }
  assert (Hdef : forall (i : Z) (b : list ascii) (p len : Z) (hs : history),
    history_ok cmd_historyDepth hs ->
    editHistorySet b N p len i hs <> None).
  { intros i b p len hs (_ & _ & Hnn). unfold editHistorySet.
    destruct (Z.leb_spec 0 i); [|discriminate].
    destruct (Z.ltb_spec i (history_size hs)); [|discriminate]. cbn [andb].
    destruct (removeEditLine b p len).
    destruct (history_entry hs i) eqn:Ee; [discriminate|].
    now destruct (Hnn i ltac:(lia)). }
  unfold history_step.
  destruct (historyAction =? 1).
  { destruct (editHistoryPush_defined cmd_historyDepth N (ed_buffer e) (ed_history e)
                (ed_heap e) (proj1 Hc) Hok) as [[hs' h'] Hpush].
    rewrite Hpush. cbn. eexists. split; [reflexivity|].
    destruct (umm_malloc_all_succeed _ Hh) as [Hal _].
    destruct (editHistoryPush_ok _ _ _ _ _ _ _ depth_pos (proj1 Hc) Hok Hal Hpush)
      as [Hok' _].
    pose proof (editHistoryPush_heap _ _ _ _ _ _ _ Hh Hpush) as Hh'.
    destruct Hc as [Hb Hp]. unfold editor_ok. editor_simpl.
    split; [split; assumption|split; assumption]. }
  destruct (historyAction =? 2).
  { destruct (editHistoryUp _ _ _ _ _) as [r|] eqn:Er.
    - exists (((fun '(lineChanged, b, hs, o) =>
          let e1 := set_history hs (put o (set_buffer b e)) in
          if lineChanged : bool then
            set_len (strlen b) (set_insertPos (strlen b) (put [Print (cstr b)] e1))
          else e1) r)).
      split; [reflexivity|].
      apply (editHistoryUp_keeps N) in Er as (H1 & H2 & H3 & H4); [|apply Hc].
      now apply Hredraw.
    - exfalso. unfold editHistoryUp in Er. now apply Hdef in Er. }
  destruct (historyAction =? 3).
  { destruct (editHistoryDown _ _ _ _ _) as [r|] eqn:Er.
    - exists (((fun '(lineChanged, b, hs, o) =>
          let e1 := set_history hs (put o (set_buffer b e)) in
          if lineChanged : bool then
            set_len (strlen b) (set_insertPos (strlen b) (put [Print (cstr b)] e1))
          else e1) r)).
      split; [reflexivity|].
      apply (editHistoryDown_keeps N) in Er as (H1 & H2 & H3 & H4); [|apply Hc].
      now apply Hredraw.
    - exfalso. unfold editHistoryDown in Er.
      destruct (history_no (ed_history e) <? history_size (ed_history e)); [|discriminate].
      destruct (history_no (ed_history e) =? history_size (ed_history e) - 1).
      + destruct (removeEditLine _ _ _). discriminate.
      + apply Hdef in Er; [exact Er|]. exact Hok. }
  exists e. split; [reflexivity|]. now split.
Qed.

Lemma edit_step_ok (enableTab enableHotkeys enableHistory : bool)
    (ev : keyboard_event_t) (e : editor) :
  editor_ok cmd_historyDepth N e ->
  exists e',
    edit_step cmd_historyDepth expansion_size expansion_underflow mosCommands f_find cwd
      hotkey_strings N enableTab enableHotkeys enableHistory ev e = Some e' /\
    editor_ok cmd_historyDepth N e'.
Proof.
  intros (Hc & Hok & Hh). unfold edit_step.
  set (e2 := if negb (ev_ascii ev mod 256 =? 9) then _ else _).
  assert (Hc2 : cursor_in_line N e2)
    by (subst e2; destruct (negb _); destruct Hc; editor_simpl; now split).
  assert (Hl2 : ed_len e2 = strlen (ed_buffer e2))
    by (subst e2; destruct (negb _); reflexivity).
  assert (Hh2 : all_succeed (ed_heap e2)) by (subst e2; destruct (negb _); exact Hh).
  assert (Hhs2 : ed_history e2 = ed_history e) by (subst e2; destruct (negb _); reflexivity).
  pose proof (dispatch_key_cursor expansion_size expansion_underflow mosCommands f_find
                cwd hotkey_strings N N_small enableTab enableHotkeys ev e2 Hc2 Hl2) as Hd.
  pose proof (dispatch_key_rest enableTab enableHotkeys ev e2 Hh2) as [Hd1 Hd2].
  destruct (dispatch_key _ _ _ _ _ _ _ _ _ _ _) as [e3 historyAction].
  cbn [fst] in *.
  assert (H3 : editor_ok cmd_historyDepth N e3).
  { split; [exact Hd|split; [|exact Hd2]]. rewrite Hd1, Hhs2. exact Hok. }
  destruct enableHistory.
  - now apply history_step_ok.
  - now exists e3.
Qed.

Lemma edit_loop_ok (enableTab enableHotkeys enableHistory : bool)
    (events : list keyboard_event_t) : forall e : editor,
  editor_ok cmd_historyDepth N e ->
  edit_loop cmd_historyDepth expansion_size expansion_underflow mosCommands f_find cwd
    hotkey_strings scrcols N enableTab enableHotkeys enableHistory events e
  <> Undefined.
Proof.
  assert (Hfin : forall e, edit_finish scrcols e <> Undefined).
  { intros e. unfold edit_finish.
    destruct (cursor_down _ _ _ _) as [[len' o]|]; discriminate. }
  induction events as [|ev events IH]; intros e He; cbn [edit_loop].
  - destruct (negb (ed_keyr e =? 0)); [apply Hfin|discriminate].
  - destruct (negb (ed_keyr e =? 0)); [apply Hfin|].
    destruct (edit_step_ok enableTab enableHotkeys enableHistory ev e He) as (e' & -> & He').
    now apply IH.
Qed.

End EditLineDefined.

(** X19. With a history table that holds no NULL entry, an allocator that
    does not fail and a terminated buffer of at most 256 bytes,
    [mos_EDITLINE] never reads a NULL history entry, whatever keys
    arrive. *)
Theorem mos_EDITLINE_no_null_entry (cmd_historyDepth expansion_size : Z)
    (expansion_underflow : ascii) (mosCommands : list (list ascii))
    (f_find : list ascii -> list ascii -> list FILINFO) (cwd : list ascii)
    (hotkey_strings : list (option (list ascii))) (scrcols : Z)
    (buffer : list ascii) (bufferLength flags : Z)
    (events : list keyboard_event_t) (hs : history) (h : heap) :
  0 < cmd_historyDepth -> bufferLength <= 256 -> line_buffer bufferLength buffer ->
  history_ok cmd_historyDepth hs -> all_succeed h ->
  mos_EDITLINE cmd_historyDepth expansion_size expansion_underflow mosCommands f_find
    cwd hotkey_strings scrcols buffer bufferLength flags events hs h
  <> Undefined.
Proof.
  intros Hd HN Hb Hok Hh. unfold mos_EDITLINE. apply edit_loop_ok; [exact HN|exact Hd|].
  assert (H0 : 0 < bufferLength) by (pose proof (strlen_nonneg buffer); destruct Hb; lia).
  assert (Hok' : history_ok cmd_historyDepth
                   (mkHistory (cmd_history hs) (history_size hs) (history_size hs)))
    by exact Hok.
  destruct (Z.testbit flags 0); unfold editor_ok, cursor_in_line;
    cbn [ed_buffer ed_insertPos ed_history ed_heap].
  - destruct (line_buffer_cleared bufferLength buffer H0 (proj1 Hb)) as [Hb' Hc'].
    split; [split; [exact Hb'|]|now split].
    rewrite (strlen_cstr (wr buffer 0 NUL)), Hc'. simpl. lia.
  - split; [split; [exact Hb|pose proof (strlen_nonneg buffer); lia]|now split].
Qed.

Lemma mos_EDITLINE_no_null_entry_witness :
  mos_EDITLINE 4 128 NUL mosCommands_table no_files (cconst "/") [] 80
    (buf_of "" 8) 8 0
    [mkEvent VK_OTHER 100; mkEvent VK_OTHER 13] (editHistoryInit 4) []
  <> Undefined.
Proof.
  apply mos_EDITLINE_no_null_entry.
  - lia.
  - lia.
  - split; vm_compute; [reflexivity|discriminate].
  - change (editHistoryInit 4) with (filled 4 [] 0). apply filled_ok. simpl. lia.
  - constructor.
Defined.

(** ** Typing a line *)

Lemma insertCharacter_accepts (N : Z) (b : list ascii) (c : ascii) (p : Z) :
  line_buffer N b -> strlen b < N - 1 -> fst (fst (insertCharacter b N c p)) = true.
Proof.
  intros Hb Hlt. unfold insertCharacter. rewrite (line_buffer_strnlen N b Hb).
  destruct (Z.ltb_spec (strlen b) (N - 1)); [reflexivity|lia].
Qed.

Lemma cursor_down_spec (scrcols : Z) (fuel : nat) : forall (len : Z) (o : list vdu),
  0 < scrcols -> 0 <= len -> len / scrcols <= Z.of_nat fuel ->
  cursor_down scrcols fuel len o
  = Some (len mod scrcols, o ++ repeat (Putch (chr 10)) (Z.to_nat (len / scrcols))).
Proof.
  induction fuel as [|fuel IH]; intros len o Hs Hl Hf; cbn [cursor_down].
  - assert (Hq : len / scrcols = 0) by (pose proof (Z.div_pos len scrcols); lia).
    apply Z.div_small_iff in Hq as [Hq|Hq]; [|lia|lia].
    destruct (Z.leb_spec scrcols len); [lia|].
    rewrite Z.mod_small, Z.div_small by lia. simpl. now rewrite app_nil_r.
  - destruct (Z.leb_spec scrcols len) as [Hge|Hlt].
    + assert (Hd : len / scrcols = (len - scrcols) / scrcols + 1).
      { replace len with ((len - scrcols) + 1 * scrcols) at 1 by lia.
        rewrite Z.div_add by lia. reflexivity. }
      assert (Hm : len mod scrcols = (len - scrcols) mod scrcols).
      { replace len with ((len - scrcols) + 1 * scrcols) at 1 by lia.
        rewrite Z.mod_add by lia. reflexivity. }
      pose proof (Z.div_pos (len - scrcols) scrcols).
      rewrite IH by lia. rewrite Hd, Hm.
      replace (Z.to_nat ((len - scrcols) / scrcols + 1))
        with (S (Z.to_nat ((len - scrcols) / scrcols))) by lia.
      cbn [repeat]. now rewrite <- app_assoc.
    + rewrite Z.mod_small, Z.div_small by lia. simpl. now rewrite app_nil_r.
Qed.

Lemma edit_finish_spec (scrcols : Z) (e : editor) :
  0 < scrcols -> 0 <= ed_len e - ed_insertPos e ->
  edit_finish scrcols e
  = Returned (ed_keyr e)
      (mkEditor (ed_buffer e) (ed_insertPos e) (ed_len e) (ed_keyr e) (ed_showall e)
         (ed_history e) (ed_heap e)
         (ed_out e
          ++ repeat (Putch (chr 10)) (Z.to_nat ((ed_len e - ed_insertPos e) / scrcols))
          ++ repeat (Putch (chr 9)) (Z.to_nat ((ed_len e - ed_insertPos e) mod scrcols)))).
Proof.
  intros Hs Hd. unfold edit_finish.
  rewrite cursor_down_spec; [reflexivity|lia|lia|].
  pose proof (Z.div_le_upper_bound (ed_len e - ed_insertPos e) scrcols
                (ed_len e - ed_insertPos e) Hs).
  nia.
Qed.

(** X20. After the loop [mos_EDITLINE] moves the cursor to the end of
    the line: for a screen of [scrcols > 0] columns and [d] characters
    between the insert position and the end, it sends [d / scrcols] line
    feeds and then [d mod scrcols] cursor-rights (byte 9), and returns the
    exit key. *)
Theorem edit_finish_to_end_of_line (scrcols : Z) (e : editor) :
  0 < scrcols -> 0 <= ed_len e - ed_insertPos e ->
  edit_finish scrcols e
  = Returned (ed_keyr e)
      (mkEditor (ed_buffer e) (ed_insertPos e) (ed_len e) (ed_keyr e) (ed_showall e)
         (ed_history e) (ed_heap e)
         (ed_out e
          ++ repeat (Putch (chr 10)) (Z.to_nat ((ed_len e - ed_insertPos e) / scrcols))
          ++ repeat (Putch (chr 9)) (Z.to_nat ((ed_len e - ed_insertPos e) mod scrcols)))).
Proof. apply edit_finish_spec. Qed.

Lemma edit_finish_to_end_of_line_witness :
  let e := mkEditor (buf_of "0123456789" 16) 1 10 13 false (editHistoryInit 4) [] [] in
  edit_finish 4 e
  = Returned (ed_keyr e)
      (mkEditor (ed_buffer e) (ed_insertPos e) (ed_len e) (ed_keyr e) (ed_showall e)
         (ed_history e) (ed_heap e)
         (ed_out e
          ++ repeat (Putch (chr 10)) (Z.to_nat ((ed_len e - ed_insertPos e) / 4))
          ++ repeat (Putch (chr 9)) (Z.to_nat ((ed_len e - ed_insertPos e) mod 4)))).
Proof.
  intros e. apply (edit_finish_to_end_of_line 4 e).
  - lia.
  - vm_compute. discriminate.
Defined.

Section Typing.

Variable cmd_historyDepth : Z.
Variable expansion_size : Z.
Variable expansion_underflow : ascii.
Variable mosCommands : list (list ascii).
Variable f_find : list ascii -> list ascii -> list FILINFO.
Variable cwd : list ascii.
Variable hotkey_strings : list (option (list ascii)).
Variable scrcols : Z.
Variable N : Z.
Variable enableTab enableHotkeys enableHistory : bool.

Lemma type_step (k : Z) (e : editor) :
  line_buffer N (ed_buffer e) -> ed_insertPos e = strlen (ed_buffer e) ->
  strlen (ed_buffer e) < N - 1 -> 32 <= k < 256 -> k <> 127 ->
  exists e',
    edit_step cmd_historyDepth expansion_size expansion_underflow mosCommands f_find cwd
      hotkey_strings N enableTab enableHotkeys enableHistory (mkEvent VK_OTHER k) e
    = Some e' /\
    ed_keyr e' = ed_keyr e /\ line_buffer N (ed_buffer e') /\
    cstr (ed_buffer e') = cstr (ed_buffer e) ++ [chr k] /\
    ed_insertPos e' = strlen (ed_buffer e') /\
    ed_history e' = ed_history e /\ ed_heap e' = ed_heap e.
Proof.
  intros Hb Hp Hlt Hk H127.
  pose proof (strlen_nonneg (ed_buffer e)) as H0.
  pose proof (insertCharacter_accepts N (ed_buffer e) (chr k) (ed_insertPos e) Hb Hlt) as Hok.
  destruct (insertCharacter_cursor N (ed_buffer e) (chr k) (ed_insertPos e) Hb)
    as [Hb' Hc]; [lia|apply chr_not_nul; lia|].
  rewrite Hok in Hc.
  assert (Hc' : cstr (snd (fst (insertCharacter (ed_buffer e) N (chr k) (ed_insertPos e))))
                = cstr (ed_buffer e) ++ [chr k]).
  { rewrite Hc, Hp. unfold strlen. rewrite Nat2Z.id, <- cstr_length.
    now rewrite take_ge, drop_ge by lia. }
  unfold edit_step, dispatch_key. cbn [ev_vkey ev_ascii].
  rewrite Z.mod_small by lia. unfold ascii_key.
  destruct (Z.eqb_spec k 0); [lia|].
  destruct (Z.leb_spec 32 k); [|lia].
  destruct (Z.eqb_spec k 127); [lia|]. cbn [andb negb].
  assert (Hsame : forall e2, ed_buffer e2 = ed_buffer e -> ed_insertPos e2 = ed_insertPos e ->
    insertCharacter (ed_buffer e2) N (chr k) (ed_insertPos e2)
    = insertCharacter (ed_buffer e) N (chr k) (ed_insertPos e))
    by (intros e2 -> ->; reflexivity).
  destruct (insertCharacter (ed_buffer e) N (chr k) (ed_insertPos e)) as [[ok b'] o] eqn:Ei.
  cbn [fst snd] in *. subst ok.
  assert (Hl' : strlen b' = strlen (ed_buffer e) + 1).
  { rewrite (strlen_cstr b'), Hc', length_app, cstr_length. unfold strlen. simpl. lia. }
  destruct (negb (k =? 9)); rewrite Hsame by reflexivity;
    (destruct enableHistory;
     [unfold history_step; cbn [Z.eqb]|];
     eexists; (split; [reflexivity|]); editor_simpl;
     (split; [reflexivity|split; [exact Hb'|split; [exact Hc'|split;
        [lia|split; reflexivity]]]])).
Qed.

Lemma type_keys (rest : list keyboard_event_t) (keys : list Z) : forall e : editor,
  ed_keyr e = 0 ->
  line_buffer N (ed_buffer e) -> ed_insertPos e = strlen (ed_buffer e) ->
  strlen (ed_buffer e) + Z.of_nat (length keys) <= N - 1 ->
  Forall (fun k => 32 <= k < 256 /\ k <> 127) keys ->
  exists e',
    edit_loop cmd_historyDepth expansion_size expansion_underflow mosCommands f_find cwd
      hotkey_strings scrcols N enableTab enableHotkeys enableHistory
      (map (mkEvent VK_OTHER) keys ++ rest) e
    = edit_loop cmd_historyDepth expansion_size expansion_underflow mosCommands f_find cwd
        hotkey_strings scrcols N enableTab enableHotkeys enableHistory rest e' /\
    ed_keyr e' = 0 /\ line_buffer N (ed_buffer e') /\
    cstr (ed_buffer e') = cstr (ed_buffer e) ++ map chr keys /\
    ed_insertPos e' = strlen (ed_buffer e') /\
    ed_history e' = ed_history e /\ ed_heap e' = ed_heap e.
Proof.
  induction keys as [|k keys IH]; intros e Hk Hb Hp Hroom Hkeys.
  - exists e. cbn [map app]. rewrite app_nil_r.
    split; [reflexivity|split; [exact Hk|split; [exact Hb|split;
      [reflexivity|split; [exact Hp|split; reflexivity]]]]].
  - apply Forall_cons_iff in Hkeys as [[Hk1 Hk2] Hkeys]. cbn [length] in Hroom.
    destruct (type_step k e Hb Hp) as (e1 & Hs & Hkr & Hb1 & Hc1 & Hp1 & Hh1 & Hm1);
      [lia|exact Hk1|exact Hk2|].
    assert (Hl1 : strlen (ed_buffer e1) = strlen (ed_buffer e) + 1).
    { rewrite (strlen_cstr (ed_buffer e1)), Hc1, length_app, cstr_length.
      unfold strlen. simpl. lia. }
    destruct (IH e1) as (e' & Hloop & Hkr' & Hb' & Hc' & Hp' & Hh' & Hm');
      [congruence|exact Hb1|exact Hp1|lia|exact Hkeys|].
    exists e'. cbn [map app edit_loop]. rewrite Hk. cbn [Z.eqb negb]. rewrite Hs.
    split; [exact Hloop|].
    split; [exact Hkr'|split; [exact Hb'|split; [|split; [exact Hp'|split; congruence]]]].
    rewrite Hc', Hc1, <- app_assoc. reflexivity.
Qed.

Lemma enter_returns (e : editor) :
  0 < scrcols -> ed_keyr e = 0 -> line_buffer N (ed_buffer e) ->
  history_ok cmd_historyDepth (ed_history e) ->
  exists e',
    edit_loop cmd_historyDepth expansion_size expansion_underflow mosCommands f_find cwd
      hotkey_strings scrcols N enableTab enableHotkeys enableHistory
      [mkEvent VK_OTHER 13] e
    = Returned 13 e' /\
    ed_buffer e' = ed_buffer e /\ ed_insertPos e' = ed_insertPos e.
Proof.
  intros Hs Hk Hb Hok. cbn [edit_loop]. rewrite Hk. cbn [Z.eqb negb].
  assert (Hfin : forall e1, ed_keyr e1 = 13 ->
    exists e', edit_finish scrcols e1 = Returned 13 e' /\
               ed_buffer e' = ed_buffer e1 /\ ed_insertPos e' = ed_insertPos e1).
  { intros e1 Hk1. unfold edit_finish.
    destruct (cursor_down scrcols _ _ _) as [[len' o]|] eqn:Ec.
    - eexists. rewrite Hk1. split; [reflexivity|]. editor_simpl. now split.
    - exfalso. revert Ec. apply cursor_down_ends; [exact Hs|]. lia. }
  unfold edit_step, dispatch_key. cbn [ev_vkey ev_ascii].
  change (13 mod 256) with 13. change (negb (13 =? 9)) with true. cbv iota.
  set (e2 := set_showall false (set_len (strlen (ed_buffer e)) e)).
  change (ascii_key expansion_size expansion_underflow mosCommands f_find cwd N
            enableTab 13 e2) with (set_keyr 13 e2, 1).
  cbv iota beta.
  destruct enableHistory.
  - unfold history_step. change (1 =? 1) with true. cbv iota.
    destruct (editHistoryPush_defined cmd_historyDepth N (ed_buffer (set_keyr 13 e2))
                (ed_history (set_keyr 13 e2)) (ed_heap (set_keyr 13 e2)) Hb Hok)
      as [[hs' h'] Hpush].
    rewrite Hpush. cbn [mbind option_bind].
    destruct (Hfin (set_heap h' (set_history hs' (set_keyr 13 e2))) eq_refl)
      as (e' & Hf & H1 & H2).
    exists e'. split; [exact Hf|]. now split.
  - destruct (Hfin (set_keyr 13 e2) eq_refl) as (e' & Hf & H1 & H2).
    exists e'. split; [exact Hf|]. now split.
Qed.

End Typing.

Lemma mos_EDITLINE_typed_spec (cmd_historyDepth expansion_size : Z)
    (expansion_underflow : ascii) (mosCommands : list (list ascii))
    (f_find : list ascii -> list ascii -> list FILINFO) (cwd : list ascii)
    (hotkey_strings : list (option (list ascii))) (scrcols : Z)
    (buffer : list ascii) (bufferLength flags : Z)
    (keys : list Z) (hs : history) (h : heap) :
  0 < scrcols -> line_buffer bufferLength buffer ->
  history_ok cmd_historyDepth hs ->
  Forall (fun k => 32 <= k < 256 /\ k <> 127) keys ->
  let start := if Z.testbit flags 0 then [] else cstr buffer in
  Z.of_nat (length start) + Z.of_nat (length keys) <= bufferLength - 1 ->
  exists e',
    mos_EDITLINE cmd_historyDepth expansion_size expansion_underflow mosCommands f_find
      cwd hotkey_strings scrcols buffer bufferLength flags
      (map (mkEvent VK_OTHER) keys ++ [mkEvent VK_OTHER 13]) hs h
    = Returned 13 e' /\
    cstr (ed_buffer e') = start ++ map chr keys /\
    ed_insertPos e' = Z.of_nat (length (start ++ map chr keys)).
Proof.
  intros Hs Hb Hok Hkeys start Hroom. unfold mos_EDITLINE.
  assert (H0 : 0 < bufferLength) by (pose proof (strlen_nonneg buffer); destruct Hb; lia).
  set (e0 := if Z.testbit flags 0 then _ else _).
  assert (He0 : ed_keyr e0 = 0 /\ line_buffer bufferLength (ed_buffer e0) /\
                cstr (ed_buffer e0) = start /\
                ed_insertPos e0 = strlen (ed_buffer e0) /\
                history_ok cmd_historyDepth (ed_history e0)).
  { subst e0 start. destruct (Z.testbit flags 0); cbn [ed_keyr ed_buffer ed_insertPos ed_history].
    - destruct (line_buffer_cleared bufferLength buffer H0 (proj1 Hb)) as [Hb' Hc'].
      split; [reflexivity|split; [exact Hb'|split; [exact Hc'|split; [|exact Hok]]]].
      now rewrite (strlen_cstr (wr buffer 0 NUL)), Hc'.
    - split; [reflexivity|split; [exact Hb|split; [reflexivity|split;
        [reflexivity|exact Hok]]]]. }
  clearbody e0. destruct He0 as (Hk0 & Hb0 & Hc0 & Hp0 & Hok0).
  destruct (type_keys cmd_historyDepth expansion_size expansion_underflow mosCommands
              f_find cwd hotkey_strings scrcols bufferLength
              (Z.testbit flags 1) (negb (Z.testbit flags 2)) (negb (Z.testbit flags 3))
              [mkEvent VK_OTHER 13] keys e0 Hk0 Hb0 Hp0)
    as (e1 & Hloop & Hk1 & Hb1 & Hc1 & Hp1 & Hh1 & _);
    [rewrite strlen_cstr, Hc0; exact Hroom|exact Hkeys|].
  rewrite Hloop.
  destruct (enter_returns cmd_historyDepth expansion_size expansion_underflow mosCommands
              f_find cwd hotkey_strings scrcols bufferLength
              (Z.testbit flags 1) (negb (Z.testbit flags 2)) (negb (Z.testbit flags 3))
              e1 Hs Hk1 Hb1) as (e' & Hret & Hbuf & Hpos);
    [rewrite Hh1; exact Hok0|].
  exists e'. split; [exact Hret|]. rewrite Hbuf, Hpos, Hp1, Hc1, Hc0.
  split; [reflexivity|]. now rewrite strlen_cstr, Hc1, Hc0.
Qed.

(** X21. Typing a line: when printable keys (codes 32 to 255, 127
    aside) are followed by Enter and the text fits the buffer,
    [mos_EDITLINE] returns 13 and the buffer holds the text it started
    with (nothing when bit 0 of the flags asks for a clear buffer)
    followed by the typed characters, with the insert position at the
    end. *)
Theorem mos_EDITLINE_typed (cmd_historyDepth expansion_size : Z)
    (expansion_underflow : ascii) (mosCommands : list (list ascii))
    (f_find : list ascii -> list ascii -> list FILINFO) (cwd : list ascii)
    (hotkey_strings : list (option (list ascii))) (scrcols : Z)
    (buffer : list ascii) (bufferLength flags : Z)
    (keys : list Z) (hs : history) (h : heap) :
  0 < scrcols -> line_buffer bufferLength buffer ->
  history_ok cmd_historyDepth hs ->
  Forall (fun k => 32 <= k < 256 /\ k <> 127) keys ->
  let start := if Z.testbit flags 0 then [] else cstr buffer in
  Z.of_nat (length start) + Z.of_nat (length keys) <= bufferLength - 1 ->
  exists e',
    mos_EDITLINE cmd_historyDepth expansion_size expansion_underflow mosCommands f_find
      cwd hotkey_strings scrcols buffer bufferLength flags
      (map (mkEvent VK_OTHER) keys ++ [mkEvent VK_OTHER 13]) hs h
    = Returned 13 e' /\
    cstr (ed_buffer e') = start ++ map chr keys /\
    ed_insertPos e' = Z.of_nat (length (start ++ map chr keys)).
Proof. apply mos_EDITLINE_typed_spec. Qed.

Lemma mos_EDITLINE_typed_witness :
  exists e',
    mos_EDITLINE 4 128 NUL mosCommands_table no_files (cconst "/") [] 80
      (buf_of "old" 8) 8 1
      (map (mkEvent VK_OTHER) [68; 73; 82] ++ [mkEvent VK_OTHER 13])
      (editHistoryInit 4) []
    = Returned 13 e' /\
    cstr (ed_buffer e') = [] ++ map chr [68; 73; 82] /\
    ed_insertPos e' = Z.of_nat (length ([] ++ map chr [68; 73; 82])).
Proof.
  apply (mos_EDITLINE_typed 4 128 NUL mosCommands_table no_files (cconst "/") [] 80
           (buf_of "old" 8) 8 1 [68; 73; 82] (editHistoryInit 4) []).
  - lia.
  - split; vm_compute; [reflexivity|discriminate].
  - change (editHistoryInit 4) with (filled 4 [] 0). apply filled_ok. simpl. lia.
  - repeat constructor; lia.
  - vm_compute. discriminate.
Defined.

(** ** Tab completion: what is not completed *)

Lemma strlen_repeat_nul (n : nat) : strlen (repeat NUL n) = 0.
Proof. destruct n; reflexivity. Qed.

Lemma tab_finish_no_match (expansion_size : Z) (expansion_underflow : ascii)
    (showall : bool) (ctx : tab_expansion_context) (buffer : list ascii)
    (buffer_len insertPos : Z) :
  num_matches ctx = 0 -> strlen (expansion ctx) = 0 ->
  tab_finish expansion_size expansion_underflow showall ctx buffer buffer_len insertPos
  = (buffer, insertPos, showall, []).
Proof. intros Hn Hl. unfold tab_finish. rewrite Hn, Hl. reflexivity. Qed.

(** X22. Tab does not complete a file-name argument that holds a wildcard:
    when the text before the cursor has a blank and the word behind the
    last blank contains [*] or [?], [do_tab_complete] looks nothing up,
    leaves the line, the insert position and the show-all flag as they
    were, prints nothing and allocates nothing. *)
Theorem do_tab_complete_wildcard (expansion_size : Z) (expansion_underflow : ascii)
    (mosCommands : list (list ascii))
    (f_find : list ascii -> list ascii -> list FILINFO) (cwd : list ascii)
    (showall : bool) (buffer : list ascii) (buffer_len insertPos : Z) (h : heap)
    (i : Z) :
  slice_strrchr buffer insertPos " "%char = Some i ->
  is_some (slice_strrchr (at_offset buffer (i + 1)) (insertPos - (i + 1)) "*"%char)
  || is_some (slice_strrchr (at_offset buffer (i + 1)) (insertPos - (i + 1)) "?"%char)
  = true ->
  do_tab_complete expansion_size expansion_underflow mosCommands f_find cwd
    showall buffer buffer_len insertPos h
  = (buffer, insertPos, showall, [], h).
Proof.
  intros Hsp Hwild. unfold do_tab_complete, tab_enumerate.
  rewrite Hsp. cbn [is_some]. rewrite !orb_true_r.
  unfold try_tab_expand_argument. cbn [fst cmdline cmdline_insertpos].
  rewrite Hsp, Hwild.
  rewrite tab_finish_no_match; [reflexivity|reflexivity|].
  cbn [expansion]. apply strlen_repeat_nul.
Qed.

Lemma do_tab_complete_wildcard_witness :
  do_tab_complete 128 NUL mosCommands_table two_bins (cconst "/")
    false (buf_of "DIR X*" 16) 16 6 []
  = (buf_of "DIR X*" 16, 6, false, [], []).
Proof.
  apply (do_tab_complete_wildcard 128 NUL mosCommands_table two_bins (cconst "/")
           false (buf_of "DIR X*" 16) 16 6 [] 3).
  - reflexivity.
  - reflexivity.
Defined.

(** ** Tab completion of a command name *)

Lemma toupper_nul (c : ascii) : toupper c = NUL -> c = NUL.
Proof.
  unfold toupper. destruct ((97 <=? code c) && (code c <=? 122)) eqn:E; [|auto].
  apply andb_true_iff in E as [E1 E2]. apply Z.leb_le in E1, E2.
  intros H. apply chr_not_nul in H; [contradiction|lia].
Qed.

Lemma strncasecmp_eq_len (n : nat) : forall a b : list ascii,
  strncasecmp_eq n a b = true -> (n <= strlen_nat a)%nat -> (n <= strlen_nat b)%nat.
Proof.
  induction n as [|n IH]; intros a b Hc Ha; [lia|].
  cbn [strncasecmp_eq] in Hc.
  destruct a as [|ca a]; [simpl in Ha; lia|].
  cbn [strlen_nat] in Ha. cbn [hd tl] in Hc.
  destruct (is_nul ca) eqn:Eca; [lia|].
  destruct (Ascii.eqb (toupper ca) (toupper (hd NUL b))) eqn:Eq; [|discriminate].
  apply Ascii.eqb_eq in Eq.
  destruct b as [|cb b]; cbn [hd tl] in *.
  - symmetry in Eq. change (toupper NUL) with NUL in Eq. symmetry in Eq.
    apply toupper_nul in Eq. subst ca. discriminate.
  - cbn [strlen_nat]. destruct (is_nul cb) eqn:Ecb.
    + apply Ascii.eqb_eq in Ecb. subst cb. change (toupper NUL) with NUL in Eq.
      apply toupper_nul in Eq. subst ca. discriminate.
    + apply IH in Hc; lia.
Qed.

Lemma common_prefix_length (a b : list ascii) :
  (length (common_prefix a b) <= length a)%nat.
Proof.
  revert b. induction a as [|x a IH]; intros [|y b]; simpl; try lia.
  destruct (Ascii.eqb _ _); simpl; [specialize (IH b)|]; lia.
Qed.

Lemma common_prefix_loop_length (fuel : nat) : forall (j : Z) (acc exp : list ascii),
  length (common_prefix_loop fuel j acc exp) = length acc.
Proof.
  induction fuel as [|fuel IH]; intros j acc exp; cbn [common_prefix_loop]; [reflexivity|].
  destruct (_ || _); [apply wr_length|apply IH].
Qed.

Lemma notify_tab_expansion_length (expansion_size : Z) (showall : bool)
    (type : TabExpansionType) (full : list ascii) (fullLen : Z)
    (exp : list ascii) (expLen : Z) (ctx : tab_expansion_context)
    (o : list vdu) (h : heap) :
  length (expansion (fst (fst (notify_tab_expansion expansion_size showall type full
                                 fullLen exp expLen (ctx, o, h)))))
  = length (expansion ctx) /\
  cmdline (fst (fst (notify_tab_expansion expansion_size showall type full
                       fullLen exp expLen (ctx, o, h)))) = cmdline ctx /\
  cmdline_insertpos (fst (fst (notify_tab_expansion expansion_size showall type full
                                 fullLen exp expLen (ctx, o, h)))) = cmdline_insertpos ctx.
Proof.
  unfold notify_tab_expansion.
  destruct (if showall then _ else _) as [[cands o1] h1].
  cbn [fst expansion cmdline cmdline_insertpos]. split; [|split; reflexivity].
  destruct (num_matches ctx =? 0).
  - now rewrite wr_length, memcpy_length.
  - apply common_prefix_loop_length.
Qed.

Lemma accumulate_snoc (size : Z) (ss : list (list ascii)) (s : list ascii) :
  ss <> [] -> accumulate size (ss ++ [s]) = common_prefix (accumulate size ss) s.
Proof.
  destruct ss as [|s0 ss]; [contradiction|]. intros _.
  cbn [accumulate app]. now rewrite fold_left_app.
Qed.

Lemma try_tab_expand_internal_cmd_fold (size : Z) (showall : bool)
    (buffer : list ascii) (pos : Z) (cmds : list (list ascii)) :
  0 < size -> 0 <= pos <= strlen buffer ->
  forall (ss : list (list ascii)) (ts : tab_expansion_context * list vdu * heap),
  cmdline (fst (fst ts)) = buffer -> cmdline_insertpos (fst (fst ts)) = pos ->
  num_matches (fst (fst ts)) = Z.of_nat (length ss) ->
  line_buffer size (expansion (fst (fst ts))) ->
  cstr (expansion (fst (fst ts))) = accumulate size ss ->
  let ts' := try_tab_expand_internal_cmd size cmds showall ts in
  let ss' :=
    ss ++ map (fun name => drop (Z.to_nat pos) (cstr name))
            (List.filter (fun name => strncasecmp_eq (Z.to_nat pos) buffer name) cmds) in
  num_matches (fst (fst ts')) = Z.of_nat (length ss') /\
  cstr (expansion (fst (fst ts'))) = accumulate size ss'.
Proof.
  intros Hsize Hpos. unfold try_tab_expand_internal_cmd.
  induction cmds as [|name cmds IH]; intros ss ts Hcl Hip Hnum Hlb Hacc;
    cbn [fold_left List.filter map].
  - rewrite app_nil_r. split; assumption.
  - rewrite Hcl, Hip.
    destruct (strncasecmp_eq (Z.to_nat pos) buffer name) eqn:Em.
    2:{ apply IH; assumption. }
    cbn [map].
    replace (ss ++ drop (Z.to_nat pos) (cstr name)
                :: map (fun name0 => drop (Z.to_nat pos) (cstr name0))
                     (List.filter (fun name0 => strncasecmp_eq (Z.to_nat pos) buffer name0)
                        cmds))
      with ((ss ++ [drop (Z.to_nat pos) (cstr name)])
            ++ map (fun name0 => drop (Z.to_nat pos) (cstr name0))
                 (List.filter (fun name0 => strncasecmp_eq (Z.to_nat pos) buffer name0) cmds))
      by (now rewrite <- app_assoc).
    assert (Hle : pos <= strlen name).
    { apply strncasecmp_eq_len in Em; unfold strlen in *; lia. }
    assert (Hsuf : cstr (at_offset name pos) = drop (Z.to_nat pos) (cstr name))
      by (apply cstr_at_offset; lia).
    assert (Hsl : strlen (at_offset name pos) = strlen name - pos).
    { rewrite (strlen_cstr (at_offset name pos)), Hsuf, length_drop, cstr_length.
      unfold strlen in *. lia. }
    destruct ts as [[ctx o] h]. cbn [fst] in *.
    pose proof (notify_tab_expansion_length size showall ExpandNormal name (strlen name)
                  (at_offset name pos) (strlen name - pos) ctx o h) as (Hl' & Hcl' & Hip').
    assert (Hstep :
      num_matches (fst (fst (notify_tab_expansion size showall ExpandNormal name
                               (strlen name) (at_offset name pos) (strlen name - pos)
                               (ctx, o, h))))
      = Z.of_nat (length (ss ++ [drop (Z.to_nat pos) (cstr name)])) /\
      cstr (expansion (fst (fst (notify_tab_expansion size showall ExpandNormal name
                                   (strlen name) (at_offset name pos) (strlen name - pos)
                                   (ctx, o, h)))))
      = accumulate size (ss ++ [drop (Z.to_nat pos) (cstr name)])).
    { rewrite length_app. cbn [length].
      destruct ss as [|s0 ss0].
      - destruct (notify_tab_expansion_first size showall ExpandNormal name (strlen name)
                    (at_offset name pos) (strlen name - pos) ctx o h) as [Hn' Hc'];
          [exact Hnum|apply Hlb|lia|exact Hsize|].
        split; [rewrite Hn'; reflexivity|].
        rewrite Hc', Hsuf. cbn [app accumulate fold_left].
        destruct (Z.le_gt_cases (strlen name - pos) (size - 1)) as [Hfit|Hcut].
        + rewrite !take_ge; [reflexivity|rewrite length_drop, cstr_length;
            unfold strlen in *; lia..].
        + f_equal. lia.
      - destruct (notify_tab_expansion_later size showall ExpandNormal name (strlen name)
                    (at_offset name pos) (strlen name - pos) ctx o h) as [Hn' Hc'];
          [rewrite Hnum; cbn [length]; lia|exact Hlb|].
        split; [rewrite Hn', Hnum; lia|].
        rewrite accumulate_snoc by discriminate.
        now rewrite <- Hacc, <- Hsuf. }
    destruct Hstep as [Hn1 Hc1].
    apply IH.
    + now rewrite Hcl'.
    + now rewrite Hip'.
    + exact Hn1.
    + split; [rewrite Hl'; apply Hlb|].
      rewrite strlen_cstr, Hc1.
      destruct ss as [|s0 ss0].
      * cbn [app accumulate fold_left]. rewrite length_take. lia.
      * rewrite accumulate_snoc by discriminate.
        pose proof (common_prefix_length (accumulate size (s0 :: ss0))
                      (drop (Z.to_nat pos) (cstr name))).
        rewrite <- Hacc in *. destruct Hlb as [_ Hs]. rewrite strlen_cstr in Hs. lia.
    + exact Hc1.
Qed.

(** X23. Tab on a command name: [try_tab_expand_internal_cmd], started
    on a fresh context, counts the commands of the table whose name
    begins with the typed text (letter case aside) and leaves in the
    accumulator the first such name's continuation, cut to the room of
    the accumulator and then to what every later matching name's
    continuation shares with it. *)
Theorem try_tab_expand_internal_cmd_common (size : Z) (showall : bool)
    (buffer : list ascii) (pos : Z) (cmds : list (list ascii))
    (o : list vdu) (h : heap) :
  0 < size -> 0 <= pos <= strlen buffer ->
  let ts' :=
    try_tab_expand_internal_cmd size cmds showall
      (mkCtx 0 buffer pos (repeat NUL (Z.to_nat size)) [], o, h) in
  let ss :=
    map (fun name => drop (Z.to_nat pos) (cstr name))
      (List.filter (fun name => strncasecmp_eq (Z.to_nat pos) buffer name) cmds) in
  num_matches (fst (fst ts')) = Z.of_nat (length ss) /\
  cstr (expansion (fst (fst ts'))) = accumulate size ss.
Proof.
  intros Hsize Hpos.
  apply (try_tab_expand_internal_cmd_fold size showall buffer pos cmds Hsize Hpos []);
    try reflexivity; cbn [fst expansion].
  - split; [rewrite repeat_length; lia|rewrite strlen_repeat_nul; lia].
  - apply cstr_nil_iff. destruct (Z.to_nat size); reflexivity.
Qed.

Lemma try_tab_expand_internal_cmd_common_witness :
  let ts' :=
    try_tab_expand_internal_cmd 128 mosCommands_table false
      (mkCtx 0 (buf_of "mo" 16) 2 (repeat NUL (Z.to_nat 128)) [], [], []) in
  let ss :=
    map (fun name => drop (Z.to_nat 2) (cstr name))
      (List.filter (fun name => strncasecmp_eq (Z.to_nat 2) (buf_of "mo" 16) name)
         mosCommands_table) in
  num_matches (fst (fst ts')) = Z.of_nat (length ss) /\
  cstr (expansion (fst (fst ts'))) = accumulate 128 ss.
Proof.
  apply (try_tab_expand_internal_cmd_common 128 false (buf_of "mo" 16) 2
           mosCommands_table [] []).
  - lia.
  - vm_compute. split; discriminate.
Defined.

(** ** Whole calls: Escape, Cursor Up after Enter, function keys *)

Section Sessions.

Variable cmd_historyDepth : Z.
Variable expansion_size : Z.
Variable expansion_underflow : ascii.
Variable mosCommands : list (list ascii).
Variable f_find : list ascii -> list ascii -> list FILINFO.
Variable cwd : list ascii.
Variable hotkey_strings : list (option (list ascii)).
Variable scrcols : Z.
Variable N : Z.
Variable enableTab enableHotkeys : bool.
Hypothesis scrcols_pos : 0 < scrcols.

Lemma loop_finishes (enableHistory : bool) (events : list keyboard_event_t) (e : editor) :
  ed_keyr e <> 0 ->
  exists e',
    edit_loop cmd_historyDepth expansion_size expansion_underflow mosCommands f_find cwd
      hotkey_strings scrcols N enableTab enableHotkeys enableHistory events e
    = Returned (ed_keyr e) e' /\
    ed_buffer e' = ed_buffer e /\ ed_insertPos e' = ed_insertPos e /\
    ed_history e' = ed_history e /\ ed_heap e' = ed_heap e.
Proof.
  intros Hk.
  assert (Hgo : edit_loop cmd_historyDepth expansion_size expansion_underflow mosCommands
                  f_find cwd hotkey_strings scrcols N enableTab enableHotkeys
                  enableHistory events e = edit_finish scrcols e).
  { destruct events; cbn [edit_loop];
      destruct (Z.eqb_spec (ed_keyr e) 0); try contradiction; reflexivity. }
  rewrite Hgo. unfold edit_finish.
  destruct (cursor_down scrcols _ _ _) as [[len' o]|] eqn:Ec.
  - eexists. split; [reflexivity|]. editor_simpl. repeat split.
  - exfalso. revert Ec. apply cursor_down_ends; [exact scrcols_pos|]. lia.
Qed.

Lemma escape_returns (enableHistory : bool) (e : editor) :
  ed_keyr e = 0 ->
  exists e',
    edit_loop cmd_historyDepth expansion_size expansion_underflow mosCommands f_find cwd
      hotkey_strings scrcols N enableTab enableHotkeys enableHistory
      [mkEvent VK_OTHER 27] e
    = Returned 27 e' /\
    ed_buffer e' = ed_buffer e /\ ed_insertPos e' = ed_insertPos e /\
    ed_history e' = ed_history e /\ ed_heap e' = ed_heap e.
Proof.
  intros Hk. cbn [edit_loop]. rewrite Hk. cbn [Z.eqb negb].
  unfold edit_step, dispatch_key. cbn [ev_vkey ev_ascii].
  change (27 mod 256) with 27. change (negb (27 =? 9)) with true. cbv iota.
  set (e2 := set_showall false (set_len (strlen (ed_buffer e)) e)).
  change (ascii_key expansion_size expansion_underflow mosCommands f_find cwd N
            enableTab 27 e2) with (set_keyr 27 e2, 0).
  cbv iota beta.
  assert (Hstep : (if enableHistory
                   then history_step cmd_historyDepth N 0 (set_keyr 27 e2)
                   else Some (set_keyr 27 e2)) = Some (set_keyr 27 e2))
    by (destruct enableHistory; reflexivity).
  rewrite Hstep.
  destruct (loop_finishes enableHistory [] (set_keyr 27 e2)) as (e' & Hf & H1 & H2 & H3 & H4);
    [discriminate|].
  exists e'. split; [exact Hf|]. now repeat split.
Qed.

Lemma enter_pushes (e : editor) :
  ed_keyr e = 0 -> line_buffer N (ed_buffer e) ->
  history_ok cmd_historyDepth (ed_history e) ->
  exists e',
    edit_loop cmd_historyDepth expansion_size expansion_underflow mosCommands f_find cwd
      hotkey_strings scrcols N enableTab enableHotkeys true
      [mkEvent VK_OTHER 13] e
    = Returned 13 e' /\
    ed_buffer e' = ed_buffer e /\
    editHistoryPush cmd_historyDepth (ed_buffer e) N (ed_history e) (ed_heap e)
    = Some (ed_history e', ed_heap e').
Proof.
  intros Hk Hb Hok. cbn [edit_loop]. rewrite Hk. cbn [Z.eqb negb].
  unfold edit_step, dispatch_key. cbn [ev_vkey ev_ascii].
  change (13 mod 256) with 13. change (negb (13 =? 9)) with true. cbv iota.
  set (e2 := set_showall false (set_len (strlen (ed_buffer e)) e)).
  change (ascii_key expansion_size expansion_underflow mosCommands f_find cwd N
            enableTab 13 e2) with (set_keyr 13 e2, 1).
  cbv iota beta.
  unfold history_step. change (1 =? 1) with true. cbv iota.
  destruct (editHistoryPush_defined cmd_historyDepth N (ed_buffer e)
              (ed_history e) (ed_heap e) Hb Hok) as [[hs' h'] Hpush].
  change (ed_buffer (set_keyr 13 e2)) with (ed_buffer e).
  change (ed_history (set_keyr 13 e2)) with (ed_history e).
  change (ed_heap (set_keyr 13 e2)) with (ed_heap e).
  rewrite Hpush. cbn [mbind option_bind].
  destruct (loop_finishes true [] (set_heap h' (set_history hs' (set_keyr 13 e2))))
    as (e' & Hf & H1 & H2 & H3 & H4); [discriminate|].
  exists e'. split; [exact Hf|]. split; [exact H1|]. now rewrite H3, H4.
Qed.

Lemma up_step (e : editor) :
  line_buffer N (ed_buffer e) -> history_ok cmd_historyDepth (ed_history e) ->
  0 < history_size (ed_history e) ->
  history_no (ed_history e) <= history_size (ed_history e) ->
  exists e' entry,
    edit_step cmd_historyDepth expansion_size expansion_underflow mosCommands f_find cwd
      hotkey_strings N enableTab enableHotkeys true (mkEvent VK_OTHER 11) e
    = Some e' /\
    ed_keyr e' = ed_keyr e /\ line_buffer N (ed_buffer e') /\
    history_entry (ed_history e) (Z.max (history_no (ed_history e) - 1) 0) = Some entry /\
    cstr (ed_buffer e') = take (Z.to_nat (N - 1)) (cstr entry) /\
    cmd_history (ed_history e') = cmd_history (ed_history e) /\
    history_size (ed_history e') = history_size (ed_history e) /\
    ed_heap e' = ed_heap e.
Proof.
  intros Hb Hok Hsz Hno.
  unfold edit_step, dispatch_key. cbn [ev_vkey ev_ascii].
  change (11 mod 256) with 11. change (negb (11 =? 9)) with true. cbv iota.
  set (e2 := set_showall false (set_len (strlen (ed_buffer e)) e)).
  change (ascii_key expansion_size expansion_underflow mosCommands f_find cwd N
            enableTab 11 e2) with (e2, 2).
  cbv iota beta.
  unfold history_step. change (2 =? 1) with false. change (2 =? 2) with true. cbv iota.
  destruct (editHistoryUp_spec cmd_historyDepth N (ed_buffer e) (ed_insertPos e)
              (strlen (ed_buffer e)) (ed_history e) Hok Hb Hsz Hno)
    as (entry & b' & He & Hup & Hb' & Hc').
  change (ed_buffer e2) with (ed_buffer e). change (ed_insertPos e2) with (ed_insertPos e).
  change (ed_len e2) with (strlen (ed_buffer e)).
  change (ed_history e2) with (ed_history e).
  rewrite Hup. cbn [fmap option_fmap option_map].
  eexists. exists entry. split; [reflexivity|]. editor_simpl.
  split; [reflexivity|split; [exact Hb'|split; [exact He|split; [exact Hc'|]]]].
  now repeat split.
Qed.

Lemma hotkey_step (enableHistory : bool) (vk : vkey) (a fkey : Z) (e : editor)
    (b : list ascii) (o : list vdu) (h : heap) :
  fkey_of vk = Some fkey -> enableHotkeys = true ->
  handleHotkey hotkey_strings fkey (ed_buffer e) N (ed_insertPos e)
    (strlen (ed_buffer e)) (ed_heap e) = (true, b, o, h) ->
  line_buffer N b -> history_ok cmd_historyDepth (ed_history e) ->
  exists e',
    edit_step cmd_historyDepth expansion_size expansion_underflow mosCommands f_find cwd
      hotkey_strings N enableTab enableHotkeys enableHistory (mkEvent vk a) e
    = Some e' /\
    ed_keyr e' = 13 /\ ed_buffer e' = b.
Proof.
  intros Hf Hen Hh Hb Hok. subst enableHotkeys.
  unfold edit_step, dispatch_key. cbn [ev_vkey ev_ascii].
  set (e2 := if negb (a mod 256 =? 9) then _ else _).
  assert (He2 : ed_buffer e2 = ed_buffer e /\ ed_insertPos e2 = ed_insertPos e /\
                ed_len e2 = strlen (ed_buffer e) /\ ed_heap e2 = ed_heap e /\
                ed_history e2 = ed_history e)
    by (subst e2; destruct (negb _); repeat split).
  clearbody e2. destruct He2 as (E1 & E2 & E3 & E4 & E5).
  assert (Hgo : forall fk, fk = fkey ->
    exists e',
      (let '(e3, historyAction) :=
         let '(handled, b0, o0, h0) :=
           handleHotkey hotkey_strings fk (ed_buffer e2) N (ed_insertPos e2)
             (ed_len e2) (ed_heap e2) in
         let e1 := set_heap h0 (put o0 (set_buffer b0 e2)) in
         if handled then
           ascii_key expansion_size expansion_underflow mosCommands f_find cwd N
             enableTab 13 (set_insertPos (strlen b0) (set_len (strlen b0) e1))
         else (e1, 0) in
       if enableHistory then history_step cmd_historyDepth N historyAction e3
       else Some e3) = Some e' /\
      ed_keyr e' = 13 /\ ed_buffer e' = b).
  { intros fk ->. rewrite E1, E2, E3, E4, Hh. cbv beta iota zeta.
    set (e4 := set_insertPos (strlen b) (set_len (strlen b)
                 (set_heap h (put o (set_buffer b e2))))).
    change (ascii_key expansion_size expansion_underflow mosCommands f_find cwd N
              enableTab 13 e4) with (set_keyr 13 e4, 1).
    cbv iota beta zeta.
    destruct enableHistory.
    - unfold history_step. change (1 =? 1) with true. cbv iota.
      destruct (editHistoryPush_defined cmd_historyDepth N (ed_buffer (set_keyr 13 e4))
                  (ed_history (set_keyr 13 e4)) (ed_heap (set_keyr 13 e4)))
        as [[hs' h'] Hpush]; [exact Hb|subst e4; editor_simpl; rewrite E5; exact Hok|].
      rewrite Hpush. cbn [mbind option_bind].
      eexists. split; [reflexivity|]. now split.
    - eexists. split; [reflexivity|]. now split. }
  destruct vk; try discriminate Hf; cbn [fkey_of from_option id] in *;
    injection Hf as Hf; apply Hgo; exact Hf.
Qed.

End Sessions.

(** X24. Escape ends the call without storing anything: after printable
    keys that fit the buffer, Escape makes [mos_EDITLINE] return 27 with
    the typed text still in the buffer, the history table as it was (and
    [history_no] at its end) and no allocation made. *)
Theorem mos_EDITLINE_escape (cmd_historyDepth expansion_size : Z)
    (expansion_underflow : ascii) (mosCommands : list (list ascii))
    (f_find : list ascii -> list ascii -> list FILINFO) (cwd : list ascii)
    (hotkey_strings : list (option (list ascii))) (scrcols : Z)
    (buffer : list ascii) (bufferLength flags : Z)
    (keys : list Z) (hs : history) (h : heap) :
  0 < scrcols -> line_buffer bufferLength buffer ->
  Forall (fun k => 32 <= k < 256 /\ k <> 127) keys ->
  let start := if Z.testbit flags 0 then [] else cstr buffer in
  Z.of_nat (length start) + Z.of_nat (length keys) <= bufferLength - 1 ->
  exists e',
    mos_EDITLINE cmd_historyDepth expansion_size expansion_underflow mosCommands f_find
      cwd hotkey_strings scrcols buffer bufferLength flags
      (map (mkEvent VK_OTHER) keys ++ [mkEvent VK_OTHER 27]) hs h
    = Returned 27 e' /\
    cstr (ed_buffer e') = start ++ map chr keys /\
    ed_history e' = mkHistory (cmd_history hs) (history_size hs) (history_size hs) /\
    ed_heap e' = h.
Proof.
  intros Hs Hb Hkeys start Hroom. unfold mos_EDITLINE.
  assert (H0 : 0 < bufferLength) by (pose proof (strlen_nonneg buffer); destruct Hb; lia).
  set (e0 := if Z.testbit flags 0 then _ else _).
  assert (He0 : ed_keyr e0 = 0 /\ line_buffer bufferLength (ed_buffer e0) /\
                cstr (ed_buffer e0) = start /\
                ed_insertPos e0 = strlen (ed_buffer e0) /\
                ed_history e0 = mkHistory (cmd_history hs) (history_size hs) (history_size hs) /\
                ed_heap e0 = h).
  { subst e0 start.
    destruct (Z.testbit flags 0); cbn [ed_keyr ed_buffer ed_insertPos ed_history ed_heap].
    - destruct (line_buffer_cleared bufferLength buffer H0 (proj1 Hb)) as [Hb' Hc'].
      split; [reflexivity|split; [exact Hb'|split; [exact Hc'|split; [|split; reflexivity]]]].
      now rewrite (strlen_cstr (wr buffer 0 NUL)), Hc'.
    - split; [reflexivity|split; [exact Hb|split; [reflexivity|split;
        [reflexivity|split; reflexivity]]]]. }
  clearbody e0. destruct He0 as (Hk0 & Hb0 & Hc0 & Hp0 & Hh0 & Hm0).
  destruct (type_keys cmd_historyDepth expansion_size expansion_underflow mosCommands
              f_find cwd hotkey_strings scrcols bufferLength
              (Z.testbit flags 1) (negb (Z.testbit flags 2)) (negb (Z.testbit flags 3))
              [mkEvent VK_OTHER 27] keys e0 Hk0 Hb0 Hp0)
    as (e1 & Hloop & Hk1 & Hb1 & Hc1 & Hp1 & Hh1 & Hm1);
    [rewrite strlen_cstr, Hc0; exact Hroom|exact Hkeys|].
  rewrite Hloop.
  destruct (escape_returns cmd_historyDepth expansion_size expansion_underflow mosCommands
              f_find cwd hotkey_strings scrcols bufferLength
              (Z.testbit flags 1) (negb (Z.testbit flags 2)) Hs
              (negb (Z.testbit flags 3)) e1 Hk1) as (e' & Hret & Hbuf & _ & Hhist & Hheap).
  exists e'. split; [exact Hret|]. rewrite Hbuf, Hhist, Hheap, Hc1, Hc0, Hh1, Hm1.
  split; [reflexivity|split; assumption].
Qed.

Lemma mos_EDITLINE_escape_witness :
  exists e',
    mos_EDITLINE 4 128 NUL mosCommands_table no_files (cconst "/") [] 80
      (buf_of "CD " 8) 8 0
      (map (mkEvent VK_OTHER) [47; 120] ++ [mkEvent VK_OTHER 27])
      (editHistoryInit 4) [false]
    = Returned 27 e' /\
    cstr (ed_buffer e') = cstr (buf_of "CD " 8) ++ map chr [47; 120] /\
    ed_history e'
    = mkHistory (cmd_history (editHistoryInit 4)) (history_size (editHistoryInit 4))
        (history_size (editHistoryInit 4)) /\
    ed_heap e' = [false].
Proof.
  apply (mos_EDITLINE_escape 4 128 NUL mosCommands_table no_files (cconst "/") [] 80
           (buf_of "CD " 8) 8 0 [47; 120] (editHistoryInit 4) [false]).
  - lia.
  - split; vm_compute; [reflexivity|discriminate].
  - repeat constructor; lia.
  - vm_compute. discriminate.
Defined.

(** X25. A line submitted with Enter comes back with Cursor Up: when the
    history is enabled and well formed and the allocation succeeds, a
    non-empty line typed and submitted in one call of [mos_EDITLINE] is
    what the buffer holds when the next call, on any buffer of the same
    size, receives Cursor Up (Ctrl-K, code 11) and Enter. *)
Theorem mos_EDITLINE_recalls (cmd_historyDepth expansion_size : Z)
    (expansion_underflow : ascii) (mosCommands : list (list ascii))
    (f_find : list ascii -> list ascii -> list FILINFO) (cwd : list ascii)
    (hotkey_strings : list (option (list ascii))) (scrcols : Z)
    (buffer buffer2 : list ascii) (bufferLength flags flags2 : Z)
    (keys : list Z) (hs : history) (h : heap) :
  0 < scrcols -> 0 < cmd_historyDepth ->
  line_buffer bufferLength buffer -> line_buffer bufferLength buffer2 ->
  history_ok cmd_historyDepth hs -> fst (umm_malloc h) = true ->
  Z.testbit flags 3 = false -> Z.testbit flags2 3 = false ->
  Forall (fun k => 32 <= k < 256 /\ k <> 127) keys ->
  let line := (if Z.testbit flags 0 then [] else cstr buffer) ++ map chr keys in
  line <> [] -> Z.of_nat (length line) <= bufferLength - 1 ->
  exists e1 e2,
    mos_EDITLINE cmd_historyDepth expansion_size expansion_underflow mosCommands f_find
      cwd hotkey_strings scrcols buffer bufferLength flags
      (map (mkEvent VK_OTHER) keys ++ [mkEvent VK_OTHER 13]) hs h
    = Returned 13 e1 /\
    cstr (ed_buffer e1) = line /\
    mos_EDITLINE cmd_historyDepth expansion_size expansion_underflow mosCommands f_find
      cwd hotkey_strings scrcols buffer2 bufferLength flags2
      [mkEvent VK_OTHER 11; mkEvent VK_OTHER 13] (ed_history e1) (ed_heap e1)
    = Returned 13 e2 /\
    cstr (ed_buffer e2) = line.
Proof.
  intros Hs Hd Hb Hb2 Hok Hal Hf1 Hf2 Hkeys line Hne Hroom.
  assert (H0 : 0 < bufferLength) by (pose proof (strlen_nonneg buffer); destruct Hb; lia).
  (* the first call *)
  assert (Hfirst : exists r1,
    mos_EDITLINE cmd_historyDepth expansion_size expansion_underflow mosCommands f_find
      cwd hotkey_strings scrcols buffer bufferLength flags
      (map (mkEvent VK_OTHER) keys ++ [mkEvent VK_OTHER 13]) hs h
    = Returned 13 r1 /\
    cstr (ed_buffer r1) = line /\
    0 < history_size (ed_history r1) /\
    history_ok cmd_historyDepth (ed_history r1) /\
    exists entry,
      history_entry (ed_history r1) (history_size (ed_history r1) - 1) = Some entry /\
      cstr entry = line).
  { unfold mos_EDITLINE. rewrite Hf1. cbn [negb].
    set (e0 := if Z.testbit flags 0 then _ else _).
    assert (He0 : ed_keyr e0 = 0 /\ line_buffer bufferLength (ed_buffer e0) /\
                  cstr (ed_buffer e0) = (if Z.testbit flags 0 then [] else cstr buffer) /\
                  ed_insertPos e0 = strlen (ed_buffer e0) /\
                  history_ok cmd_historyDepth (ed_history e0) /\ ed_heap e0 = h).
    { subst e0.
      destruct (Z.testbit flags 0); cbn [ed_keyr ed_buffer ed_insertPos ed_history ed_heap].
      - destruct (line_buffer_cleared bufferLength buffer H0 (proj1 Hb)) as [Hb' Hc'].
        split; [reflexivity|split; [exact Hb'|split; [exact Hc'|split;
          [|split; [exact Hok|reflexivity]]]]].
        now rewrite (strlen_cstr (wr buffer 0 NUL)), Hc'.
      - split; [reflexivity|split; [exact Hb|split; [reflexivity|split;
          [reflexivity|split; [exact Hok|reflexivity]]]]]. }
    clearbody e0. destruct He0 as (Hk0 & Hb0 & Hc0 & Hp0 & Hok0 & Hm0).
    subst line. rewrite length_app, length_map in Hroom.
    destruct (type_keys cmd_historyDepth expansion_size expansion_underflow mosCommands
                f_find cwd hotkey_strings scrcols bufferLength
                (Z.testbit flags 1) (negb (Z.testbit flags 2)) true
                [mkEvent VK_OTHER 13] keys e0 Hk0 Hb0 Hp0)
      as (e1 & Hloop & Hk1 & Hb1 & Hc1 & Hp1 & Hh1 & Hm1);
      [rewrite strlen_cstr, Hc0; lia|exact Hkeys|].
    rewrite Hloop. rewrite Hc0 in Hc1.
    destruct (enter_pushes cmd_historyDepth expansion_size expansion_underflow mosCommands
                f_find cwd hotkey_strings scrcols bufferLength
                (Z.testbit flags 1) (negb (Z.testbit flags 2)) Hs e1 Hk1 Hb1)
      as (r1 & Hret1 & Hbuf1 & Hpush); [rewrite Hh1; exact Hok0|].
    rewrite Hh1, Hm1, Hm0 in Hpush.
    assert (Hpos : 0 < strlen (ed_buffer e1)).
    { rewrite strlen_cstr, Hc1.
      destruct ((if Z.testbit flags 0 then [] else cstr buffer) ++ map chr keys);
        [contradiction|simpl; lia]. }
    destruct (editHistoryPush_newest cmd_historyDepth bufferLength (ed_buffer e1)
                (ed_history e0) (ed_history r1) h (ed_heap r1) Hd Hb1 Hpos Hok0 Hal Hpush)
      as (Hsz & entry & Hentry & Hsame).
    destruct (editHistoryPush_ok cmd_historyDepth bufferLength (ed_buffer e1)
                (ed_history e0) (ed_history r1) h (ed_heap r1) Hd Hb1 Hok0 Hal Hpush)
      as [Hok1 _].
    exists r1. split; [exact Hret1|split; [now rewrite Hbuf1|split; [exact Hsz|split;
      [exact Hok1|]]]].
    exists entry. split; [exact Hentry|]. now rewrite <- Hsame. }
  destruct Hfirst as (r1 & Hret1 & Hline1 & Hsz & Hok1 & entry & Hentry & Hsame).
  exists r1.
  (* the second call *)
  assert (Hsecond : exists r2,
    mos_EDITLINE cmd_historyDepth expansion_size expansion_underflow mosCommands f_find
      cwd hotkey_strings scrcols buffer2 bufferLength flags2
      [mkEvent VK_OTHER 11; mkEvent VK_OTHER 13] (ed_history r1) (ed_heap r1)
    = Returned 13 r2 /\
    cstr (ed_buffer r2) = line).
  { unfold mos_EDITLINE. rewrite Hf2. cbn [negb].
    set (s0 := if Z.testbit flags2 0 then _ else _).
    assert (Hs0 : ed_keyr s0 = 0 /\ line_buffer bufferLength (ed_buffer s0) /\
                  ed_history s0
                  = mkHistory (cmd_history (ed_history r1)) (history_size (ed_history r1))
                      (history_size (ed_history r1))).
    { subst s0. destruct (Z.testbit flags2 0); cbn [ed_keyr ed_buffer ed_history].
      - destruct (line_buffer_cleared bufferLength buffer2 H0 (proj1 Hb2)) as [Hb' _].
        split; [reflexivity|split; [exact Hb'|reflexivity]].
      - split; [reflexivity|split; [exact Hb2|reflexivity]]. }
    clearbody s0. destruct Hs0 as (Hks & Hbs & Hhs).
    assert (Hoks : history_ok cmd_historyDepth (ed_history s0)) by (rewrite Hhs; exact Hok1).
    destruct (up_step cmd_historyDepth expansion_size expansion_underflow mosCommands
                f_find cwd hotkey_strings bufferLength
                (Z.testbit flags2 1) (negb (Z.testbit flags2 2)) s0 Hbs Hoks)
      as (s1 & entry' & Hstep & Hk1' & Hb1' & He' & Hc1' & Hcmd & Hsize & _);
      [rewrite Hhs; exact Hsz|rewrite Hhs; cbn [history_no history_size]; lia|].
    rewrite Hhs in He'. cbn [history_no history_size] in He'.
    replace (Z.max (history_size (ed_history r1) - 1) 0)
      with (history_size (ed_history r1) - 1) in He' by lia.
    change (history_entry
              (mkHistory (cmd_history (ed_history r1)) (history_size (ed_history r1))
                 (history_size (ed_history r1))) (history_size (ed_history r1) - 1))
      with (history_entry (ed_history r1) (history_size (ed_history r1) - 1)) in He'.
    rewrite Hentry in He'. injection He' as <-.
    assert (Hok1' : history_ok cmd_historyDepth (ed_history s1)).
    { unfold history_ok, history_entry in *. rewrite Hcmd, Hsize. exact Hoks. }
    destruct (enter_returns cmd_historyDepth expansion_size expansion_underflow mosCommands
                f_find cwd hotkey_strings scrcols bufferLength
                (Z.testbit flags2 1) (negb (Z.testbit flags2 2)) true
                s1 Hs (eq_trans Hk1' Hks) Hb1' Hok1') as (r2 & Hret2 & Hbuf2 & _).
    exists r2. split.
    - cbn [edit_loop]. rewrite Hks. cbn [Z.eqb negb]. rewrite Hstep. exact Hret2.
    - rewrite Hbuf2, Hc1', Hsame. apply take_ge. lia. }
  destruct Hsecond as (r2 & Hret2 & Hline2).
  exists r2. split; [exact Hret1|split; [exact Hline1|split; [exact Hret2|exact Hline2]]].
Qed.

Lemma mos_EDITLINE_recalls_witness :
  exists e1 e2,
    mos_EDITLINE 4 128 NUL mosCommands_table no_files (cconst "/") [] 80
      (buf_of "" 8) 8 1
      (map (mkEvent VK_OTHER) [68; 73; 82] ++ [mkEvent VK_OTHER 13])
      (editHistoryInit 4) []
    = Returned 13 e1 /\
    cstr (ed_buffer e1) = (if Z.testbit 1 0 then [] else cstr (buf_of "" 8))
                          ++ map chr [68; 73; 82] /\
    mos_EDITLINE 4 128 NUL mosCommands_table no_files (cconst "/") [] 80
      (buf_of "xy" 8) 8 0
      [mkEvent VK_OTHER 11; mkEvent VK_OTHER 13] (ed_history e1) (ed_heap e1)
    = Returned 13 e2 /\
    cstr (ed_buffer e2) = (if Z.testbit 1 0 then [] else cstr (buf_of "" 8))
                          ++ map chr [68; 73; 82].
Proof.
  apply (mos_EDITLINE_recalls 4 128 NUL mosCommands_table no_files (cconst "/") [] 80
           (buf_of "" 8) (buf_of "xy" 8) 8 1 0 [68; 73; 82] (editHistoryInit 4) []).
  - lia.
  - lia.
  - split; vm_compute; [reflexivity|discriminate].
  - split; vm_compute; [reflexivity|discriminate].
  - change (editHistoryInit 4) with (filled 4 [] 0). apply filled_ok. simpl. lia.
  - reflexivity.
  - reflexivity.
  - reflexivity.
  - repeat constructor; lia.
  - vm_compute. discriminate.
  - vm_compute. discriminate.
Defined.

(** X26. A function key with a plain hotkey string submits it at once:
    with hotkeys enabled, a well-formed history and a hotkey string
    without the marker [%s] stored for the key, [mos_EDITLINE] returns 13
    on that key and the buffer holds the hotkey string, cut to
    [bufferLength - 1] characters, whatever the line held before. *)
Theorem mos_EDITLINE_hotkey_submits (cmd_historyDepth expansion_size : Z)
    (expansion_underflow : ascii) (mosCommands : list (list ascii))
    (f_find : list ascii -> list ascii -> list FILINFO) (cwd : list ascii)
    (hotkey_strings : list (option (list ascii))) (scrcols : Z)
    (buffer : list ascii) (bufferLength flags : Z)
    (vk : vkey) (a fkey : Z) (hotkey : list ascii) (hs : history) (h : heap) :
  0 < scrcols -> line_buffer bufferLength buffer ->
  history_ok cmd_historyDepth hs ->
  Z.testbit flags 2 = false ->
  fkey_of vk = Some fkey ->
  mjoin (hotkey_strings !! Z.to_nat fkey) = Some hotkey ->
  strstr hotkey (cconst "%s") = None ->
  exists e',
    mos_EDITLINE cmd_historyDepth expansion_size expansion_underflow mosCommands f_find
      cwd hotkey_strings scrcols buffer bufferLength flags [mkEvent vk a] hs h
    = Returned 13 e' /\
    cstr (ed_buffer e') = take (Z.to_nat (bufferLength - 1)) (cstr hotkey).
Proof.
  intros Hs Hb Hok Hflag Hvk Hslot Hmark. unfold mos_EDITLINE. rewrite Hflag. cbn [negb].
  assert (H0 : 0 < bufferLength) by (pose proof (strlen_nonneg buffer); destruct Hb; lia).
  set (e0 := if Z.testbit flags 0 then _ else _).
  assert (He0 : ed_keyr e0 = 0 /\ line_buffer bufferLength (ed_buffer e0) /\
                history_ok cmd_historyDepth (ed_history e0)).
  { subst e0. destruct (Z.testbit flags 0); cbn [ed_keyr ed_buffer ed_history].
    - destruct (line_buffer_cleared bufferLength buffer H0 (proj1 Hb)) as [Hb' _].
      split; [reflexivity|split; [exact Hb'|exact Hok]].
    - split; [reflexivity|split; [exact Hb|exact Hok]]. }
  clearbody e0. destruct He0 as (Hk0 & Hb0 & Hok0).
  destruct (handleHotkey_plain hotkey_strings fkey hotkey (ed_buffer e0) bufferLength
              (ed_insertPos e0) (strlen (ed_buffer e0)) (ed_heap e0) Hslot Hmark Hb0)
    as (b' & Hh & Hb' & Hc').
  destruct (hotkey_step cmd_historyDepth expansion_size expansion_underflow mosCommands
              f_find cwd hotkey_strings bufferLength (Z.testbit flags 1) true
              (negb (Z.testbit flags 3)) vk a fkey e0 b' _ (ed_heap e0) Hvk eq_refl Hh Hb' Hok0)
    as (e1 & Hstep & Hk1 & Hbuf1).
  cbn [edit_loop]. rewrite Hk0. cbn [Z.eqb negb]. rewrite Hstep.
  destruct (loop_finishes cmd_historyDepth expansion_size expansion_underflow mosCommands
              f_find cwd hotkey_strings scrcols bufferLength (Z.testbit flags 1) true Hs
              (negb (Z.testbit flags 3)) [] e1) as (e' & Hf & Hbuf & _);
    [rewrite Hk1; discriminate|].
  rewrite Hk1 in Hf. exists e'. split; [exact Hf|]. now rewrite Hbuf, Hbuf1.
Qed.

Lemma mos_EDITLINE_hotkey_submits_witness :
  exists e',
    mos_EDITLINE 4 128 NUL mosCommands_table no_files (cconst "/")
      [None; Some (cconst "DIR /mos")] 80 (buf_of "abc" 16) 16 0
      [mkEvent VK_F2 0] (editHistoryInit 4) []
    = Returned 13 e' /\
    cstr (ed_buffer e') = take (Z.to_nat (16 - 1)) (cstr (cconst "DIR /mos")).
Proof.
  apply (mos_EDITLINE_hotkey_submits 4 128 NUL mosCommands_table no_files (cconst "/")
           [None; Some (cconst "DIR /mos")] 80 (buf_of "abc" 16) 16 0
           VK_F2 0 1 (cconst "DIR /mos") (editHistoryInit 4) []).
  - lia.
  - split; vm_compute; [reflexivity|discriminate].
  - change (editHistoryInit 4) with (filled 4 [] 0). apply filled_ok. simpl. lia.
  - reflexivity.
  - reflexivity.
  - reflexivity.
  - reflexivity.
Defined.

(** ** The order of the candidate listing *)

Lemma code_chr (k : Z) : 0 <= k < 256 -> code (chr k) = k.
Proof.
  intros Hk. unfold code, chr. rewrite Z.mod_small by lia.
  rewrite N_ascii_embedding by lia. lia.
Qed.

Lemma tolower_key (c : ascii) :
  0 <= code (tolower c) /\ (code (tolower c) = 0 <-> is_nul c = true).
Proof.
  assert (Hc : 0 <= code c) by (unfold code; lia).
  assert (Hz : code c = 0 <-> is_nul c = true).
  { unfold is_nul. rewrite Ascii.eqb_eq. split.
    - intros H. unfold code in H. rewrite <- (ascii_N_embedding c).
      replace (N_of_ascii c) with 0%N by lia. reflexivity.
    - intros ->. reflexivity. }
  unfold tolower.
  destruct ((65 <=? code c) && (code c <=? 90)) eqn:E; [|now split].
  apply andb_true_iff in E as [E1 E2]. apply Z.leb_le in E1, E2.
  rewrite code_chr by lia. split; [lia|]. rewrite <- Hz. lia.
Qed.

Lemma strcasecmp_swap (a : list ascii) : forall b : list ascii,
  strcasecmp b a = - strcasecmp a b.
Proof.
  induction a as [|ca ra IH]; intros [|cb rb]; cbn [strcasecmp hd tl].
  - reflexivity.
  - change (code (tolower NUL)) with 0.
    destruct (tolower_key cb) as [_ Hk].
    destruct (Z.eqb_spec (code (tolower cb) - 0) 0) as [Hd|Hd]; cbn [negb orb]; [|lia].
    assert (Hn : is_nul cb = true) by (apply Hk; lia). rewrite Hn. lia.
  - change (code (tolower NUL)) with 0.
    destruct (tolower_key ca) as [_ Hk].
    destruct (Z.eqb_spec (code (tolower ca) - 0) 0) as [Hd|Hd]; cbn [negb orb]; [|lia].
    assert (Hn : is_nul ca = true) by (apply Hk; lia). rewrite Hn. lia.
  - destruct (tolower_key ca) as [_ Hka]. destruct (tolower_key cb) as [_ Hkb].
    destruct (Z.eqb_spec (code (tolower ca) - code (tolower cb)) 0) as [Hd|Hd];
      destruct (Z.eqb_spec (code (tolower cb) - code (tolower ca)) 0) as [Hd'|Hd'];
      cbn [negb orb]; try lia.
    assert (Hsame : is_nul ca = is_nul cb).
    { destruct (is_nul ca), (is_nul cb); try reflexivity; exfalso.
      - destruct Hka as [_ H]. specialize (H eq_refl).
        destruct Hkb as [H' _]. specialize (H' ltac:(lia)). discriminate.
      - destruct Hkb as [_ H]. specialize (H eq_refl).
        destruct Hka as [H' _]. specialize (H' ltac:(lia)). discriminate. }
    rewrite Hsame. destruct (is_nul cb); [lia|apply IH].
Qed.

Lemma strcasecmp_refl (a : list ascii) : strcasecmp a a = 0.
Proof.
  induction a as [|ca ra IH]; cbn [strcasecmp hd tl]; [reflexivity|].
  rewrite Z.sub_diag. cbn [Z.eqb negb orb]. now destruct (is_nul ca).
Qed.

Lemma strcasecmp_trans (a : list ascii) : forall b c : list ascii,
  strcasecmp a b <= 0 -> strcasecmp b c <= 0 -> strcasecmp a c <= 0.
Proof.
  induction a as [|ca ra IH]; intros b c Hab Hbc.
  - cbn [strcasecmp]. destruct (tolower_key (hd NUL c)). lia.
  - cbn [strcasecmp] in *.
    destruct (tolower_key ca) as [Hxa Hka].
    destruct (tolower_key (hd NUL b)) as [Hxb Hkb].
    destruct (tolower_key (hd NUL c)) as [Hxc Hkc].
    destruct b as [|cb rb]; cbn [strcasecmp hd tl] in *.
    + (* b is empty: a must start with the terminator *)
      change (code (tolower NUL)) with 0 in *.
      destruct (Z.eqb_spec (code (tolower ca) - 0) 0) as [Hd|Hd]; cbn [negb orb] in Hab;
        [|lia].
      assert (Hn : is_nul ca = true) by (apply Hka; lia). rewrite Hn, orb_true_r. lia.
    + destruct (Z.eqb_spec (code (tolower ca) - code (tolower cb)) 0) as [Hd|Hd];
        cbn [negb orb] in Hab.
      * destruct (is_nul ca) eqn:Ea.
        -- rewrite orb_true_r. destruct Hka as [_ H]. specialize (H eq_refl). lia.
        -- assert (Eb : is_nul cb = false).
           { destruct (is_nul cb) eqn:Eb; [|reflexivity].
             destruct Hkb as [_ H]. specialize (H eq_refl).
             destruct Hka as [H' _]. specialize (H' ltac:(lia)). discriminate. }
           rewrite Eb in Hbc.
           destruct (Z.eqb_spec (code (tolower cb) - code (tolower (hd NUL c))) 0)
             as [Hd2|Hd2]; cbn [negb orb] in Hbc.
           ++ destruct (Z.eqb_spec (code (tolower ca) - code (tolower (hd NUL c))) 0);
                [|lia]. cbn [negb orb]. now apply (IH rb (tl c)).
           ++ destruct (Z.eqb_spec (code (tolower ca) - code (tolower (hd NUL c))) 0);
                cbn [negb orb]; lia.
      * destruct (Z.eqb_spec (code (tolower cb) - code (tolower (hd NUL c))) 0)
          as [Hd2|Hd2]; cbn [negb orb] in Hbc.
        -- destruct (Z.eqb_spec (code (tolower ca) - code (tolower (hd NUL c))) 0);
             cbn [negb orb]; lia.
        -- destruct (Z.eqb_spec (code (tolower ca) - code (tolower (hd NUL c))) 0);
             cbn [negb orb]; lia.
Qed.

(** X27. [cmp_tab_candidate] is a fit comparison for [qsort]: a
    candidate compares equal to itself, swapping the arguments flips the
    sign, "not after" is transitive, and every directory comes before
    every other candidate; candidates of one type are in the
    case-insensitive order of their names. *)
Theorem cmp_tab_candidate_order (a b c : TabExpansionType * list ascii) :
  cmp_tab_candidate a a = 0 /\
  cmp_tab_candidate b a = - cmp_tab_candidate a b /\
  (cmp_tab_candidate a b <= 0 -> cmp_tab_candidate b c <= 0 ->
   cmp_tab_candidate a c <= 0) /\
  (fst a = ExpandDirectory -> fst b = ExpandNormal -> cmp_tab_candidate a b < 0) /\
  (fst a = fst b -> cmp_tab_candidate a b = strcasecmp (snd a) (snd b)).
Proof.
  destruct a as [ta sa], b as [tb sb], c as [tc sc]. unfold cmp_tab_candidate.
  cbn [fst snd]. repeat split.
  - destruct ta; cbn [type_eqb]; apply strcasecmp_refl.
  - destruct ta, tb; cbn [type_eqb]; try apply strcasecmp_swap; reflexivity.
  - destruct ta, tb, tc; cbn [type_eqb]; try lia; apply strcasecmp_trans.
  - intros -> ->. cbn [type_eqb]. lia.
  - intros ->. now destruct tb.
Qed.

(** ** The command prompt *)

(** X28. [mos_input] reads a fresh line: whatever the buffer held, when
    printable keys that fit the buffer are followed by Enter it returns
    13 with exactly the typed text in the buffer; what it sent starts
    with the prompt and ends with the new line. *)
Theorem mos_input_reads_line (cmd_historyDepth expansion_size : Z)
    (expansion_underflow : ascii) (mosCommands : list (list ascii))
    (f_find : list ascii -> list ascii -> list FILINFO) (cwd : list ascii)
    (hotkey_strings : list (option (list ascii))) (scrcols : Z)
    (buffer : list ascii) (bufferLength : Z)
    (keys : list Z) (hs : history) (h : heap) :
  0 < scrcols -> line_buffer bufferLength buffer ->
  history_ok cmd_historyDepth hs ->
  Forall (fun k => 32 <= k < 256 /\ k <> 127) keys ->
  Z.of_nat (length keys) <= bufferLength - 1 ->
  exists e' o,
    mos_input cmd_historyDepth expansion_size expansion_underflow mosCommands f_find
      cwd hotkey_strings scrcols buffer bufferLength
      (map (mkEvent VK_OTHER) keys ++ [mkEvent VK_OTHER 13]) hs h
    = Returned 13 e' /\
    cstr (ed_buffer e') = map chr keys /\
    ed_out e' = [Prompt] ++ o ++ [Print [chr 10; chr 13]].
Proof.
  intros Hs Hb Hok Hkeys Hroom. unfold mos_input.
  destruct (mos_EDITLINE_typed_spec cmd_historyDepth expansion_size expansion_underflow
              mosCommands f_find cwd hotkey_strings scrcols buffer bufferLength 3
              keys hs h Hs Hb Hok Hkeys) as (e & Hret & Hc & _); [exact Hroom|].
  rewrite Hret. eexists. exists (ed_out e). split; [reflexivity|].
  cbn [ed_buffer ed_out]. split; [exact Hc|reflexivity].
Qed.

Lemma mos_input_reads_line_witness :
  exists e' o,
    mos_input 4 128 NUL mosCommands_table no_files (cconst "/") [] 80
      (buf_of "old" 8) 8
      (map (mkEvent VK_OTHER) [67; 76; 83] ++ [mkEvent VK_OTHER 13])
      (editHistoryInit 4) []
    = Returned 13 e' /\
    cstr (ed_buffer e') = map chr [67; 76; 83] /\
    ed_out e' = [Prompt] ++ o ++ [Print [chr 10; chr 13]].
Proof.
  apply (mos_input_reads_line 4 128 NUL mosCommands_table no_files (cconst "/") [] 80
           (buf_of "old" 8) 8 [67; 76; 83] (editHistoryInit 4) []).
  - lia.
  - split; vm_compute; [reflexivity|discriminate].
  - change (editHistoryInit 4) with (filled 4 [] 0). apply filled_ok. simpl. lia.
  - repeat constructor; lia.
  - vm_compute. discriminate.
Defined.
